(** * ZenML: Kubeflow orchestrator lifecycle and the pipeline CLI resolver

    A shallow embedding of
    - [src/zenml/integrations/kubeflow/orchestrators/kubeflow_orchestrator.py]
      (stack validation, status probes, provision / deprovision / resume,
      run submission), and
    - [src/zenml/cli/pipeline.py] (source-reference resolution and the
      [run] command).

    Python code that raises is modelled by an outcome type; code that
    talks to the outside world (k3d, kubectl, the KFP client, the file
    system, the interpreter's import machinery) runs in a small monad that
    threads an abstract world and records every external call, in order. *)

From Stdlib Require Import String Ascii List ZArith Bool Lia DecimalString.
Import ListNotations.
Open Scope string_scope.

(* ===================================================================== *)
(** ** Python runtime: exceptions, outcomes, the execution monad         *)
(* ===================================================================== *)

Module Py.

(** The exception classes that occur in the two source files, plus a
    catch-all for any other class.  [KeyboardInterrupt] stands for the
    [BaseException]s that are not [Exception]s. *)
Inductive ExcClass : Type :=
| PipelineConfigurationError
| ProvisioningError
| AssertionError
| AttributeError
| KeyError
| TypeError
| ValueError
| RuntimeError
| TimeoutError
| ApiException            (* kfp_server_api.exceptions.ApiException *)
| HTTPError               (* urllib3.exceptions.HTTPError *)
| MaxRetryError           (* urllib3.exceptions.MaxRetryError, an HTTPError *)
| KeyboardInterrupt
| OtherException (qualname : string).

Record exn : Type := mkExn { exc_class : ExcClass; exc_message : string }.

(** [isinstance(e, Exception)] *)
Definition is_Exception (e : exn) : bool :=
  match exc_class e with
  | KeyboardInterrupt => false
  | _ => true
  end.

(** [isinstance(e, urllib3.exceptions.HTTPError)] *)
Definition is_HTTPError (e : exn) : bool :=
  match exc_class e with
  | HTTPError | MaxRetryError => true
  | _ => false
  end.

(** [isinstance(e, (ValueError, ApiException))] *)
Definition is_ValueError_or_ApiException (e : exn) : bool :=
  match exc_class e with
  | ValueError | ApiException => true
  | _ => false
  end.

Definition is_AttributeError (e : exn) : bool :=
  match exc_class e with
  | AttributeError => true
  | _ => false
  end.

Inductive outcome (A : Type) : Type :=
| Returned (a : A)
| Raised (e : exn).
Arguments Returned {A} a.
Arguments Raised {A} e.

Definition returned {A} (o : outcome A) : bool :=
  match o with Returned _ => true | Raised _ => false end.

(** One run of a computation: what it returned or raised, the world it
    left behind, and the external calls it made, oldest first. *)
Record Run (W E A : Type) : Type :=
  mkRun { result : outcome A; final : W; events : list E }.
Arguments mkRun {W E A} result final events.
Arguments result {W E A} r.
Arguments final {W E A} r.
Arguments events {W E A} r.

Definition M (W E A : Type) : Type := W -> Run W E A.

Section Monad.
Context {W E : Type}.

Definition ret {A} (a : A) : M W E A :=
  fun w => mkRun (Returned a) w [].

Definition raise {A} (e : exn) : M W E A :=
  fun w => mkRun (Raised e) w [].

Definition bind {A B} (m : M W E A) (k : A -> M W E B) : M W E B :=
  fun w =>
    let r := m w in
    match result r with
    | Returned a =>
        let r' := k a (final r) in
        mkRun (result r') (final r') (events r ++ events r')
    | Raised e => mkRun (Raised e) (final r) (events r)
    end.

(** [try: body  except <catches> as e: handler e] *)
Definition try_except {A} (body : M W E A) (catches : exn -> bool)
  (handler : exn -> M W E A) : M W E A :=
  fun w =>
    let r := body w in
    match result r with
    | Returned a => r
    | Raised e =>
        if catches e
        then let r' := handler e (final r) in
             mkRun (result r') (final r') (events r ++ events r')
        else r
    end.

(** Reading the world without calling anything. *)
Definition gets {A} (f : W -> A) : M W E A :=
  fun w => mkRun (Returned (f w)) w [].

(** An event that leaves the world alone (a log line). *)
Definition emit (ev : E) : M W E unit :=
  fun w => mkRun (Returned tt) w [ev].

(** A read-only question to the outside world; the answer is recorded. *)
Definition ask {A} (ev : A -> E) (f : W -> A) : M W E A :=
  fun w => let a := f w in mkRun (Returned a) w [ev a].

(** A call that may change the world and may raise. *)
Definition invoke {A} (ev : E) (f : W -> outcome A * W) : M W E A :=
  fun w => let p := f w in mkRun (fst p) (snd p) [ev].

(** Python's short-circuit [a and b] on booleans. *)
Definition and_then (a b : M W E bool) : M W E bool :=
  bind a (fun x => if x then b else ret false).

Definition not_ (a : M W E bool) : M W E bool :=
  bind a (fun x => ret (negb x)).

End Monad.

Declare Scope py_scope.
Delimit Scope py_scope with py.
Notation "x <- c1 ;; c2" := (bind c1 (fun x => c2))
  (at level 100, c1 at next level, right associativity) : py_scope.
Notation "c1 ;; c2" := (bind c1 (fun _ => c2))
  (at level 100, right associativity) : py_scope.

(** [needle in haystack] for strings, as a proposition. *)
Definition mentions (haystack needle : string) : Prop :=
  exists before after, haystack = before ++ needle ++ after.

(** Truthiness of an [Optional[str]]: [None] and the empty string are
    falsy. *)
Definition truthy_opt_str (s : option string) : bool :=
  match s with
  | None => false
  | Some "" => false
  | Some _ => true
  end.

(** One turn of the loop of [posixpath.join]: [b] replaces [path] when
    it is absolute, and is appended to it otherwise, after a slash unless
    [path] is empty or ends with one. *)
Definition posixpath_join_step (path b : string) : string :=
  if prefix "/" b then b
  else match path with
       | "" => b
       | _ => if String.eqb (substring (String.length path - 1) 1 path) "/"
              then path ++ b else path ++ "/" ++ b
       end.

(** [posixpath.join(a, *p)]: what [os.path.join] is on a POSIX
    machine. *)
Definition posixpath_join (a : string) (p : list string) : string :=
  fold_left posixpath_join_step p a.

(** [s.split(sep)[-1]]: what follows the last separator, or all of
    [s] when it has none.  [cur] is the segment read so far. *)
Fixpoint split_last (sep : ascii) (s cur : string) : string :=
  match s with
  | EmptyString => cur
  | String c rest =>
      if Ascii.eqb c sep then split_last sep rest ""
      else split_last sep rest (cur ++ String c "")
  end.

(** [str(n)] for an [int]. *)
Definition str_of_int (n : Z) : string :=
  DecimalString.NilZero.string_of_int (Z.to_int n).

(** The newline character. *)
Definition nl : string := String (ascii_of_nat 10) "".

(** [sep.join(parts)] *)
Fixpoint join (sep : string) (parts : list string) : string :=
  match parts with
  | [] => ""
  | [p] => p
  | p :: rest => p ++ sep ++ join sep rest
  end.

End Py.

(* ===================================================================== *)
(** ** kubeflow_orchestrator.py                                          *)
(* ===================================================================== *)

Module Kubeflow.
Import Py.
Local Open Scope py_scope.

(** *** Stack data, as the orchestrator reads it *)

(** A stack component: its [name], [TYPE.value] and [local_path]. *)
Record StackComponent : Type := mkComponent {
  name : string;
  TYPE_value : string;
  local_path : option string }.

(** The stack's container registry: [name], [uri], and the registry's own
    [is_local] property. *)
Record ContainerRegistry : Type := mkRegistry {
  registry_name : string;
  uri : string;
  registry_is_local : bool }.

(** The stack's artifact store: its [path], and whether it is an instance
    of [LocalArtifactStore]. *)
Record ArtifactStore : Type := mkArtifactStore {
  path : string;
  is_LocalArtifactStore : bool }.

(** [stack.components.values()] in dictionary order, the optional
    [stack.container_registry], and [stack.artifact_store]. *)
Record Stack : Type := mkStack {
  components : list StackComponent;
  container_registry : option ContainerRegistry;
  artifact_store : ArtifactStore }.

(** *** The orchestrator's configuration *)

Definition DEFAULT_KFP_UI_PORT : Z := 8080.

Record KubeflowOrchestrator : Type := mkOrchestrator {
  uuid : string;                                (* str(self.uuid) *)
  custom_docker_base_image_name : option string;
  kubeflow_pipelines_ui_port : Z;
  kubernetes_context : option string;
  synchronous : bool }.

Definition _get_k3d_cluster_name (uuid : string) : string :=
  "zenml-kubeflow-" ++ substring 0 8 uuid.

Definition _get_k3d_kubernetes_context (uuid : string) : string :=
  "k3d-" ++ _get_k3d_cluster_name uuid.

(** The pydantic root validator: an unset or empty [kubernetes_context]
    becomes the context of the locally managed k3d cluster. *)
Definition set_default_kubernetes_context (values : KubeflowOrchestrator)
  : KubeflowOrchestrator :=
  if truthy_opt_str (kubernetes_context values) then values
  else mkOrchestrator (uuid values) (custom_docker_base_image_name values)
         (kubeflow_pipelines_ui_port values)
         (Some (_get_k3d_kubernetes_context (uuid values)))
         (synchronous values).

Definition is_local (self : KubeflowOrchestrator) : bool :=
  match kubernetes_context self with
  | Some ctx => String.eqb ctx (_get_k3d_kubernetes_context (uuid self))
  | None => false
  end.

(** *** The stack validator's custom rule *)

Definition local_component_reason (stack_comp : StackComponent) : string :=
  "The Kubeflow orchestrator is not running in a local k3d cluster. The '"
  ++ name stack_comp ++ "' " ++ TYPE_value stack_comp
  ++ " is a local stack component and will not be available in the Kubeflow pipeline step. Please ensure that you always use non-local stack components with a remote Kubeflow orchestrator, otherwise you may run into pipeline execution problems.".

Definition local_registry_reason (container_registry : ContainerRegistry)
  : string :=
  "The Kubeflow orchestrator is not running in a local k3d cluster but the "
  ++ registry_name container_registry ++ " container registry URI '"
  ++ uri container_registry
  ++ "' points to a local container registry. Please ensure that you always use non-local stack components with a remote Kubeflow orchestrator, otherwise you will run into problems.".

Definition remote_registry_reason (container_registry : ContainerRegistry)
  : string :=
  "The container registry URI '" ++ uri container_registry
  ++ "' doesn't match the expected format 'localhost:$PORT'. The local Kubeflow orchestrator only works with a local container registry because it cannot authenticate to external container registries.".

(** The [for stack_comp in stack.components.values()] loop: the early
    [return False, ...] at the first component with a truthy
    [local_path], [None] when the loop runs to its end. *)
Fixpoint local_component_scan (comps : list StackComponent)
  : option (bool * string) :=
  match comps with
  | [] => None
  | stack_comp :: rest =>
      if negb (truthy_opt_str (local_path stack_comp))
      then local_component_scan rest
      else Some (false, local_component_reason stack_comp)
  end.

Definition _validate_local_requirements (self : KubeflowOrchestrator)
  (stack : Stack) : outcome (bool * string) :=
  match container_registry stack with
  | None => Raised (mkExn AssertionError "")
  | Some container_registry =>
      if negb (is_local self) then
        match local_component_scan (components stack) with
        | Some verdict => Returned verdict
        | None =>
            if registry_is_local container_registry
            then Returned (false, local_registry_reason container_registry)
            else Returned (true, "")
        end
      else
        if negb (registry_is_local container_registry)
        then Returned (false, remote_registry_reason container_registry)
        else Returned (true, "")
  end.

(** *** External collaborators *)

Inductive LogLevel : Type := DEBUG | INFO | WARNING | ERROR.

(** Read-only questions: [local_deployment_utils], [zenml.utils.daemon],
    [networking_utils], [fileio]. *)
Inductive Probe : Type :=
| check_prerequisites
| k3d_cluster_exists (cluster_name : string)
| k3d_cluster_running (cluster_name : string)
| check_if_daemon_is_running (pid_file_path : string)
| port_available (port : Z)
| fileio_exists (file : string).

(** Calls that act on the machine: [fileio] and [local_deployment_utils]. *)
Inductive Action : Type :=
| fileio_makedirs (dir : string)
| fileio_remove (file : string)
| write_local_registry_yaml (yaml_path registry_name registry_uri : string)
| create_k3d_cluster (cluster_name registry_name registry_config_path : string)
| delete_k3d_cluster (cluster_name : string)
| start_k3d_cluster (cluster_name : string)
| stop_k3d_cluster (cluster_name : string)
| deploy_kubeflow_pipelines (kubernetes_context : string)
| add_hostpath_to_kubeflow_pipelines (kubernetes_context local_path : string)
| wait_until_kubeflow_pipelines_ready (kubernetes_context : string)
| start_kfp_ui_daemon (pid_file_path log_file_path : string) (port : Z)
    (kubernetes_context : string)
| stop_kfp_ui_daemon (pid_file_path : string).

(** A recurring schedule of a run (times kept as the strings they print
    as). *)
Record Schedule : Type := mkSchedule {
  utc_start_time : string;
  utc_end_time : string;
  interval_second : Z;
  catchup : bool }.

Record RuntimeConfiguration : Type := mkRuntimeConfiguration {
  schedule : option Schedule;
  run_name : string }.

(** Calls on the KFP client.  Each answers with the id of the object the
    client returns ([experiment.id], [result.id], [result.run_id]). *)
Inductive ClientCall : Type :=
| kfp_Client (kube_context : option string)
| get_experiment (pipeline_name : string)
| create_experiment (pipeline_name : string)
| create_recurring_run (experiment_id job_name pipeline_package_path : string)
    (enable_caching : bool) (start_time end_time : string)
    (interval_second : Z) (no_catchup : bool)
| create_run_from_pipeline_package (pipeline_file_path run_name : string)
    (enable_caching : bool)
| wait_for_run_completion (run_id : string) (timeout : Z).

Inductive Event : Type :=
| Probed (p : Probe) (answer : bool)
| FoundPort (port : Z)
| Called (a : Action)
| Client (c : ClientCall)
| Logged (level : LogLevel) (message : string).

(** The machine the orchestrator runs on, over an abstract world [W]:
    interpreter and module constants, the active stack of the repository,
    and the behaviour of every external call. *)
Class Driver (W : Type) : Type := {
  sys_platform : string;
  (** [os.path.join(a, *p)]: [posixpath.join] or [ntpath.join], as the
      platform has it *)
  os_path_join : string -> list string -> string;
  get_global_config_directory : string;
  K3S_IMAGE_NAME : string;
  KFP_VERSION : string;
  (** the builtin [int(s)]; [None] is its [ValueError] *)
  int_of_str : string -> option Z;
  active_stack : W -> Stack;
  answer : Probe -> W -> bool;
  find_available_port : W -> Z;
  perform : Action -> W -> outcome unit * W;
  kfp : ClientCall -> W -> outcome string * W }.

(** *** The orchestrator's methods *)

Section Methods.
Context {W : Type} {drv : Driver W}.
Variable self : KubeflowOrchestrator.

Local Abbreviation K := (M W Event).

Definition log (level : LogLevel) (message : string) : K unit :=
  emit (Logged level message).

Definition probe (p : Probe) : K bool :=
  ask (Probed p) (answer p).

Definition call (a : Action) : K unit :=
  invoke (Called a) (perform a).

Definition client (c : ClientCall) : K string :=
  invoke (Client c) (kfp c).

(** How [%s] prints an [Optional[str]]. *)
Definition str_of_opt (s : option string) : string :=
  match s with Some s => s | None => "None" end.

Definition root_directory : string :=
  os_path_join get_global_config_directory ["kubeflow"; uuid self].

Definition pipeline_directory : string :=
  os_path_join root_directory ["pipelines"].

Definition _pid_file_path : string :=
  os_path_join root_directory ["kubeflow_daemon.pid"].

Definition log_file : string :=
  os_path_join root_directory ["kubeflow_daemon.log"].

Definition _k3d_cluster_name : string :=
  _get_k3d_cluster_name (uuid self).

Definition _get_k3d_registry_name (port : Z) : string :=
  "k3d-zenml-kubeflow-registry.localhost:" ++ str_of_int port.

Definition _k3d_registry_config_path : string :=
  os_path_join root_directory ["k3d_registry.yaml"].

Definition _get_kfp_ui_daemon_port : K Z :=
  let port := kubeflow_pipelines_ui_port self in
  if Z.eqb port DEFAULT_KFP_UI_PORT then
    available <- probe (port_available port) ;;
    if negb available
    then ask FoundPort find_available_port
    else ret port
  else ret port.

Definition kubeflow_commands (container_registry_name
  container_registry_path : string) : list string :=
  let global_config_dir_path := get_global_config_directory in
  [ "> k3d cluster create CLUSTER_NAME --image " ++ K3S_IMAGE_NAME
    ++ " --registry-create " ++ container_registry_name
    ++ " --registry-config " ++ container_registry_path
    ++ " --volume " ++ global_config_dir_path ++ ":"
    ++ global_config_dir_path ++ nl;
    "> kubectl --context CLUSTER_NAME apply -k github.com/kubeflow/pipelines/manifests/kustomize/cluster-scoped-resources?ref="
    ++ KFP_VERSION ++ "&timeout=1m";
    "> kubectl --context CLUSTER_NAME wait --timeout=60s --for condition=established crd/applications.app.k8s.io";
    "> kubectl --context CLUSTER_NAME apply -k github.com/kubeflow/pipelines/manifests/kustomize/env/platform-agnostic-pns?ref="
    ++ KFP_VERSION ++ "&timeout=1m";
    "> kubectl --namespace kubeflow port-forward svc/ml-pipeline-ui "
    ++ str_of_int (kubeflow_pipelines_ui_port self) ++ ":80" ].

Definition list_manual_setup_steps (container_registry_name
  container_registry_path : string) : K unit :=
  log ERROR "Unable to spin up local Kubeflow Pipelines deployment." ;;
  log INFO ("If you wish to spin up this Kubeflow local orchestrator manually, please enter the following commands (substituting where appropriate):" ++ nl) ;;
  log INFO (join nl (kubeflow_commands container_registry_name
                       container_registry_path)).

Definition is_cluster_provisioned : K bool :=
  if negb (is_local self) then ret true
  else probe (k3d_cluster_exists _k3d_cluster_name).

Definition is_cluster_running : K bool :=
  if negb (is_local self) then ret true
  else probe (k3d_cluster_running _k3d_cluster_name).

Definition is_daemon_running : K bool :=
  if negb (String.eqb sys_platform "win32")
  then probe (check_if_daemon_is_running _pid_file_path)
  else ret true.

Definition is_provisioned : K bool :=
  prerequisites <- probe check_prerequisites ;;
  if negb prerequisites then ret false
  else is_cluster_provisioned.

Definition is_running : K bool :=
  and_then is_provisioned (and_then is_cluster_running is_daemon_running).

Definition is_suspended : K bool :=
  and_then is_provisioned
    (and_then (not_ is_cluster_running) (not_ is_daemon_running)).

Definition deprovision : K unit :=
  daemon <- is_daemon_running ;;
  (if daemon then call (stop_kfp_ui_daemon _pid_file_path) else ret tt) ;;
  (if is_local self then
     call (delete_k3d_cluster _k3d_cluster_name) ;;
     log INFO "Local kubeflow pipelines deployment deprovisioned."
   else ret tt) ;;
  log_exists <- probe (fileio_exists log_file) ;;
  if log_exists then call (fileio_remove log_file) else ret tt.

(** The body of the [try] statement of [provision]. *)
Definition provision_try (container_registry_name : string) : K unit :=
  call (create_k3d_cluster _k3d_cluster_name container_registry_name
          _k3d_registry_config_path) ;;
  match kubernetes_context self with
  | None => raise (mkExn AssertionError "")
  | Some kubernetes_context =>
      call (deploy_kubeflow_pipelines kubernetes_context) ;;
      artifact_store <- gets (fun w => artifact_store (active_stack w)) ;;
      if is_LocalArtifactStore artifact_store
      then call (add_hostpath_to_kubeflow_pipelines kubernetes_context
                   (path artifact_store))
      else ret tt
  end.

(** Its [except Exception as e] clause. *)
Definition provision_except (container_registry_name : string) (e : exn)
  : K unit :=
  log ERROR (exc_message e) ;;
  list_manual_setup_steps container_registry_name _k3d_registry_config_path ;;
  deprovision.

Definition provision : K unit :=
  running <- is_running ;;
  if running then
    log INFO "Found already existing local Kubeflow Pipelines deployment. If there are any issues with the existing deployment, please run 'zenml stack down --force' to delete it."
  else
    prerequisites <- probe check_prerequisites ;;
    if negb prerequisites then
      raise (mkExn ProvisioningError "Unable to provision local Kubeflow Pipelines deployment: Please install 'k3d' and 'kubectl' and try again.")
    else
      container_registry <- gets (fun w => container_registry (active_stack w)) ;;
      match container_registry with
      | None => raise (mkExn AssertionError "")
      | Some container_registry =>
          call (fileio_makedirs root_directory) ;;
          if negb (is_local self) then ret tt
          else
            log INFO "Provisioning local Kubeflow Pipelines deployment..." ;;
            match int_of_str (split_last ":" (uri container_registry) "") with
            | None =>
                raise (mkExn ValueError
                         ("invalid literal for int() with base 10: '"
                          ++ split_last ":" (uri container_registry) ""
                          ++ "'"))
            | Some container_registry_port =>
                let container_registry_name :=
                  _get_k3d_registry_name container_registry_port in
                call (write_local_registry_yaml _k3d_registry_config_path
                        container_registry_name (uri container_registry)) ;;
                try_except (provision_try container_registry_name)
                  is_Exception
                  (provision_except container_registry_name)
            end
      end.

(** The last statement of [resume]:
    [if not self.is_daemon_running: start_kfp_ui_daemon(...)]. *)
Definition resume_daemon (kubernetes_context : string) : K unit :=
  daemon <- is_daemon_running ;;
  if negb daemon then
    port <- _get_kfp_ui_daemon_port ;;
    call (start_kfp_ui_daemon _pid_file_path log_file port kubernetes_context)
  else ret tt.

Definition resume : K unit :=
  running <- is_running ;;
  if running then
    log INFO "Local kubeflow pipelines deployment already running."
  else
    provisioned <- is_provisioned ;;
    if negb provisioned then
      raise (mkExn ProvisioningError "Unable to resume local kubeflow pipelines deployment: No resources provisioned for local deployment.")
    else
      match kubernetes_context self with
      | None => raise (mkExn AssertionError "")
      | Some kubernetes_context =>
          cluster_stopped <-
            (if is_local self then not_ is_cluster_running else ret false) ;;
          (if cluster_stopped then
             call (start_k3d_cluster _k3d_cluster_name) ;;
             call (wait_until_kubeflow_pipelines_ready kubernetes_context)
           else ret tt) ;;
          resume_daemon kubernetes_context
      end.

Definition suspend : K unit :=
  provisioned <- is_provisioned ;;
  if negb provisioned then
    log INFO "Local kubeflow pipelines deployment not provisioned."
  else
    daemon <- is_daemon_running ;;
    (if daemon then call (stop_kfp_ui_daemon _pid_file_path) else ret tt) ;;
    cluster_running <-
      (if is_local self then is_cluster_running else ret false) ;;
    if cluster_running then call (stop_k3d_cluster _k3d_cluster_name)
    else ret tt.

(** The [if runtime_configuration.schedule:] branch of
    [_upload_and_run_pipeline]. *)
Definition recurring_run (pipeline_name pipeline_file_path : string)
  (runtime_configuration : RuntimeConfiguration) (schedule : Schedule)
  (enable_cache : bool) : K unit :=
  experiment_id <-
    try_except
      (experiment_id <- client (get_experiment pipeline_name) ;;
       log INFO "A recurring run has already been created with this pipeline. Creating new recurring run now.." ;;
       ret experiment_id)
      is_ValueError_or_ApiException
      (fun _ =>
         experiment_id <- client (create_experiment pipeline_name) ;;
         log INFO ("Creating a new recurring run for pipeline '"
                   ++ pipeline_name ++ "'.. ") ;;
         ret experiment_id) ;;
  log INFO ("You can see all recurring runs under the '" ++ pipeline_name
            ++ "' experiment.'") ;;
  result_id <- client (create_recurring_run experiment_id
                         (run_name runtime_configuration) pipeline_file_path
                         enable_cache (utc_start_time schedule)
                         (utc_end_time schedule) (interval_second schedule)
                         (negb (catchup schedule))) ;;
  log INFO ("Started recurring run with ID '" ++ result_id ++ "'.").

(** Its [else] branch. *)
Definition one_off_run (pipeline_file_path : string)
  (runtime_configuration : RuntimeConfiguration) (enable_cache : bool)
  : K unit :=
  log INFO "No schedule detected. Creating a one-off pipeline run.." ;;
  run_id <- client (create_run_from_pipeline_package pipeline_file_path
                      (run_name runtime_configuration) enable_cache) ;;
  log INFO ("Started one-off pipeline run with ID '" ++ run_id ++ "'.") ;;
  if synchronous self
  then client (wait_for_run_completion run_id 1200) ;; ret tt
  else ret tt.

Definition upload_failed_warning (error : exn) : string :=
  "Failed to upload Kubeflow pipeline: " ++ exc_message error
  ++ ". Please make sure your kube config is configured and the current context is set correctly.".

(** The body of the [try] statement of [_upload_and_run_pipeline]. *)
Definition upload_and_run_try (pipeline_name pipeline_file_path : string)
  (runtime_configuration : RuntimeConfiguration) (enable_cache : bool)
  : K unit :=
  log INFO ("Running in kubernetes context '"
            ++ str_of_opt (kubernetes_context self) ++ "'.") ;;
  client (kfp_Client (kubernetes_context self)) ;;
  match schedule runtime_configuration with
  | Some schedule =>
      recurring_run pipeline_name pipeline_file_path runtime_configuration
        schedule enable_cache
  | None =>
      one_off_run pipeline_file_path runtime_configuration enable_cache
  end.

Definition _upload_and_run_pipeline (pipeline_name pipeline_file_path : string)
  (runtime_configuration : RuntimeConfiguration) (enable_cache : bool)
  : K unit :=
  try_except
    (upload_and_run_try pipeline_name pipeline_file_path
       runtime_configuration enable_cache)
    is_HTTPError
    (fun error => log WARNING (upload_failed_warning error)).

End Methods.

End Kubeflow.

(* ===================================================================== *)
(** ** A simulated machine                                               *)
(* ===================================================================== *)

(** A small concrete world on which the orchestrator's methods can be
    run: which tools, clusters, daemons, files and busy ports exist, and
    which external calls fail.  It instantiates [Kubeflow.Driver]. *)
Module Sim.
Import Py Kubeflow.

Record World : Type := mkWorld {
  tools_installed : bool;
  clusters : list (string * bool);      (* cluster name, running? *)
  daemons : list string;                (* pid files of live daemons *)
  files : list string;
  busy_ports : list Z;
  free_port : Z;
  stack : Stack;
  faults : Action -> option exn;
  client_faults : ClientCall -> option exn }.

Definition has (x : string) (l : list string) : bool :=
  existsb (String.eqb x) l.

Definition drop (x : string) (l : list string) : list string :=
  filter (fun y => negb (String.eqb x y)) l.

Definition cluster_state (n : string) (w : World) : option bool :=
  option_map snd (find (fun c => String.eqb n (fst c)) (clusters w)).

Definition sim_answer (p : Probe) (w : World) : bool :=
  match p with
  | check_prerequisites => tools_installed w
  | k3d_cluster_exists n =>
      match cluster_state n w with Some _ => true | None => false end
  | k3d_cluster_running n =>
      match cluster_state n w with Some r => r | None => false end
  | check_if_daemon_is_running pid => has pid (daemons w)
  | port_available port => negb (existsb (Z.eqb port) (busy_ports w))
  | fileio_exists f => has f (files w)
  end.

Definition with_clusters (w : World) (cs : list (string * bool)) : World :=
  mkWorld (tools_installed w) cs (daemons w) (files w) (busy_ports w)
    (free_port w) (stack w) (faults w) (client_faults w).

Definition with_daemons (w : World) (ds : list string) : World :=
  mkWorld (tools_installed w) (clusters w) ds (files w) (busy_ports w)
    (free_port w) (stack w) (faults w) (client_faults w).

Definition with_files (w : World) (fs : list string) : World :=
  mkWorld (tools_installed w) (clusters w) (daemons w) fs (busy_ports w)
    (free_port w) (stack w) (faults w) (client_faults w).

Definition with_busy_ports (w : World) (ps : list Z) : World :=
  mkWorld (tools_installed w) (clusters w) (daemons w) (files w) ps
    (free_port w) (stack w) (faults w) (client_faults w).

Definition set_running (n : string) (r : bool) (w : World) : World :=
  with_clusters w
    (map (fun c => if String.eqb n (fst c) then (fst c, r) else c)
       (clusters w)).

Definition sim_effect (a : Action) (w : World) : World :=
  match a with
  | fileio_makedirs d => with_files w (d :: files w)
  | fileio_remove f => with_files w (drop f (files w))
  | write_local_registry_yaml yaml _ _ => with_files w (yaml :: files w)
  | create_k3d_cluster n _ _ => with_clusters w ((n, true) :: clusters w)
  | delete_k3d_cluster n =>
      with_clusters w
        (filter (fun c => negb (String.eqb n (fst c))) (clusters w))
  | start_k3d_cluster n => set_running n true w
  | stop_k3d_cluster n => set_running n false w
  | deploy_kubeflow_pipelines _ => w
  | add_hostpath_to_kubeflow_pipelines _ _ => w
  | wait_until_kubeflow_pipelines_ready _ => w
  | start_kfp_ui_daemon pid log_path port _ =>
      with_busy_ports
        (with_files (with_daemons w (pid :: daemons w)) (log_path :: files w))
        (port :: busy_ports w)
  | stop_kfp_ui_daemon pid => with_daemons w (drop pid (daemons w))
  end.

Definition sim_perform (a : Action) (w : World) : outcome unit * World :=
  match faults w a with
  | Some e => (Raised e, w)
  | None => (Returned tt, sim_effect a w)
  end.

(** The simulated KFP client hands out fixed ids. *)
Definition sim_kfp (c : ClientCall) (w : World) : outcome string * World :=
  match client_faults w c with
  | Some e => (Raised e, w)
  | None =>
      (Returned match c with
                | kfp_Client _ => "client"
                | get_experiment _ | create_experiment _ => "experiment-1"
                | create_recurring_run _ _ _ _ _ _ _ _ => "job-1"
                | create_run_from_pipeline_package _ _ _ => "run-1"
                | wait_for_run_completion _ _ => "run-1"
                end, w)
  end.

(** Plain decimal literals only. *)
Definition sim_int_of_str (s : string) : option Z :=
  match s with
  | "" => None
  | _ => option_map Z.of_uint (DecimalString.NilZero.uint_of_string s)
  end.

#[export] Instance sim_driver : Driver World := {|
  sys_platform := "linux";
  os_path_join := posixpath_join;
  get_global_config_directory := "/home/user/.config/zenml";
  K3S_IMAGE_NAME := "rancher/k3s:v1.23.5-k3s1";
  KFP_VERSION := "1.8.1";
  int_of_str := sim_int_of_str;
  active_stack := stack;
  answer := sim_answer;
  find_available_port := free_port;
  perform := sim_perform;
  kfp := sim_kfp |}.

Definition no_faults {A : Type} : A -> option exn := fun _ => None.

Definition an_uuid : string := "0f2a6c1e-5b7d-4e8f-9a3b-1c2d3e4f5a6b".

(** A self-managed-local orchestrator: its context is the one derived
    from its uuid. *)
Definition local_orchestrator : KubeflowOrchestrator :=
  set_default_kubernetes_context
    (mkOrchestrator an_uuid None DEFAULT_KFP_UI_PORT None false).

(** A remote orchestrator, on a context of the user's. *)
Definition remote_orchestrator : KubeflowOrchestrator :=
  set_default_kubernetes_context
    (mkOrchestrator an_uuid None DEFAULT_KFP_UI_PORT (Some "gke_prod") false).

Definition local_registry : ContainerRegistry :=
  mkRegistry "local_registry" "localhost:5000" true.

Definition remote_registry : ContainerRegistry :=
  mkRegistry "gcr" "gcr.io/my-project" false.

Definition orchestrator_component : StackComponent :=
  mkComponent "kubeflow_orchestrator" "orchestrator" None.

Definition local_metadata_store : StackComponent :=
  mkComponent "local_metadata_store" "metadata_store"
    (Some "/home/user/.config/zenml/local_stores/metadata.db").

Definition local_artifact_store : StackComponent :=
  mkComponent "local_artifact_store" "artifact_store"
    (Some "/home/user/.config/zenml/local_stores/artifacts").

Definition s3_artifact_store : StackComponent :=
  mkComponent "s3_store" "artifact_store" None.

Definition registry_component (r : ContainerRegistry) : StackComponent :=
  mkComponent (registry_name r) "container_registry" None.

(** The default local stack with a local registry. *)
Definition local_stack : Stack :=
  mkStack [orchestrator_component; local_metadata_store;
           local_artifact_store; registry_component local_registry]
    (Some local_registry)
    (mkArtifactStore "/home/user/.config/zenml/local_stores/artifacts" true).

(** A fully remote stack. *)
Definition remote_stack : Stack :=
  mkStack [orchestrator_component; s3_artifact_store;
           registry_component remote_registry]
    (Some remote_registry)
    (mkArtifactStore "s3://bucket/artifacts" false).

(** A machine with the tools installed and nothing provisioned. *)
Definition fresh_world (st : Stack) : World :=
  mkWorld true [] [] [] [] 8081 st no_faults no_faults.

(** The machine after [provision] and then [resume] of the local
    orchestrator: cluster up, UI daemon running. *)
Definition running_world : World :=
  final (resume local_orchestrator
           (final (provision local_orchestrator (fresh_world local_stack)))).

(** A machine on which [k3d cluster create] fails. *)
Definition cluster_create_fails (a : Action) : option exn :=
  match a with
  | create_k3d_cluster _ _ _ =>
      Some (mkExn (OtherException "subprocess.CalledProcessError")
              "Command 'k3d cluster create' returned non-zero exit status 1.")
  | _ => None
  end.

Definition failing_world : World :=
  mkWorld true [] [] [] [] 8081 local_stack cluster_create_fails no_faults.

(** A machine without k3d and kubectl. *)
Definition bare_world : World :=
  mkWorld false [] [] [] [] 8081 local_stack no_faults no_faults.

(** A local orchestrator configured with UI port 9090. *)
Definition port_9090_orchestrator : KubeflowOrchestrator :=
  set_default_kubernetes_context (mkOrchestrator an_uuid None 9090 None false).

(** A provisioned machine, cluster up, no UI daemon, with some busy
    ports. *)
Definition provisioned_world (busy : list Z) : World :=
  mkWorld true [(_get_k3d_cluster_name an_uuid, true)] [] [] busy 8081
    local_stack no_faults no_faults.

(** A KFP API server that answers the run creation with an error
    status. *)
Definition run_creation_fails (c : ClientCall) : option exn :=
  match c with
  | create_run_from_pipeline_package _ _ _ =>
      Some (mkExn ApiException "(500) Reason: Internal Server Error")
  | _ => None
  end.

Definition api_error_world : World :=
  mkWorld true [] [] [] [] 8081 remote_stack no_faults run_creation_fails.

(** A KFP API server that cannot be reached. *)
Definition connection_fails (c : ClientCall) : option exn :=
  match c with
  | create_run_from_pipeline_package _ _ _ =>
      Some (mkExn MaxRetryError "Max retries exceeded")
  | _ => None
  end.

Definition unreachable_world : World :=
  mkWorld true [] [] [] [] 8081 remote_stack no_faults connection_fails.

Definition one_off : RuntimeConfiguration :=
  mkRuntimeConfiguration None "run-2022".

End Sim.

(* ===================================================================== *)
(** ** cli/pipeline.py                                                   *)
(* ===================================================================== *)

Module Cli.
Import Py.
Local Open Scope py_scope.

(** *** Configuration values *)

(** What [yaml_utils.read_yaml] hands back: YAML scalars, sequences and
    mappings (with string keys, in document order).  [VOther] stands for
    any other object -- a float, a timestamp -- of which the code only
    uses the type name and the truth value. *)
#[warnings="-register-all"]
Inductive Value : Type :=
| VNone
| VBool (b : bool)
| VInt (n : Z)
| VStr (s : string)
| VList (items : list Value)
| VDict (items : list (string * Value))
| VOther (type_name : string) (truth : bool).

(** [type(v).__name__] *)
Definition type_name_of (v : Value) : string :=
  match v with
  | VNone => "NoneType"
  | VBool _ => "bool"
  | VInt _ => "int"
  | VStr _ => "str"
  | VList _ => "list"
  | VDict _ => "dict"
  | VOther type_name _ => type_name
  end.

(** [bool(v)], as an [if v:] takes it. *)
Definition truthy (v : Value) : bool :=
  match v with
  | VNone => false
  | VBool b => b
  | VInt n => negb (Z.eqb n 0)
  | VStr s => negb (String.eqb s "")
  | VList items => match items with [] => false | _ => true end
  | VDict items => match items with [] => false | _ => true end
  | VOther _ truth => truth
  end.

Definition Dict (A : Type) : Type := list (string * A).

(** [d.get(key)] *)
Fixpoint dict_get {A} (key : string) (d : Dict A) : option A :=
  match d with
  | [] => None
  | (k, v) :: rest => if String.eqb k key then Some v else dict_get key rest
  end.

(** [key in d] *)
Definition dict_has {A} (key : string) (d : Dict A) : bool :=
  match dict_get key d with Some _ => true | None => false end.

(** [d[key] = value] *)
Fixpoint dict_set {A} (key : string) (value : A) (d : Dict A) : Dict A :=
  match d with
  | [] => [(key, value)]
  | (k, v) :: rest =>
      if String.eqb k key then (k, value) :: rest
      else (k, v) :: dict_set key value rest
  end.

(** *** Configuration keys

    Modelled from the spec: [zenml.config.config_keys] (the classes
    [PipelineConfigurationKeys], [StepConfigurationKeys] and
    [SourceConfigurationKeys]) is not among the sources.  The spec gives
    the keys: a document has [name] and [steps]; a step has [source] and
    may have [materializers]; a source has [name] and may have [file]. *)

Definition NAME : string := "name".
Definition STEPS : string := "steps".
Definition SOURCE_ : string := "source".
Definition MATERIALIZERS_ : string := "materializers".
Definition FILE_ : string := "file".
Definition NAME_ : string := "name".

(** The configuration-keys classes whose [key_check] the command calls. *)
Inductive ConfigKeys : Type :=
| PipelineConfigurationKeys
| StepConfigurationKeys.

(** *** The interpreter and the libraries the command calls *)

(** The materializers handed to [with_return_materializers]: one class,
    or a dictionary from output names to classes. *)
Inductive Materializers (Obj : Type) : Type :=
| Single (materializer : Obj)
| PerOutput (by_output : Dict Obj).
Arguments Single {Obj} materializer.
Arguments PerOutput {Obj} by_output.

Inductive Event (Obj : Type) : Type :=
| Imported (file : Value)                       (* import_python_file(file) *)
| ReadYaml (config_path : string)               (* read_yaml(config_path) *)
| KeyChecked (cls : ConfigKeys) (config : Value)  (* cls.key_check(config) *)
| GotAttribute (module : Obj) (attribute_name : Value)  (* getattr(...) *)
| Instantiated (step_class : Obj)               (* step_class() *)
| Attached (step_instance : Obj) (materializers : Materializers Obj)
| Assembled (pipeline_class : Obj) (steps : Dict Obj)   (* pipeline_class( **steps ) *)
| Configured (pipeline_instance : Obj) (config_path : string)
    (overwrite_step_parameters : bool)           (* .with_config(...) *)
| Debugged (message : string)                   (* logger.debug(...) *)
| Ran (pipeline_instance : Obj).                (* .run() *)
Arguments Imported {Obj} file.
Arguments ReadYaml {Obj} config_path.
Arguments KeyChecked {Obj} cls config.
Arguments GotAttribute {Obj} module attribute_name.
Arguments Instantiated {Obj} step_class.
Arguments Attached {Obj} step_instance materializers.
Arguments Assembled {Obj} pipeline_class steps.
Arguments Configured {Obj} pipeline_instance config_path
  overwrite_step_parameters.
Arguments Debugged {Obj} message.
Arguments Ran {Obj} pipeline_instance.

(** Python objects are handles of an abstract type [Obj]; the world [W]
    is whatever the interpreter and the file system keep. *)
Class Runtime (W Obj : Type) : Type := {
  (** [str(v)], as an f-string formats a value *)
  py_str : Value -> string;
  (** [textwrap.dedent] *)
  dedent : string -> string;
  (** [module.__file__], formatted *)
  module_file : Obj -> string;
  (** [cls.key_check(config)] of [zenml.config.config_keys], which is not
      among the sources: it returns, or raises *)
  key_check : ConfigKeys -> Value -> outcome unit;
  import_python_file : Value -> W -> outcome Obj * W;
  read_yaml : string -> W -> outcome Value * W;
  (** [getattr(module, name)]; raises [AttributeError] when missing *)
  getattr : Obj -> Value -> W -> outcome Obj * W;
  (** calling a class without arguments *)
  instantiate : Obj -> W -> outcome Obj * W;
  with_return_materializers : Obj -> Materializers Obj -> W -> outcome Obj * W;
  assemble : Obj -> Dict Obj -> W -> outcome Obj * W;
  with_config : Obj -> string -> bool -> W -> outcome Obj * W;
  run : Obj -> W -> outcome unit * W }.

(** *** The functions of the file *)

Section Functions.
Context {W Obj : Type} {rt : Runtime W Obj}.

Local Abbreviation K := (M W (Event Obj)).

Definition lift {A} (o : outcome A) : K A :=
  fun w => mkRun o w [].

Definition configuration_error {A} (message : string) : K A :=
  raise (mkExn PipelineConfigurationError message).

Definition _get_module_attribute (module : Obj) (attribute_name : Value)
  : K Obj :=
  try_except
    (invoke (GotAttribute module attribute_name) (getattr module attribute_name))
    is_AttributeError
    (fun _ =>
       configuration_error
         ("Unable to load '" ++ py_str attribute_name ++ "' from file '"
          ++ module_file module ++ "'")).

(** The example of a structured source in the message for a string. *)
Definition correct_input (config_item : string) : string :=
  dedent (nl ++ "        " ++ NAME_ ++ ": " ++ config_item ++ nl
          ++ "        " ++ FILE_ ++ ": optional/filepath.py" ++ nl
          ++ "        ").

Definition str_entry_message (config_item : string) : string :=
  "As of ZenML version 0.8.0 `str` entries are no longer supported to define steps or materializers. Instead you will now need to pass a dictionary. This dictionary **has to** contain a `"
  ++ NAME_
  ++ "` which refers to the function/class name. If this entity is defined outside the main module,you will need to additionally supply a "
  ++ FILE_
  ++ " with the relative forward-slash-separated path to the file. " ++ nl
  ++ "You tried to pass in `" ++ config_item
  ++ "` - however you should have specified the name (and file) like this: "
  ++ correct_input config_item.

Definition wrong_type_message (attribute : string) (value : Value) : string :=
  "Only `str` and `dict` values are allowed for '" ++ attribute
  ++ "' attribute of a step configuration. You tried to pass in `"
  ++ py_str value ++ "` (type: `" ++ type_name_of value ++ "`).".

(** [d[key]] on a value. *)
Definition subscript (v : Value) (key : string) : K Value :=
  match v with
  | VDict items =>
      match dict_get key items with
      | Some x => ret x
      | None => raise (mkExn KeyError ("'" ++ key ++ "'"))
      end
  | VList _ =>
      raise (mkExn TypeError "list indices must be integers or slices, not str")
  | VStr _ => raise (mkExn TypeError "string indices must be integers")
  | _ =>
      raise (mkExn TypeError
               ("'" ++ type_name_of v ++ "' object is not subscriptable"))
  end.

Definition _get_module (module : Obj) (config_item : Value) : K Obj :=
  match config_item with
  | VDict items =>
      module <- (if dict_has FILE_ items
                 then file <- subscript config_item FILE_ ;;
                      invoke (Imported file) (import_python_file file)
                 else ret module) ;;
      implementation_name <- subscript config_item NAME_ ;;
      _get_module_attribute module implementation_name
  | VStr s => configuration_error (str_entry_message s)
  | _ => configuration_error (wrong_type_message "step_source" config_item)
  end.

(** The dictionary comprehension
    [{output_name: _get_module(module, source) for ... in ....items()}]. *)
Fixpoint resolve_outputs (module : Obj) (items : Dict Value) : K (Dict Obj) :=
  match items with
  | [] => ret []
  | (output_name, source) :: rest =>
      materializer <- _get_module module source ;;
      others <- resolve_outputs module rest ;;
      ret ((output_name, materializer) :: others)
  end.

(** The [if materializers_config:] statement of the loop body. *)
Definition attach_materializers (module step_instance : Obj)
  (materializers_config : Value) : K Obj :=
  if truthy materializers_config then
    materializers <-
      match materializers_config with
      | VStr _ =>
          materializer <- _get_module module materializers_config ;;
          ret (Single materializer)
      | VDict items =>
          by_output <- resolve_outputs module items ;;
          ret (PerOutput by_output)
      | _ =>
          configuration_error
            (wrong_type_message "materializers" materializers_config)
      end ;;
    invoke (Attached step_instance materializers)
      (with_return_materializers step_instance materializers)
  else ret step_instance.

(** [step_config.get(key, None)] *)
Definition get_or_none (v : Value) (key : string) : K Value :=
  match v with
  | VDict items =>
      ret match dict_get key items with Some x => x | None => VNone end
  | _ =>
      raise (mkExn AttributeError
               ("'" ++ type_name_of v ++ "' object has no attribute 'get'"))
  end.

(** One turn of the loop over the steps. *)
Definition resolve_step (module : Obj) (step_config : Value) : K Obj :=
  emit (KeyChecked StepConfigurationKeys step_config) ;;
  lift (key_check StepConfigurationKeys step_config) ;;
  source <- subscript step_config SOURCE_ ;;
  step_class <- _get_module module source ;;
  step_instance <- invoke (Instantiated step_class) (instantiate step_class) ;;
  materializers_config <- get_or_none step_config MATERIALIZERS_ ;;
  attach_materializers module step_instance materializers_config.

(** The loop [for step_name, step_config in ....items()], filling
    [steps]. *)
Fixpoint resolve_steps (module : Obj) (items : Dict Value) (steps : Dict Obj)
  : K (Dict Obj) :=
  match items with
  | [] => ret steps
  | (step_name, step_config) :: rest =>
      step_instance <- resolve_step module step_config ;;
      resolve_steps module rest (dict_set step_name step_instance steps)
  end.

(** [config[STEPS].items()] *)
Definition items_of (v : Value) : K (Dict Value) :=
  match v with
  | VDict items => ret items
  | _ =>
      raise (mkExn AttributeError
               ("'" ++ type_name_of v ++ "' object has no attribute 'items'"))
  end.

Definition run_pipeline (python_file config_path : string) : K unit :=
  module <- invoke (Imported (VStr python_file))
              (import_python_file (VStr python_file)) ;;
  config <- invoke (ReadYaml config_path) (read_yaml config_path) ;;
  emit (KeyChecked PipelineConfigurationKeys config) ;;
  lift (key_check PipelineConfigurationKeys config) ;;
  pipeline_name <- subscript config NAME ;;
  pipeline_class <- _get_module_attribute module pipeline_name ;;
  step_configs <- subscript config STEPS ;;
  items <- items_of step_configs ;;
  steps <- resolve_steps module items [] ;;
  pipeline_instance <- invoke (Assembled pipeline_class steps)
                         (assemble pipeline_class steps) ;;
  pipeline_instance <- invoke (Configured pipeline_instance config_path true)
                         (with_config pipeline_instance config_path true) ;;
  emit (Debugged ("Finished setting up pipeline '" ++ py_str pipeline_name
                  ++ "' from CLI")) ;;
  invoke (Ran pipeline_instance) (run pipeline_instance).

End Functions.

End Cli.

(* ===================================================================== *)
(** ** A simulated interpreter                                           *)
(* ===================================================================== *)

(** A concrete [Cli.Runtime]: Python files are lists of the names they
    define, objects are the expressions that denote them, and YAML files
    are the values they hold. *)
Module CliSim.
Import Py Cli.

Record World : Type := mkWorld {
  python_files : Dict (list string);
  yaml_files : Dict Value }.

(** [repr(v)], strings in single quotes. *)
Fixpoint sim_repr (v : Value) : string :=
  match v with
  | VNone => "None"
  | VBool true => "True"
  | VBool false => "False"
  | VInt n => str_of_int n
  | VStr s => "'" ++ s ++ "'"
  | VList items => "[" ++ join ", " (map sim_repr items) ++ "]"
  | VDict items =>
      "{" ++ join ", "
               (map (fun '(k, x) => "'" ++ k ++ "': " ++ sim_repr x) items)
      ++ "}"
  | VOther type_name _ => "<" ++ type_name ++ " object>"
  end.

Definition sim_str (v : Value) : string :=
  match v with
  | VStr s => s
  | _ => sim_repr v
  end.

(** Lines of a text, and [textwrap.dedent] for indentation by spaces. *)
Fixpoint lines (s cur : string) : list string :=
  match s with
  | EmptyString => [cur]
  | String c rest =>
      if Ascii.eqb c (ascii_of_nat 10) then cur :: lines rest ""
      else lines rest (cur ++ String c "")
  end.

Fixpoint indentation (line : string) : option nat :=
  match line with
  | EmptyString => None                       (* a blank line *)
  | String c rest =>
      if Ascii.eqb c " " then option_map S (indentation rest) else Some 0%nat
  end.

Definition margin (ls : list string) : nat :=
  match fold_right
          (fun line acc =>
             match indentation line, acc with
             | Some n, Some m => Some (Nat.min n m)
             | Some n, None => Some n
             | None, _ => acc
             end) None ls with
  | Some n => n
  | None => 0%nat
  end.

Definition sim_dedent (text : string) : string :=
  let ls := lines text "" in
  let m := margin ls in
  join nl (map (fun line =>
                  match indentation line with
                  | None => ""
                  | Some _ => substring m (String.length line - m) line
                  end) ls).

(** Modelled from the spec: the required keys of [key_check], which is
    not among the sources.  A document requires [name] and [steps], a
    step requires [source]. *)
Definition required_keys (cls : ConfigKeys) : list string :=
  match cls with
  | PipelineConfigurationKeys => [NAME; STEPS]
  | StepConfigurationKeys => [SOURCE_]
  end.

Definition class_name (cls : ConfigKeys) : string :=
  match cls with
  | PipelineConfigurationKeys => "PipelineConfigurationKeys"
  | StepConfigurationKeys => "StepConfigurationKeys"
  end.

(** The keys a value has: those of a mapping, none otherwise. *)
Definition keys_of (config : Value) : list string :=
  match config with
  | VDict items => map fst items
  | _ => []
  end.

Definition missing_keys (cls : ConfigKeys) (config : Value) : list string :=
  filter (fun k => negb (existsb (String.eqb k) (keys_of config)))
    (required_keys cls).

Definition missing_keys_message (cls : ConfigKeys) (missing : list string)
  : string :=
  "Missing key(s) " ++ join ", " missing ++ " in " ++ class_name cls.

(** Modelled from the spec: [ConfigKeys.key_check] is not among the
    sources; the spec says that missing required keys fail with a
    configuration error that enumerates exactly the missing keys. *)
Definition sim_key_check (cls : ConfigKeys) (config : Value) : outcome unit :=
  match missing_keys cls config with
  | [] => Returned tt
  | missing =>
      Raised (mkExn PipelineConfigurationError
                (missing_keys_message cls missing))
  end.

Definition sim_import (file : Value) (w : World) : outcome string * World :=
  match file with
  | VStr f =>
      if dict_has f (python_files w) then (Returned f, w)
      else (Raised (mkExn (OtherException "FileNotFoundError") f), w)
  | _ => (Raised (mkExn TypeError "expected str"), w)
  end.

Definition sim_read_yaml (config_path : string) (w : World)
  : outcome Value * World :=
  match dict_get config_path (yaml_files w) with
  | Some v => (Returned v, w)
  | None =>
      (Raised (mkExn (OtherException "FileNotFoundError") config_path), w)
  end.

Definition sim_getattr (module : string) (attribute_name : Value) (w : World)
  : outcome string * World :=
  match attribute_name with
  | VStr n =>
      match dict_get module (python_files w) with
      | Some names =>
          if existsb (String.eqb n) names then (Returned n, w)
          else (Raised (mkExn AttributeError
                          ("module has no attribute '" ++ n ++ "'")), w)
      | None => (Raised (mkExn AttributeError "not a module"), w)
      end
  | _ => (Raised (mkExn TypeError "attribute name must be string"), w)
  end.

Definition show_materializers (m : Materializers string) : string :=
  match m with
  | Single c => c
  | PerOutput by_output =>
      "{" ++ join ", " (map (fun '(k, c) => "'" ++ k ++ "': " ++ c) by_output)
      ++ "}"
  end.

#[export] Instance sim_runtime : Runtime World string := {|
  py_str := sim_str;
  dedent := sim_dedent;
  module_file := fun module => module;
  key_check := sim_key_check;
  import_python_file := sim_import;
  read_yaml := sim_read_yaml;
  getattr := sim_getattr;
  instantiate := fun c w => (Returned (c ++ "()"), w);
  with_return_materializers := fun step m w =>
    (Returned (step ++ ".with_return_materializers("
               ++ show_materializers m ++ ")"), w);
  assemble := fun c steps w =>
    (Returned (c ++ "(" ++ join ", " (map (fun '(k, x) => k ++ "=" ++ x) steps)
               ++ ")"), w);
  with_config := fun p config_path _ w =>
    (Returned (p ++ ".with_config('" ++ config_path ++ "')"), w);
  run := fun _ w => (Returned tt, w) |}.

(** [source: {name: <symbol>}] *)
Definition by_name (symbol : string) : Value :=
  VDict [(NAME_, VStr symbol)].

(** A project: [run.py] defines a pipeline [P], two steps and a
    materializer; [config.yaml] holds the document [config]. *)
Definition project (config : Value) : World :=
  mkWorld [("run.py", ["P"; "Step1"; "Step2"; "MyMaterializer"])]
    [("config.yaml", config)].

(** The pipeline [P] with the steps [s1] and [s2], step by step. *)
Definition document (step_configs : Dict Value) : Value :=
  VDict [(NAME, VStr "P"); (STEPS, VDict step_configs)].

Definition step1 : Value := VDict [(SOURCE_, by_name "Step1")].
Definition step2 : Value := VDict [(SOURCE_, by_name "Step2")].

(** The first step with a [materializers] entry. *)
Definition step1_with (materializers : Value) : Value :=
  VDict [(SOURCE_, by_name "Step1"); (MATERIALIZERS_, materializers)].

End CliSim.

(* ===================================================================== *)
(** ** More simulated machines                                           *)
(* ===================================================================== *)

Module SimMore.
Import Py Kubeflow Sim.

(** [ntpath.join(a, *p)] for the paths of this machine: [a] starts with
    a drive letter and has a path behind it, and the parts of [p] are
    relative and name no drive.  Each part is appended, after a backslash
    unless the path so far ends with a separator. *)
Definition ntpath_join_step (path b : string) : string :=
  match path with
  | EmptyString => b
  | _ =>
      let last := substring (String.length path - 1) 1 path in
      if String.eqb last "\" || String.eqb last "/"
      then path ++ b else path ++ "\" ++ b
  end.

Definition ntpath_join (a : string) (p : list string) : string :=
  fold_left ntpath_join_step p a.

(** The simulated machine of [Sim], running Windows. *)
Definition win32_driver : Driver World := {|
  sys_platform := "win32";
  os_path_join := ntpath_join;
  get_global_config_directory := "C:\Users\user\AppData\Roaming\zenml";
  K3S_IMAGE_NAME := "rancher/k3s:v1.23.5-k3s1";
  KFP_VERSION := "1.8.1";
  int_of_str := sim_int_of_str;
  active_stack := stack;
  answer := sim_answer;
  find_available_port := free_port;
  perform := sim_perform;
  kfp := sim_kfp |}.



(** A run every day, without catch-up. *)
Definition daily : RuntimeConfiguration :=
  mkRuntimeConfiguration
    (Some (mkSchedule "2022-05-01 00:00:00" "2022-06-01 00:00:00" 86400 false))
    "run-2022".

(** A KFP API server that does not know the experiment yet. *)
Definition experiment_unknown (c : ClientCall) : option exn :=
  match c with
  | get_experiment _ =>
      Some (mkExn ValueError "No experiment is found with name p.")
  | _ => None
  end.

Definition first_run_world : World :=
  mkWorld true [] [] [] [] 8081 remote_stack no_faults experiment_unknown.

(** A remote orchestrator that waits for its runs. *)
Definition synchronous_orchestrator : KubeflowOrchestrator :=
  set_default_kubernetes_context
    (mkOrchestrator an_uuid None DEFAULT_KFP_UI_PORT (Some "gke_prod") true).

End SimMore.

(* ===================================================================== *)
(** ** kubeflow_orchestrator.py: building and submitting a pipeline      *)
(* ===================================================================== *)

(** The methods of the orchestrator that prepare and start a run:
    [get_docker_image_name], [_get_environment_vars_from_secrets],
    [prepare_pipeline_deployment] and [run_pipeline].  They read the
    orchestrator, the pipeline and the stack, and talk to docker, to the
    secrets manager of the stack and to the Kubeflow runner. *)
Module Deployment.
Import Py Kubeflow.
Local Open Scope py_scope.

(** [s.rstrip(c)] for one character [c]. *)
Fixpoint rstrip (c : ascii) (s : string) : string :=
  match s with
  | EmptyString => EmptyString
  | String a rest =>
      match rstrip c rest with
      | EmptyString => if Ascii.eqb a c then EmptyString else String a EmptyString
      | kept => String a kept
      end
  end.

(** [a or b] on an [Optional[str]] and a [str]. *)
Definition or_else (a : option string) (b : string) : string :=
  match a with
  | Some s => if truthy_opt_str a then s else b
  | None => b
  end.

(** [d.update(other)] *)
Definition update {A} (d other : Cli.Dict A) : Cli.Dict A :=
  fold_left (fun acc item => Cli.dict_set (fst item) (snd item) acc) other d.

(** [{*a, *b}]: a set of strings, kept as a list without duplicates;
    only membership is meaningful. *)
Definition set_union (a b : list string) : list string :=
  nodup string_dec (a ++ b).

(** What the orchestrator reads of a pipeline. *)
Module BasePipeline.
Record t : Type := mk {
  name : string;
  requirements : list string;
  dockerignore_file : option string;
  secrets : list string;
  enable_cache : bool }.
End BasePipeline.

(** What these methods do, in order: the events of the methods of the
    lifecycle (log lines, [fileio], the KFP client), and the calls of
    their own. *)
Inductive DeployEvent : Type :=
| Lifecycle (ev : Event)
| AskedNotebook (answer : bool)
| GotSecret (secret : string)
| GotDigest (image_name : string)
| Built (build_context_path image_name : string)
    (dockerignore_path : option string) (requirements : list string)
    (base_image : option string) (environment_vars : Cli.Dict string)
| Pushed (image_name : string)
| RunnerRan (image output_path : string) (pipeline : BasePipeline.t)
    (stack : Stack) (runtime_configuration : RuntimeConfiguration).

(** Docker, the environment, the secrets manager of the active stack and
    the Kubeflow runner, over the world [W] of the [Driver]. *)
Class Deployer (W SecretsManager : Type) : Type := {
  (** [Environment.in_notebook()] *)
  in_notebook : W -> bool;
  (** [get_source_root_path()] *)
  get_source_root_path : string;
  (** [Repository().active_stack.secrets_manager] *)
  secrets_manager : W -> option SecretsManager;
  (** [secret_manager.get_secret(secret).content] *)
  get_secret : SecretsManager -> string -> W -> outcome (Cli.Dict string) * W;
  (** [stack.requirements()] *)
  stack_requirements : Stack -> list string;
  (** [str()] of a set of strings *)
  str_of_set : list string -> string;
  (** [docker_utils.get_image_digest(image_name)] *)
  get_image_digest : string -> W -> outcome (option string) * W;
  (** [docker_utils.build_docker_image(...)] *)
  build_docker_image :
    string -> string -> option string -> list string -> option string ->
    Cli.Dict string -> W -> outcome unit * W;
  (** [docker_utils.push_docker_image(image_name)] *)
  push_docker_image : string -> W -> outcome unit * W;
  (** [KubeflowDagRunner(config=KubeflowDagRunnerConfig(image=image),
      output_path=output_path).run(pipeline, stack, runtime_configuration)] *)
  runner_run :
    string -> string -> BasePipeline.t -> Stack -> RuntimeConfiguration ->
    W -> outcome unit * W }.

Section Methods.
Context {W SecretsManager : Type} {drv : Driver W}
  {dep : Deployer W SecretsManager}.
Variable self : KubeflowOrchestrator.

Local Abbreviation D := (M W DeployEvent).

(** A method of the lifecycle, called from here. *)
Definition lifted {A} (m : M W Event A) : D A :=
  fun w =>
    let r := m w in
    mkRun (result r) (final r) (map Lifecycle (events r)).

Definition get_docker_image_name (pipeline_name : string) : D string :=
  let base_image_name := "zenml-kubeflow:" ++ pipeline_name in
  container_registry <- gets (fun w => container_registry (active_stack w)) ;;
  match container_registry with
  | Some container_registry =>
      let registry_uri := rstrip "/" (uri container_registry) in
      ret (registry_uri ++ "/" ++ base_image_name)
  | None => ret base_image_name
  end.

Definition no_secrets_manager_message (secrets : list string) : string :=
  "Unable to provision local Kubeflow Pipelines deployment: You passed in the following secrets: "
  ++ join ", " secrets
  ++ ", however, no secrets manager is registered for the current stack.".

(** The [for secret in secrets] loop of
    [_get_environment_vars_from_secrets]. *)
Fixpoint fetch_secrets (secret_manager : SecretsManager)
  (secrets : list string) (environment_vars : Cli.Dict string)
  : D (Cli.Dict string) :=
  match secrets with
  | [] => ret environment_vars
  | secret :: rest =>
      content <- invoke (GotSecret secret) (get_secret secret_manager secret) ;;
      fetch_secrets secret_manager rest (update environment_vars content)
  end.

Definition _get_environment_vars_from_secrets (secrets : list string)
  : D (Cli.Dict string) :=
  let environment_vars := [] in
  secret_manager <- gets secrets_manager ;;
  match secrets, secret_manager with
  | _ :: _, Some secret_manager =>
      (* if secrets and secret_manager *)
      fetch_secrets secret_manager secrets environment_vars
  | _ :: _, None =>
      (* elif secrets and not secret_manager *)
      raise (mkExn ProvisioningError (no_secrets_manager_message secrets))
  | [], _ =>
      (* No secrets provided by the user. *)
      ret environment_vars
  end.

Definition local_component_warning (stack_comp : StackComponent) : string :=
  "The Kubeflow orchestrator is not running in a local k3d cluster. The '"
  ++ name stack_comp ++ "' " ++ TYPE_value stack_comp
  ++ " is a local stack component and will not be available in the Kubeflow pipeline step. Please ensure that you never combine non-local stack components with a remote orchestrator, otherwise you may run into pipeline execution problems.".

(** The [for stack_comp in stack.components.values()] loop of
    [prepare_pipeline_deployment]. *)
Fixpoint warn_local_components (comps : list StackComponent) : D unit :=
  match comps with
  | [] => ret tt
  | stack_comp :: rest =>
      (if negb (truthy_opt_str (local_path stack_comp)) then ret tt
       else lifted (log WARNING (local_component_warning stack_comp))) ;;
      warn_local_components rest
  end.

Definition prepare_pipeline_deployment (pipeline : BasePipeline.t)
  (stack : Stack) (runtime_configuration : RuntimeConfiguration) : D unit :=
  (if truthy_opt_str (kubernetes_context self)
   then warn_local_components (components stack)
   else ret tt) ;;
  image_name <- get_docker_image_name (BasePipeline.name pipeline) ;;
  let requirements :=
    set_union (stack_requirements stack) (BasePipeline.requirements pipeline) in
  lifted (log DEBUG ("Kubeflow docker container requirements: "
                     ++ str_of_set requirements)) ;;
  environment_vars <-
    _get_environment_vars_from_secrets (BasePipeline.secrets pipeline) ;;
  invoke (Built get_source_root_path image_name
            (BasePipeline.dockerignore_file pipeline) requirements
            (custom_docker_base_image_name self) environment_vars)
    (build_docker_image get_source_root_path image_name
       (BasePipeline.dockerignore_file pipeline) requirements
       (custom_docker_base_image_name self) environment_vars) ;;
  match container_registry stack with
  | Some _ => invoke (Pushed image_name) (push_docker_image image_name)
  | None => ret tt
  end.

Definition notebook_message : string :=
  "The Kubeflow orchestrator cannot run pipelines in a notebook environment. The reason is that it is non-trivial to create a Docker image of a notebook. Please consider refactoring your notebook cells into separate scripts in a Python module and run the code outside of a notebook when using this orchestrator.".

Definition run_pipeline (pipeline : BasePipeline.t) (stack : Stack)
  (runtime_configuration : RuntimeConfiguration) : D unit :=
  notebook <- ask AskedNotebook in_notebook ;;
  if notebook then raise (mkExn RuntimeError notebook_message)
  else
    image_name <- get_docker_image_name (BasePipeline.name pipeline) ;;
    digest <- invoke (GotDigest image_name) (get_image_digest image_name) ;;
    let image_name := or_else digest image_name in
    lifted (call (fileio_makedirs (pipeline_directory self))) ;;
    let pipeline_file_path :=
      os_path_join (pipeline_directory self)
        [BasePipeline.name pipeline ++ ".yaml"] in
    invoke (RunnerRan image_name pipeline_file_path pipeline stack
              runtime_configuration)
      (runner_run image_name pipeline_file_path pipeline stack
         runtime_configuration) ;;
    lifted (_upload_and_run_pipeline self (BasePipeline.name pipeline)
              pipeline_file_path runtime_configuration
              (BasePipeline.enable_cache pipeline)).

End Methods.

End Deployment.

(* ===================================================================== *)
(** ** A simulated build site                                            *)
(* ===================================================================== *)

(** The simulated machine of [Sim] together with a docker daemon, a
    registry and, possibly, a secrets manager. *)
Module SimDeploy.
Import Py Kubeflow Sim Deployment.

(** The secrets manager: secret name to content. *)
Definition Vault : Type := Cli.Dict (Cli.Dict string).

Record Site : Type := mkSite {
  machine : World;
  notebook : bool;
  vault : option Vault;
  digests : Cli.Dict string;            (* image name, digest *)
  built : list string;                  (* images built here *)
  pushed : list string }.               (* images in the registry *)

Definition with_machine (s : Site) (m : World) : Site :=
  mkSite m (notebook s) (vault s) (digests s) (built s) (pushed s).

Definition on_machine {A} (f : World -> outcome A * World) (s : Site)
  : outcome A * Site :=
  let p := f (machine s) in (fst p, with_machine s (snd p)).

#[export] Instance site_driver : Driver Site := {|
  sys_platform := "linux";
  os_path_join := posixpath_join;
  get_global_config_directory := "/home/user/.config/zenml";
  K3S_IMAGE_NAME := "rancher/k3s:v1.23.5-k3s1";
  KFP_VERSION := "1.8.1";
  int_of_str := sim_int_of_str;
  active_stack := fun s => stack (machine s);
  answer := fun p s => sim_answer p (machine s);
  find_available_port := fun s => free_port (machine s);
  perform := fun a => on_machine (sim_perform a);
  kfp := fun c => on_machine (sim_kfp c) |}.

(** A secrets manager that knows no secret of that name raises a
    [RuntimeError]. *)
Definition sim_get_secret (v : Vault) (secret : string) (s : Site)
  : outcome (Cli.Dict string) * Site :=
  match Cli.dict_get secret v with
  | Some content => (Returned content, s)
  | None =>
      (Raised (mkExn RuntimeError ("No secrets found within the " ++ secret)),
       s)
  end.

Definition sim_str_of_set (l : list string) : string :=
  "{" ++ join ", " (map (fun x => "'" ++ x ++ "'") l) ++ "}".

#[export] Instance site_deployer : Deployer Site Vault := {|
  in_notebook := notebook;
  get_source_root_path := "/home/user/project";
  secrets_manager := vault;
  get_secret := sim_get_secret;
  stack_requirements := fun _ => ["kfp==1.8.9"];
  str_of_set := sim_str_of_set;
  get_image_digest := fun image s =>
    (Returned (Cli.dict_get image (digests s)), s);
  build_docker_image := fun _ image _ _ _ _ s =>
    (Returned tt,
     mkSite (machine s) (notebook s) (vault s) (digests s)
       (image :: built s) (pushed s));
  push_docker_image := fun image s =>
    (Returned tt,
     mkSite (machine s) (notebook s) (vault s)
       (Cli.dict_set image ("sha256:" ++ image) (digests s))
       (built s) (image :: pushed s));
  runner_run := fun _ output_path _ _ _ s =>
    (Returned tt,
     with_machine s (with_files (machine s) (output_path :: files (machine s))))
  |}.

(** A pipeline with a requirement of its own and two secrets. *)
Definition training : BasePipeline.t :=
  BasePipeline.mk "training" ["scikit-learn"] None ["aws"; "db"] true.

(** The same without secrets. *)
Definition plain_training : BasePipeline.t :=
  BasePipeline.mk "training" ["scikit-learn"] None [] true.

(** Two secrets that both define [PASSWORD]. *)
Definition two_secrets : Vault :=
  [ ("aws", [("KEY_ID", "AKIA"); ("PASSWORD", "aws-password")]);
    ("db", [("PASSWORD", "db-password"); ("USER", "admin")]) ].

Definition site (st : Stack) (v : option Vault) : Site :=
  mkSite (fresh_world st) false v [] [] [].

(** A session in a notebook. *)
Definition notebook_site : Site :=
  mkSite (fresh_world remote_stack) true None [] [] [].

(** A registry written with trailing slashes. *)
Definition slashed_registry : ContainerRegistry :=
  mkRegistry "gcr" "gcr.io/my-project//" false.

Definition slashed_stack : Stack :=
  mkStack [orchestrator_component; s3_artifact_store;
           registry_component slashed_registry]
    (Some slashed_registry)
    (mkArtifactStore "s3://bucket/artifacts" false).

End SimDeploy.
(* ===================================================================== *)
(** ** Facts about the runtime                                           *)
(* ===================================================================== *)

Module PyFacts.
Import Py.

Lemma append_assoc (a b c : string) : (a ++ b) ++ c = a ++ b ++ c.
Proof. induction a as [|x a IH]; simpl; [reflexivity | now rewrite IH]. Qed.

Lemma mentions_intro (before needle after : string) :
  mentions (before ++ needle ++ after) needle.
Proof. exists before, after. reflexivity. Qed.

Lemma mentions_here (needle after : string) :
  mentions (needle ++ after) needle.
Proof. exact (mentions_intro "" needle after). Qed.

Lemma mentions_end (needle : string) : mentions needle needle.
Proof.
  exists "", "". simpl. induction needle as [|x n IH]; simpl;
    [reflexivity | now rewrite <- IH].
Qed.

Lemma mentions_skip (prefix_ rest needle : string) :
  mentions rest needle -> mentions (prefix_ ++ rest) needle.
Proof.
  intros (before & after & ->). exists (prefix_ ++ before), after.
  now rewrite append_assoc.
Qed.

Section Runs.
Context {W E : Type}.

Lemma run_eta {A} (r : Run W E A) (o : outcome A) (w : W) :
  result r = o -> final r = w -> r = mkRun o w (events r).
Proof. destruct r; simpl; intros -> ->; reflexivity. Qed.

Lemma bind_run {A B} (m : M W E A) (k : A -> M W E B) (w w' : W) (a : A)
  (evs : list E) :
  m w = mkRun (Returned a) w' evs ->
  bind m k w
  = mkRun (result (k a w')) (final (k a w')) (evs ++ events (k a w')).
Proof. unfold bind. intros ->. reflexivity. Qed.

Lemma bind_raise {A B} (m : M W E A) (k : A -> M W E B) (w w' : W)
  (e : exn) (evs : list E) :
  m w = mkRun (Raised e) w' evs ->
  bind m k w = mkRun (Raised e) w' evs.
Proof. unfold bind. intros ->. reflexivity. Qed.



Lemma bind_returned_inv {A B} (m : M W E A) (k : A -> M W E B) (w : W)
  (b : B) :
  result (bind m k w) = Returned b ->
  exists a, result (m w) = Returned a
            /\ result (k a (final (m w))) = Returned b.
Proof.
  unfold bind. destruct (result (m w)) as [a|e]; cbn [result];
    [eauto | discriminate].
Qed.


Lemma try_except_caught {A} (body : M W E A) (catches : exn -> bool)
  (handler : exn -> M W E A) (w : W) (e : exn) :
  result (body w) = Raised e -> catches e = true ->
  try_except body catches handler w
  = mkRun (result (handler e (final (body w))))
      (final (handler e (final (body w))))
      (events (body w) ++ events (handler e (final (body w)))).
Proof. unfold try_except. intros -> ->. reflexivity. Qed.

Lemma try_except_uncaught {A} (body : M W E A) (catches : exn -> bool)
  (handler : exn -> M W E A) (w : W) (e : exn) :
  result (body w) = Raised e -> catches e = false ->
  try_except body catches handler w = body w.
Proof. unfold try_except. intros -> ->. reflexivity. Qed.

Lemma try_except_returned {A} (body : M W E A) (catches : exn -> bool)
  (handler : exn -> M W E A) (w : W) (a : A) :
  result (body w) = Returned a ->
  try_except body catches handler w = body w.
Proof. unfold try_except. intros ->. reflexivity. Qed.

(** Where an event, a result or an exception of a run comes from. *)

Lemma in_bind {A B} (m : M W E A) (k : A -> M W E B) (w : W) (ev : E) :
  In ev (events (bind m k w)) ->
  In ev (events (m w))
  \/ exists a, result (m w) = Returned a
               /\ In ev (events (k a (final (m w)))).
Proof.
  unfold bind. destruct (result (m w)) as [a|e]; cbn [events]; [|tauto].
  intros Hin. apply in_app_or in Hin. destruct Hin; eauto.
Qed.

Lemma raised_bind {A B} (m : M W E A) (k : A -> M W E B) (w : W) (e : exn) :
  result (bind m k w) = Raised e ->
  result (m w) = Raised e
  \/ exists a, result (m w) = Returned a
               /\ result (k a (final (m w))) = Raised e.
Proof.
  unfold bind. destruct (result (m w)) as [a|e']; cbn [result];
    [intros Hk; right; eauto | intros [= ->]; left; reflexivity].
Qed.

Lemma in_try_except {A} (body : M W E A) (catches : exn -> bool)
  (handler : exn -> M W E A) (w : W) (ev : E) :
  In ev (events (try_except body catches handler w)) ->
  In ev (events (body w))
  \/ exists e, result (body w) = Raised e /\ catches e = true
               /\ In ev (events (handler e (final (body w)))).
Proof.
  unfold try_except. destruct (result (body w)) as [a|e]; [tauto|].
  destruct (catches e) eqn:Hcatch; [|tauto]. cbn [events].
  intros Hin. apply in_app_or in Hin. destruct Hin; eauto 6.
Qed.

Lemma returned_try_except {A} (body : M W E A) (catches : exn -> bool)
  (handler : exn -> M W E A) (w : W) (a : A) :
  result (try_except body catches handler w) = Returned a ->
  result (body w) = Returned a
  \/ exists e, result (body w) = Raised e /\ catches e = true
               /\ result (handler e (final (body w))) = Returned a.
Proof.
  unfold try_except. destruct (result (body w)) as [a'|e] eqn:Hbody.
  - rewrite Hbody. tauto.
  - destruct (catches e) eqn:Hcatch; cbn [result]; [eauto 6|].
    rewrite Hbody. discriminate.
Qed.

Lemma raised_try_except {A} (body : M W E A) (catches : exn -> bool)
  (handler : exn -> M W E A) (w : W) (e : exn) :
  result (try_except body catches handler w) = Raised e ->
  (result (body w) = Raised e /\ catches e = false)
  \/ exists e0, result (body w) = Raised e0 /\ catches e0 = true
                /\ result (handler e0 (final (body w))) = Raised e.
Proof.
  unfold try_except. destruct (result (body w)) as [a|e0] eqn:Hbody.
  - rewrite Hbody. discriminate.
  - destruct (catches e0) eqn:Hcatch; cbn [result]; [eauto 6|].
    rewrite Hbody. intros [= <-]. left. now split.
Qed.

(** Where an event of a part of a run ends up. *)

Lemma in_bind_first {A B} (m : M W E A) (k : A -> M W E B) (w : W) (ev : E) :
  In ev (events (m w)) -> In ev (events (bind m k w)).
Proof.
  unfold bind. destruct (result (m w)); cbn [events]; [|tauto].
  intros Hin. apply in_or_app. now left.
Qed.

Lemma in_bind_later {A B} (m : M W E A) (k : A -> M W E B) (w : W) (ev : E)
  (a : A) :
  result (m w) = Returned a ->
  In ev (events (k a (final (m w)))) -> In ev (events (bind m k w)).
Proof.
  unfold bind. intros ->. cbn [events]. intros Hin. apply in_or_app.
  now right.
Qed.

Lemma in_try_except_body {A} (body : M W E A) (catches : exn -> bool)
  (handler : exn -> M W E A) (w : W) (ev : E) :
  In ev (events (body w)) ->
  In ev (events (try_except body catches handler w)).
Proof.
  unfold try_except. destruct (result (body w)) as [a|e]; [tauto|].
  destruct (catches e); [|tauto]. cbn [events]. intros Hin.
  apply in_or_app. now left.
Qed.

Lemma in_try_except_handler {A} (body : M W E A) (catches : exn -> bool)
  (handler : exn -> M W E A) (w : W) (ev : E) (e : exn) :
  result (body w) = Raised e -> catches e = true ->
  In ev (events (handler e (final (body w)))) ->
  In ev (events (try_except body catches handler w)).
Proof.
  unfold try_except. intros -> ->. cbn [events]. intros Hin.
  apply in_or_app. now right.
Qed.

Lemma events_bind_begin {A B} (m : M W E A) (k : A -> M W E B) (w : W) :
  exists rest, events (bind m k w) = (events (m w) ++ rest)%list.
Proof.
  unfold bind. destruct (result (m w)); cbn [events].
  - eauto.
  - exists []. now rewrite app_nil_r.
Qed.

Lemma events_try_except_begin {A} (body : M W E A) (catches : exn -> bool)
  (handler : exn -> M W E A) (w : W) :
  exists rest,
    events (try_except body catches handler w)
    = (events (body w) ++ rest)%list.
Proof.
  unfold try_except. destruct (result (body w)) as [a|e];
    [exists []; now rewrite app_nil_r|].
  destruct (catches e); cbn [events]; [eauto|].
  exists []. now rewrite app_nil_r.
Qed.

End Runs.

End PyFacts.

(* ===================================================================== *)
(** ** Properties of the Kubeflow orchestrator                           *)
(* ===================================================================== *)

Module KubeflowSpec.
Import Py PyFacts Kubeflow.
Local Open Scope py_scope.

(** *** The validator's loop *)

Definition not_local (c : StackComponent) : Prop :=
  truthy_opt_str (local_path c) = false.

Lemma scan_none (comps : list StackComponent) :
  Forall not_local comps -> local_component_scan comps = None.
Proof.
  induction 1 as [|c rest Hc _ IH]; simpl; [reflexivity|].
  unfold not_local in Hc. rewrite Hc. exact IH.
Qed.

Lemma scan_first (before after : list StackComponent) (c : StackComponent) :
  Forall not_local before ->
  truthy_opt_str (local_path c) = true ->
  local_component_scan (before ++ c :: after)
  = Some (false, local_component_reason c).
Proof.
  intros Hb Hc. induction Hb as [|x rest Hx _ IH]; simpl.
  - rewrite Hc. reflexivity.
  - unfold not_local in Hx. rewrite Hx. exact IH.
Qed.

Lemma reason_names_component (c : StackComponent) :
  mentions (local_component_reason c) (name c).
Proof.
  unfold local_component_reason.
  match goal with
  | |- mentions (?a ++ _ ++ ?b) _ => exact (mentions_intro a (name c) b)
  end.
Qed.

(** C1.  On a stack that has a container registry, the custom validation
    rule of the orchestrator's validator answers as follows.  Remote
    orchestrator (not the self-managed local one): the first component, in
    the order of [stack.components], whose [local_path] is non-empty makes
    the rule fail with a reason that names that component; when no
    component is local, the rule fails iff the registry is local.
    Self-managed-local orchestrator: the rule fails iff the registry is not
    local.  In every remaining case it answers [(True, "")]. *)
Theorem validate_local_requirements_rule
  (self : KubeflowOrchestrator) (stack : Stack) (registry : ContainerRegistry)
  (Hregistry : container_registry stack = Some registry) :
  (is_local self = false ->
     (forall before c after,
        components stack = (before ++ c :: after)%list ->
        Forall not_local before ->
        truthy_opt_str (local_path c) = true ->
        _validate_local_requirements self stack
        = Returned (false, local_component_reason c)
        /\ mentions (local_component_reason c) (name c))
     /\ (Forall not_local (components stack) ->
         _validate_local_requirements self stack
         = Returned (if registry_is_local registry
                     then (false, local_registry_reason registry)
                     else (true, ""))))
  /\ (is_local self = true ->
      _validate_local_requirements self stack
      = Returned (if registry_is_local registry
                  then (true, "")
                  else (false, remote_registry_reason registry))).
Proof.
  unfold _validate_local_requirements. rewrite Hregistry.
  split; intros Hlocal; rewrite Hlocal; simpl.
  - split.
    + intros before c after Hcomps Hbefore Hc.
      rewrite Hcomps, (scan_first before after c Hbefore Hc).
      split; [reflexivity | apply reason_names_component].
    + intros Hnone. rewrite (scan_none _ Hnone).
      destruct (registry_is_local registry); reflexivity.
  - destruct (registry_is_local registry); reflexivity.
Qed.

(** *** Status probes only observe *)

Section Lifecycle.
Context {W : Type} {drv : Driver W}.
Variable self : KubeflowOrchestrator.

(** An event that acts on the outside world, as opposed to a question or
    a log line. *)
Definition is_call (ev : Event) : bool :=
  match ev with
  | Called _ | Client _ => true
  | _ => false
  end.

Definition asks_prerequisites (ev : Event) : bool :=
  match ev with
  | Probed check_prerequisites _ => true
  | _ => false
  end.

(** A computation that returns, leaves the world as it found it and calls
    nothing. *)
Definition observes {A} (m : M W Event A) : Prop :=
  forall w, (exists a, result (m w) = Returned a)
            /\ final (m w) = w
            /\ forallb (fun ev => negb (is_call ev)) (events (m w)) = true.

Lemma observes_ret {A} (a : A) : observes (ret a).
Proof. intros w. simpl. eauto. Qed.

Lemma observes_probe (p : Probe) : observes (probe p).
Proof. intros w. simpl. eauto. Qed.

Lemma observes_bind {A B} (m : M W Event A) (k : A -> M W Event B) :
  observes m -> (forall a, observes (k a)) -> observes (bind m k).
Proof.
  intros Hm Hk w. unfold bind.
  destruct (Hm w) as ([a Ha] & Hf & He). rewrite Ha, Hf.
  destruct (Hk a w) as ([b Hb] & Hf' & He'). simpl.
  rewrite forallb_app, He, He'. eauto.
Qed.

Lemma observes_and_then (a b : M W Event bool) :
  observes a -> observes b -> observes (and_then a b).
Proof.
  intros Ha Hb. apply observes_bind; [exact Ha|].
  intros [|]; [exact Hb | apply observes_ret].
Qed.

Lemma observes_not (a : M W Event bool) : observes a -> observes (not_ a).
Proof.
  intros Ha. apply observes_bind; [exact Ha|]. intros x. apply observes_ret.
Qed.

Lemma observes_is_cluster_provisioned : observes (is_cluster_provisioned self).
Proof.
  unfold is_cluster_provisioned.
  destruct (is_local self); simpl; [apply observes_probe | apply observes_ret].
Qed.

Lemma observes_is_cluster_running : observes (is_cluster_running self).
Proof.
  unfold is_cluster_running.
  destruct (is_local self); simpl; [apply observes_probe | apply observes_ret].
Qed.

Lemma observes_is_daemon_running : observes (is_daemon_running self).
Proof.
  unfold is_daemon_running.
  destruct (negb _); [apply observes_probe | apply observes_ret].
Qed.

Lemma observes_is_provisioned : observes (is_provisioned self).
Proof.
  unfold is_provisioned. apply observes_bind; [apply observes_probe|].
  intros [|]; simpl;
    [apply observes_is_cluster_provisioned | apply observes_ret].
Qed.

Lemma observes_is_running : observes (is_running self).
Proof.
  unfold is_running.
  repeat apply observes_and_then;
    auto using observes_is_provisioned, observes_is_cluster_running,
      observes_is_daemon_running.
Qed.

Lemma observes_is_suspended : observes (is_suspended self).
Proof.
  unfold is_suspended.
  repeat first [apply observes_and_then | apply observes_not];
    auto using observes_is_provisioned, observes_is_cluster_running,
      observes_is_daemon_running.
Qed.

Lemma no_call_in {A} (m : M W Event A) (w : W) (ev : Event) :
  observes m -> In ev (events (m w)) -> is_call ev = false.
Proof.
  intros Hm Hin. destruct (Hm w) as (_ & _ & He).
  rewrite forallb_forall in He. apply He in Hin.
  now apply negb_true_iff in Hin.
Qed.

(** *** C10: a remote orchestrator is never suspended *)

(** C10.  For an orchestrator in remote mode ([is_local] false),
    [is_cluster_provisioned] and [is_cluster_running] return [True] in
    every world without asking anything, and [is_suspended] returns
    [False] in every world, whatever the daemon probe answers. *)
Theorem remote_never_suspended (w : W) (Hremote : is_local self = false) :
  is_cluster_provisioned self w = mkRun (Returned true) w []
  /\ is_cluster_running self w = mkRun (Returned true) w []
  /\ result (is_suspended self w) = Returned false
  /\ final (is_suspended self w) = w.
Proof.
  unfold is_suspended, is_provisioned, is_cluster_provisioned,
    is_cluster_running, and_then, not_, bind, probe, ask, ret.
  rewrite Hremote. simpl.
  repeat split.
  - destruct (answer check_prerequisites w); reflexivity.
  - destruct (answer check_prerequisites w); reflexivity.
Qed.

(** *** C2: provision on a running deployment *)

Definition already_running_message : string :=
  "Found already existing local Kubeflow Pipelines deployment. If there are any issues with the existing deployment, please run 'zenml stack down --force' to delete it.".

(** How [provision] goes on when [is_running] is false, the tools are
    there and the stack has a registry: up to the [try] statement. *)
Lemma provision_reaches_try (w w1 w2 : W) (registry : ContainerRegistry)
  (port : Z) :
  result (is_running self w) = Returned false ->
  answer check_prerequisites w = true ->
  container_registry (active_stack w) = Some registry ->
  perform (fileio_makedirs (root_directory self)) w = (Returned tt, w1) ->
  is_local self = true ->
  int_of_str (split_last ":" (uri registry) "") = Some port ->
  perform (write_local_registry_yaml (_k3d_registry_config_path self)
             (_get_k3d_registry_name port) (uri registry)) w1
  = (Returned tt, w2) ->
  let attempt :=
    try_except (provision_try self (_get_k3d_registry_name port))
      is_Exception (provision_except self (_get_k3d_registry_name port)) w2 in
  provision self w
  = mkRun (result attempt) (final attempt)
      (events (is_running self w)
       ++ [ Probed check_prerequisites true;
            Called (fileio_makedirs (root_directory self));
            Logged INFO "Provisioning local Kubeflow Pipelines deployment...";
            Called (write_local_registry_yaml (_k3d_registry_config_path self)
                      (_get_k3d_registry_name port) (uri registry)) ]
       ++ events attempt).
Proof.
  intros Hnot_running Hprerequisites Hregistry Hmakedirs Hlocal Hport Hyaml.
  cbv zeta. unfold provision.
  rewrite (bind_run _ _ w w false (events (is_running self w)))
    by (apply run_eta; [assumption | apply observes_is_running]).
  cbv iota.
  rewrite (bind_run _ _ w w true [Probed check_prerequisites true])
    by (unfold probe, ask; rewrite Hprerequisites; reflexivity).
  cbn [negb]. cbv iota.
  rewrite (bind_run _ _ w w (Some registry) [])
    by (unfold gets; rewrite Hregistry; reflexivity).
  cbv iota beta.
  rewrite (bind_run _ _ w w1 tt [Called (fileio_makedirs (root_directory self))])
    by (unfold call, invoke; rewrite Hmakedirs; reflexivity).
  rewrite Hlocal. cbn [negb]. cbv iota.
  rewrite (bind_run _ _ w1 w1 tt
             [Logged INFO "Provisioning local Kubeflow Pipelines deployment..."])
    by reflexivity.
  rewrite Hport.
  rewrite (bind_run _ _ w1 w2 tt
             [Called (write_local_registry_yaml (_k3d_registry_config_path self)
                        (_get_k3d_registry_name port) (uri registry))])
    by (unfold call, invoke; rewrite Hyaml; reflexivity).
  reflexivity.
Qed.

(** Tracing an external call of a run back to the statement that made
    it. *)
Ltac call_origin :=
  repeat match goal with
    | H : In _ (events (bind _ _ _)) |- _ =>
        apply in_bind in H as [H | (? & ? & H)]; cbv beta in H
    | H : In _ (events (try_except _ _ _ _)) |- _ =>
        apply in_try_except in H as [H | (? & ? & ? & H)]; cbv beta in H
    | H : In _ (events (log _ _ _)) |- _ =>
        unfold log, emit in H; cbn [events In] in H; destruct H as [H|[]];
        discriminate H
    | H : In _ (events (probe _ _)) |- _ =>
        unfold probe, ask in H; cbn [events In] in H; destruct H as [H|[]];
        discriminate H
    | H : In _ (events (call _ _)) |- _ =>
        unfold call, invoke in H; cbn [events In] in H; destruct H as [H|[]];
        try discriminate H
    | H : In _ (events (ret _ _)) |- _ => destruct H
    | H : In _ (events (raise _ _)) |- _ => destruct H
    | H : In _ (events (gets _ _)) |- _ => destruct H
    | H : In (Called _) (events (is_running _ _)) |- _ =>
        apply (no_call_in _ _ _ observes_is_running) in H; discriminate H
    | H : In (Called _) (events (is_daemon_running _ _)) |- _ =>
        apply (no_call_in _ _ _ observes_is_daemon_running) in H;
        discriminate H
    | H : In _ (events ((if ?b then _ else _) _)) |- _ => destruct b
    | H : In _ (events (match ?x with _ => _ end _)) |- _ => destruct x
    end.

Lemma provision_never_starts_the_daemon (w : W)
  (pid_file_path log_file_path : string) (port : Z) (ctx : string) :
  ~ In (Called (start_kfp_ui_daemon pid_file_path log_file_path port ctx))
      (events (provision self w)).
Proof.
  intros Hin. unfold provision in Hin. call_origin.
  - unfold provision_try in Hin. call_origin.
  - unfold provision_except, list_manual_setup_steps, deprovision in Hin.
    call_origin.
Qed.

(** C2 (as the code has it).  In every world in which [is_running]
    holds, [provision] returns at once: it evaluates the [is_running]
    guard, logs one informational message and does nothing else.  The
    world is left untouched and no external call is made (no directory
    creation, no registry-config write, no cluster creation); a second
    [provision] from there changes nothing.  It is not free of
    prerequisite checks: [check_prerequisites] is consulted once, by the
    [is_provisioned] probe inside the guard; only [provision]'s own check
    is not reached.

    [provision] never starts the UI daemon, in whatever world it is
    called.  And whenever [is_running] is false it goes through its
    sequence: with the prerequisites there, a registry with a port in
    the stack and a local orchestrator, it calls [create_k3d_cluster]
    once the directory and the registry configuration are written --
    whether or not the cluster exists already. *)
Theorem provision_when_running (w : W) :
  (result (is_running self w) = Returned true ->
   provision self w
   = mkRun (Returned tt) w
       (events (is_running self w) ++ [Logged INFO already_running_message])
   /\ (forall ev, In ev (events (provision self w)) -> is_call ev = false)
   /\ List.length (filter asks_prerequisites (events (provision self w)))
      = 1%nat
   /\ final (provision self (final (provision self w)))
      = final (provision self w))
  /\ (forall pid_file_path log_file_path port ctx,
        ~ In (Called (start_kfp_ui_daemon pid_file_path log_file_path port
                        ctx))
            (events (provision self w)))
  /\ (forall registry port w1 w2,
        result (is_running self w) = Returned false ->
        answer check_prerequisites w = true ->
        container_registry (active_stack w) = Some registry ->
        perform (fileio_makedirs (root_directory self)) w = (Returned tt, w1) ->
        is_local self = true ->
        int_of_str (split_last ":" (uri registry) "") = Some port ->
        perform (write_local_registry_yaml (_k3d_registry_config_path self)
                   (_get_k3d_registry_name port) (uri registry)) w1
        = (Returned tt, w2) ->
        In (Called (create_k3d_cluster (_k3d_cluster_name self)
                      (_get_k3d_registry_name port)
                      (_k3d_registry_config_path self)))
          (events (provision self w))).
Proof.
  split; [|split].
  - intros Hrunning.
    assert (Hrun : provision self w
                   = mkRun (Returned tt) w
                       (events (is_running self w)
                        ++ [Logged INFO already_running_message])).
    { unfold provision, bind at 1. rewrite Hrunning.
      destruct (observes_is_running w) as (_ & Hf & _). rewrite Hf.
      reflexivity. }
    rewrite Hrun. simpl. repeat split.
    + intros ev Hin. apply in_app_or in Hin. destruct Hin as [Hin | [<- | []]].
      * exact (no_call_in _ _ _ observes_is_running Hin).
      * reflexivity.
    + rewrite filter_app. simpl. rewrite app_nil_r.
      revert Hrunning.
      unfold is_running, is_provisioned, is_cluster_provisioned,
        is_cluster_running, is_daemon_running, and_then, bind, probe, ask, ret.
      simpl.
      destruct (answer check_prerequisites w); simpl; [|discriminate].
      destruct (is_local self); simpl.
      * destruct (answer (k3d_cluster_exists _) w); simpl; [|discriminate].
        destruct (answer (k3d_cluster_running _) w); simpl; [|discriminate].
        destruct (negb (sys_platform =? "win32")); reflexivity.
      * destruct (negb (sys_platform =? "win32")); reflexivity.
    + rewrite Hrun. reflexivity.
  - intros pid_file_path log_file_path port ctx.
    apply provision_never_starts_the_daemon.
  - intros registry port w1 w2 Hnot_running Hprerequisites Hregistry
      Hmakedirs Hlocal Hport Hyaml.
    rewrite (provision_reaches_try w w1 w2 registry port Hnot_running
               Hprerequisites Hregistry Hmakedirs Hlocal Hport Hyaml).
    cbn [events]. apply in_or_app. right. apply in_or_app. right.
    apply in_try_except_body. unfold provision_try.
    apply in_bind_first. unfold call, invoke. cbn [events In]. now left.
Qed.

(** *** C3: a failure inside the [try] block of [provision] *)

(** What [list_manual_setup_steps] writes to the log. *)
Definition manual_setup_log (container_registry_name
  container_registry_path : string) : list Event :=
  [ Logged ERROR "Unable to spin up local Kubeflow Pipelines deployment.";
    Logged INFO ("If you wish to spin up this Kubeflow local orchestrator manually, please enter the following commands (substituting where appropriate):" ++ nl);
    Logged INFO (join nl (kubeflow_commands self container_registry_name
                            container_registry_path)) ].

Lemma list_manual_setup_steps_run (n p : string) (w : W) :
  list_manual_setup_steps self n p w
  = mkRun (Returned tt) w (manual_setup_log n p).
Proof. reflexivity. Qed.

(** C3 (as the code has it).  Let [provision] reach its [try] block on a
    self-managed-local orchestrator and let the block raise an
    [Exception] [e] (from cluster creation, platform deployment or the
    artifact-store mount).  Then the exception is logged at error level,
    the manual setup steps are logged, and [deprovision] is run as
    rollback from the world the failure left; [e] is not re-raised:
    [provision] ends the way [deprovision] ends, so it returns normally
    whenever the rollback does. *)
Theorem provision_failure_rolls_back
  (w w1 w2 : W) (registry : ContainerRegistry) (port : Z) (e : exn)
  (Hnot_running : result (is_running self w) = Returned false)
  (Hprerequisites : answer check_prerequisites w = true)
  (Hregistry : container_registry (active_stack w) = Some registry)
  (Hmakedirs : perform (fileio_makedirs (root_directory self)) w
               = (Returned tt, w1))
  (Hlocal : is_local self = true)
  (Hport : int_of_str (split_last ":" (uri registry) "") = Some port)
  (Hyaml : perform (write_local_registry_yaml (_k3d_registry_config_path self)
                      (_get_k3d_registry_name port) (uri registry)) w1
           = (Returned tt, w2))
  (Hraised : result (provision_try self (_get_k3d_registry_name port) w2)
             = Raised e)
  (Hexception : is_Exception e = true) :
  let failed := provision_try self (_get_k3d_registry_name port) w2 in
  let rollback := deprovision self (final failed) in
  result (provision self w) = result rollback
  /\ final (provision self w) = final rollback
  /\ events (provision self w)
     = (events (is_running self w)
        ++ [ Probed check_prerequisites true;
             Called (fileio_makedirs (root_directory self));
             Logged INFO "Provisioning local Kubeflow Pipelines deployment...";
             Called (write_local_registry_yaml (_k3d_registry_config_path self)
                       (_get_k3d_registry_name port) (uri registry)) ]
        ++ events failed
        ++ [ Logged ERROR (exc_message e) ]
        ++ manual_setup_log (_get_k3d_registry_name port)
             (_k3d_registry_config_path self)
        ++ events rollback)%list.
Proof.
  intros failed rollback.
  destruct (observes_is_running w) as (_ & Hsame & _).
  assert (Hrun : provision self w
    = mkRun (result rollback) (final rollback)
        (events (is_running self w)
         ++ [ Probed check_prerequisites true;
              Called (fileio_makedirs (root_directory self));
              Logged INFO "Provisioning local Kubeflow Pipelines deployment...";
              Called (write_local_registry_yaml (_k3d_registry_config_path self)
                        (_get_k3d_registry_name port) (uri registry)) ]
         ++ events failed
         ++ [ Logged ERROR (exc_message e) ]
         ++ manual_setup_log (_get_k3d_registry_name port)
              (_k3d_registry_config_path self)
         ++ events rollback)%list).
  { unfold provision.
    rewrite (bind_run _ _ w w false (events (is_running self w)))
      by (apply run_eta; assumption).
    cbv iota.
    rewrite (bind_run _ _ w w true [Probed check_prerequisites true])
      by (unfold probe, ask; rewrite Hprerequisites; reflexivity).
    cbn [negb]. cbv iota.
    rewrite (bind_run _ _ w w (Some registry) [])
      by (unfold gets; rewrite Hregistry; reflexivity).
    cbv iota beta.
    rewrite (bind_run _ _ w w1 tt [Called (fileio_makedirs (root_directory self))])
      by (unfold call, invoke; rewrite Hmakedirs; reflexivity).
    rewrite Hlocal. cbn [negb]. cbv iota.
    rewrite (bind_run _ _ w1 w1 tt
               [Logged INFO "Provisioning local Kubeflow Pipelines deployment..."])
      by reflexivity.
    rewrite Hport. cbv iota beta zeta.
    rewrite (bind_run _ _ w1 w2 tt
               [Called (write_local_registry_yaml (_k3d_registry_config_path self)
                          (_get_k3d_registry_name port) (uri registry))])
      by (unfold call, invoke; rewrite Hyaml; reflexivity).
    rewrite (try_except_caught _ _ _ w2 e Hraised Hexception).
    fold failed. unfold provision_except.
    rewrite (bind_run _ _ (final failed) (final failed) tt
               [Logged ERROR (exc_message e)]) by reflexivity.
    rewrite (bind_run _ _ (final failed) (final failed) tt
               (manual_setup_log (_get_k3d_registry_name port)
                  (_k3d_registry_config_path self)))
      by apply list_manual_setup_steps_run.
    fold rollback. cbn [result final events app].
    reflexivity. }
  rewrite Hrun. cbn [result final events]. auto.
Qed.

(** *** C4: what [deprovision] calls *)

Ltac split_calls :=
  repeat match goal with
    | |- context [perform ?a ?w] =>
        let E := fresh "Hcall" in
        destruct (perform a w) as [[[]|?] ?] eqn:E; cbn [fst snd]
    | |- context [answer ?p ?w] =>
        let E := fresh "Hanswer" in
        destruct (answer p w) eqn:E
    end.

Ltac run_deprovision :=
  unfold deprovision, is_daemon_running, bind, call, invoke, probe, ask, log,
    emit, ret;
  cbn [result final events app].

(** C4 (as the code has it).  [deprovision], run in any world:
    - never calls [delete_k3d_cluster] for a remote orchestrator;
    - stops the daemon only when [is_daemon_running] holds, and removes a
      file only after [fileio.exists] answered [True] for it;
    - for a self-managed-local orchestrator calls [delete_k3d_cluster] on
      its cluster whether or not anything is provisioned (the only thing
      that can pre-empt the call is a daemon stop that raises);
    - returns normally whenever the external calls it makes do: when it
      raises, one of the calls it made raised that exception. *)
Theorem deprovision_calls (w : W) :
  (is_local self = false ->
   forall n, ~ In (Called (delete_k3d_cluster n)) (events (deprovision self w)))
  /\ (forall pid,
        In (Called (stop_kfp_ui_daemon pid)) (events (deprovision self w)) ->
        result (is_daemon_running self w) = Returned true)
  /\ (forall f,
        In (Called (fileio_remove f)) (events (deprovision self w)) ->
        In (Probed (fileio_exists f) true) (events (deprovision self w)))
  /\ (is_local self = true ->
      (result (is_daemon_running self w) = Returned true ->
       fst (perform (stop_kfp_ui_daemon (_pid_file_path self)) w)
       = Returned tt) ->
      In (Called (delete_k3d_cluster (_k3d_cluster_name self)))
        (events (deprovision self w)))
  /\ (forall e,
        result (deprovision self w) = Raised e ->
        exists a w',
          In (Called a) (events (deprovision self w))
          /\ fst (perform a w') = Raised e).
Proof.
  split; [|split; [|split; [|split]]].
  - intros Hremote n. run_deprovision. rewrite Hremote.
    destruct (negb (sys_platform =? "win32")); cbn [result final events app];
      split_calls; cbn [result final events app In];
      intuition discriminate.
  - intros pid. run_deprovision.
    destruct (negb (sys_platform =? "win32")); cbn [result final events app];
      [|reflexivity].
    destruct (answer (check_if_daemon_is_running _) w) eqn:Hdaemon;
      [reflexivity|].
    cbn [result final events app]. destruct (is_local self);
      cbn [result final events app]; split_calls;
      cbn [result final events app In]; intuition discriminate.
  - intros f. run_deprovision.
    destruct (negb (sys_platform =? "win32")); cbn [result final events app];
      destruct (is_local self); cbn [result final events app];
      split_calls; cbn [result final events app In];
      intuition (try discriminate);
      repeat match goal with
        | H : Called _ = Called _ |- _ => injection H as <-
        end; auto 10.
  - intros Hlocal. run_deprovision. rewrite Hlocal.
    destruct (negb (sys_platform =? "win32")); cbn [result final events app];
      split_calls; cbn [result final events app In];
      intros Hstop; auto 10;
      specialize (Hstop eq_refl); discriminate.
  - run_deprovision.
    destruct (negb (sys_platform =? "win32")); cbn [result final events app];
      destruct (is_local self); cbn [result final events app];
      split_calls; cbn [result final events app];
      intros raised Hraised; try discriminate Hraised;
      injection Hraised as <-;
      match goal with
      | H : perform ?a ?w' = (Raised _, _) |- _ =>
          exists a, w'; split; [cbn [In]; auto 10 | rewrite H; reflexivity]
      end.
Qed.

(** *** C8: the port the UI daemon is started on *)

Lemma bind_observes {A B} (m : M W Event A) (k : A -> M W Event B) (w : W)
  (a : A) :
  observes m -> result (m w) = Returned a ->
  bind m k w
  = mkRun (result (k a w)) (final (k a w)) (events (m w) ++ events (k a w)).
Proof.
  intros Hm Ha. destruct (Hm w) as (_ & Hf & _).
  apply bind_run. apply run_eta; assumption.
Qed.

(** The port [_get_kfp_ui_daemon_port] settles on in world [w]: the
    configured one, unless that is the default 8080 and 8080 is taken. *)
Definition chosen_port (w : W) : Z :=
  let port := kubeflow_pipelines_ui_port self in
  if (port =? DEFAULT_KFP_UI_PORT)%Z && negb (answer (port_available port) w)
  then find_available_port w
  else port.

Lemma observes_get_kfp_ui_daemon_port : observes (_get_kfp_ui_daemon_port self).
Proof.
  unfold _get_kfp_ui_daemon_port. cbv zeta.
  destruct (_ =? _)%Z; [|apply observes_ret].
  apply observes_bind; [apply observes_probe|].
  intros [|]; cbn [negb]; [apply observes_ret|].
  intros w. simpl. eauto.
Qed.

Lemma get_kfp_ui_daemon_port_result (w : W) :
  result (_get_kfp_ui_daemon_port self w) = Returned (chosen_port w).
Proof.
  unfold _get_kfp_ui_daemon_port, chosen_port, bind, probe, ask, ret.
  cbv zeta. destruct (_ =? _)%Z; cbn [andb result final events]; [|reflexivity].
  destruct (answer _ w); reflexivity.
Qed.

Lemma resume_daemon_run (ctx : string) (w : W) :
  result (is_daemon_running self w) = Returned false ->
  let start := start_kfp_ui_daemon (_pid_file_path self) (log_file self)
                 (chosen_port w) ctx in
  resume_daemon self ctx w
  = mkRun (fst (perform start w)) (snd (perform start w))
      (events (is_daemon_running self w)
       ++ events (_get_kfp_ui_daemon_port self w) ++ [Called start]).
Proof.
  intros Hdaemon start. unfold resume_daemon.
  rewrite (bind_observes _ _ w false observes_is_daemon_running Hdaemon).
  cbn [negb]. cbv iota.
  rewrite (bind_observes _ _ w (chosen_port w)
             observes_get_kfp_ui_daemon_port (get_kfp_ui_daemon_port_result w)).
  reflexivity.
Qed.

(** C8 (as the code has it).  On a provisioned backend [resume] starts
    the UI daemon, when it finds it not running, bound to [chosen_port]:
    the configured port, except that a configured port equal to the
    default 8080 is replaced by [find_available_port()] when 8080 is not
    available.  A configured port other than 8080 is used as it is,
    without even asking whether it is available.  This holds when the
    cluster is already up or remote (the port is chosen in the world
    [resume] started in) and when a stopped local cluster is started
    first (the port is chosen in the world that start left); in both
    cases the daemon start is the last thing [resume] does, and
    [resume] ends the way it ends. *)
Theorem resume_daemon_port (w : W) (ctx : string)
  (Hcontext : kubernetes_context self = Some ctx)
  (Hprovisioned : result (is_provisioned self w) = Returned true) :
  let start := fun w' =>
    start_kfp_ui_daemon (_pid_file_path self) (log_file self)
      (chosen_port w') ctx in
  (result (is_cluster_running self w) = Returned true ->
   result (is_daemon_running self w) = Returned false ->
   result (resume self w) = fst (perform (start w) w)
   /\ final (resume self w) = snd (perform (start w) w)
   /\ exists asked,
        events (resume self w) = (asked ++ [Called (start w)])%list
        /\ forall ev, In ev asked -> is_call ev = false)
  /\ (forall w1 w2,
        is_local self = true ->
        result (is_cluster_running self w) = Returned false ->
        perform (start_k3d_cluster (_k3d_cluster_name self)) w
        = (Returned tt, w1) ->
        perform (wait_until_kubeflow_pipelines_ready ctx) w1
        = (Returned tt, w2) ->
        result (is_daemon_running self w2) = Returned false ->
        result (resume self w) = fst (perform (start w2) w2)
        /\ final (resume self w) = snd (perform (start w2) w2)
        /\ exists before,
             events (resume self w) = (before ++ [Called (start w2)])%list)
  /\ (kubeflow_pipelines_ui_port self <> DEFAULT_KFP_UI_PORT ->
      forall w',
        chosen_port w' = kubeflow_pipelines_ui_port self
        /\ _get_kfp_ui_daemon_port self w'
           = mkRun (Returned (kubeflow_pipelines_ui_port self)) w' []).
Proof.
  intros start. split; [|split].
  - intros Hcluster Hdaemon.
    assert (Hnot_running : result (is_running self w) = Returned false).
    { unfold is_running, and_then.
      rewrite (bind_observes _ _ w true observes_is_provisioned Hprovisioned).
      cbv iota.
      rewrite (bind_observes _ _ w true observes_is_cluster_running Hcluster).
      cbv iota. cbn [result]. exact Hdaemon. }
    set (stopped := if is_local self then not_ (is_cluster_running self)
                    else ret false).
    assert (Hobs : observes stopped).
    { unfold stopped. destruct (is_local self);
        [apply observes_not, observes_is_cluster_running | apply observes_ret]. }
    assert (Hstopped : result (stopped w) = Returned false).
    { unfold stopped. destruct (is_local self); [|reflexivity].
      unfold not_.
      rewrite (bind_observes _ _ w true observes_is_cluster_running Hcluster).
      reflexivity. }
    assert (Hrun : resume self w
      = mkRun (fst (perform (start w) w)) (snd (perform (start w) w))
          ((events (is_running self w) ++ events (is_provisioned self w)
            ++ events (stopped w) ++ events (is_daemon_running self w)
            ++ events (_get_kfp_ui_daemon_port self w))
           ++ [Called (start w)])%list).
    { unfold resume.
      rewrite (bind_observes _ _ w false observes_is_running Hnot_running).
      cbv iota.
      rewrite (bind_observes _ _ w true observes_is_provisioned Hprovisioned).
      cbn [negb]. cbv iota. rewrite Hcontext.
      fold stopped.
      rewrite (bind_observes _ _ w false Hobs Hstopped). cbv iota.
      rewrite (bind_run _ _ w w tt []) by reflexivity.
      rewrite (resume_daemon_run ctx w Hdaemon).
      cbn [result final events app]. rewrite <- !app_assoc. reflexivity. }
    rewrite Hrun. cbn [result final events]. repeat split.
    eexists. split; [reflexivity|].
    intros ev Hin.
    do 4 (apply in_app_or in Hin; destruct Hin as [Hin|Hin];
          [ solve [eauto using no_call_in, observes_is_running,
                     observes_is_provisioned, observes_is_daemon_running] | ]).
    eauto using no_call_in, observes_get_kfp_ui_daemon_port.
  - intros w1 w2 Hlocal Hcluster Hstart Hwait Hdaemon.
    assert (Hnot_running : result (is_running self w) = Returned false).
    { unfold is_running, and_then.
      rewrite (bind_observes _ _ w true observes_is_provisioned Hprovisioned).
      cbv iota.
      rewrite (bind_observes _ _ w false observes_is_cluster_running Hcluster).
      reflexivity. }
    assert (Hstopped : result (not_ (is_cluster_running self) w)
                       = Returned true).
    { unfold not_.
      rewrite (bind_observes _ _ w false observes_is_cluster_running Hcluster).
      reflexivity. }
    assert (Hrun : resume self w
      = mkRun (fst (perform (start w2) w2)) (snd (perform (start w2) w2))
          (events (is_running self w) ++ events (is_provisioned self w)
           ++ events (not_ (is_cluster_running self) w)
           ++ [Called (start_k3d_cluster (_k3d_cluster_name self));
               Called (wait_until_kubeflow_pipelines_ready ctx)]
           ++ events (is_daemon_running self w2)
           ++ events (_get_kfp_ui_daemon_port self w2)
           ++ [Called (start w2)])%list).
    { unfold resume.
      rewrite (bind_observes _ _ w false observes_is_running Hnot_running).
      cbv iota.
      rewrite (bind_observes _ _ w true observes_is_provisioned Hprovisioned).
      cbn [negb]. cbv iota. rewrite Hcontext, Hlocal.
      rewrite (bind_observes _ _ w true
                 (observes_not _ observes_is_cluster_running) Hstopped).
      cbv iota.
      rewrite (bind_run _ _ w w2 tt
                 [Called (start_k3d_cluster (_k3d_cluster_name self));
                  Called (wait_until_kubeflow_pipelines_ready ctx)]).
      2:{ rewrite (bind_run _ _ w w1 tt
                     [Called (start_k3d_cluster (_k3d_cluster_name self))])
            by (unfold call, invoke; rewrite Hstart; reflexivity).
          unfold call, invoke. rewrite Hwait. reflexivity. }
      rewrite (resume_daemon_run ctx w2 Hdaemon).
      cbn [result final events app]. reflexivity. }
    rewrite Hrun. cbn [result final events]. repeat split.
    exists (events (is_running self w) ++ events (is_provisioned self w)
            ++ events (not_ (is_cluster_running self) w)
            ++ [Called (start_k3d_cluster (_k3d_cluster_name self));
                Called (wait_until_kubeflow_pipelines_ready ctx)]
            ++ events (is_daemon_running self w2)
            ++ events (_get_kfp_ui_daemon_port self w2))%list.
    rewrite <- !app_assoc. reflexivity.
  - intros Hcustom w'. split.
    + unfold chosen_port. cbv zeta.
      destruct (Z.eqb_spec (kubeflow_pipelines_ui_port self) DEFAULT_KFP_UI_PORT);
        [contradiction | reflexivity].
    + unfold _get_kfp_ui_daemon_port. cbv zeta.
      destruct (Z.eqb_spec (kubeflow_pipelines_ui_port self) DEFAULT_KFP_UI_PORT);
        [contradiction | reflexivity].
Qed.

(** *** C9: which failures of a run submission are absorbed *)

(** A [ValueError] or [ApiException] of [get_experiment] is the one
    exception of a client call that does not leave the [try] block. *)
Definition leaves_the_block (c : ClientCall) (e : exn) : Prop :=
  match c with
  | get_experiment _ => is_ValueError_or_ApiException e = false
  | _ => True
  end.

(** A computation that raises only what a call on the KFP client raised,
    and that call is among its events. *)
Definition blames_the_client {A} (m : M W Event A) : Prop :=
  forall w e,
    result (m w) = Raised e ->
    exists c w',
      In (Client c) (events (m w))
      /\ fst (kfp c w') = Raised e
      /\ leaves_the_block c e.

Lemma blames_ret {A} (a : A) : blames_the_client (ret a).
Proof. intros w e. discriminate. Qed.

Lemma blames_log (level : LogLevel) (message : string) :
  blames_the_client (log level message).
Proof. intros w e. discriminate. Qed.

Lemma blames_client (c : ClientCall) :
  (forall e, leaves_the_block c e) -> blames_the_client (client c).
Proof.
  intros Hleaves w e Hraised. exists c, w. split; [now left|].
  split; [exact Hraised | apply Hleaves].
Qed.

Lemma blames_bind {A B} (m : M W Event A) (k : A -> M W Event B) :
  blames_the_client m -> (forall a, blames_the_client (k a)) ->
  blames_the_client (bind m k).
Proof.
  intros Hm Hk w e Hraised.
  apply raised_bind in Hraised as [Hraised | (a & Ha & Hraised)].
  - destruct (Hm w e Hraised) as (c & w' & Hin & Hc & Hleaves).
    exists c, w'. split; [now apply in_bind_first | now split].
  - destruct (Hk a _ e Hraised) as (c & w' & Hin & Hc & Hleaves).
    exists c, w'. split; [now apply in_bind_later with (a := a) | now split].
Qed.

(** The inner [try] statement of the recurring branch: what it raises is
    what [get_experiment] raised, unless that is a [ValueError] or an
    [ApiException], or what [create_experiment] raised. *)
Lemma blames_experiment_lookup (pipeline_name : string)
  (found : string -> M W Event string) (created : string -> M W Event string) :
  (forall experiment_id, blames_the_client (found experiment_id)) ->
  (forall experiment_id, blames_the_client (created experiment_id)) ->
  blames_the_client
    (try_except (bind (client (get_experiment pipeline_name)) found)
       is_ValueError_or_ApiException
       (fun _ => bind (client (create_experiment pipeline_name)) created)).
Proof.
  intros Hfound Hcreated w e Hraised.
  apply raised_try_except in Hraised
    as [(Hraised & Hclass) | (e0 & Hbody & Hcaught & Hraised)].
  - apply raised_bind in Hraised as [Hraised | (a & Ha & Hraised)].
    + exists (get_experiment pipeline_name), w. split.
      * apply in_try_except_body, in_bind_first. now left.
      * split; [exact Hraised | exact Hclass].
    + destruct (Hfound a _ e Hraised) as (c & w' & Hin & Hc & Hleaves).
      exists c, w'. split; [|now split].
      apply in_try_except_body. now apply in_bind_later with (a := a).
  - assert (Hhandler :
      blames_the_client
        (bind (client (create_experiment pipeline_name)) created)).
    { apply blames_bind; [apply blames_client; intros; exact I | exact Hcreated]. }
    destruct (Hhandler _ e Hraised) as (c & w' & Hin & Hc & Hleaves).
    exists c, w'. split; [|now split].
    now apply in_try_except_handler with (e := e0).
Qed.

Lemma blames_upload_and_run_try (pipeline_name pipeline_file_path : string)
  (runtime_configuration : RuntimeConfiguration) (enable_cache : bool) :
  blames_the_client
    (upload_and_run_try self pipeline_name pipeline_file_path
       runtime_configuration enable_cache).
Proof.
  unfold upload_and_run_try.
  apply blames_bind; [apply blames_log | intros _].
  apply blames_bind; [apply blames_client; intros; exact I | intros _].
  destruct (schedule runtime_configuration) as [schedule|].
  - unfold recurring_run.
    apply blames_bind.
    + apply blames_experiment_lookup; intros experiment_id;
        (apply blames_bind; [apply blames_log | intros _; apply blames_ret]).
    + intros experiment_id.
      apply blames_bind; [apply blames_log | intros _].
      apply blames_bind; [apply blames_client; intros; exact I | intros result_id].
      apply blames_log.
  - unfold one_off_run.
    apply blames_bind; [apply blames_log | intros _].
    apply blames_bind; [apply blames_client; intros; exact I | intros run_id].
    apply blames_bind; [apply blames_log | intros _].
    destruct (synchronous self); [|apply blames_ret].
    apply blames_bind; [apply blames_client; intros; exact I | intros _].
    apply blames_ret.
Qed.

(** In the recurring branch a [ValueError] or [ApiException] of
    [get_experiment] is followed by the creation of the experiment. *)
Lemma recurring_run_absorbs (pipeline_name pipeline_file_path : string)
  (runtime_configuration : RuntimeConfiguration) (schedule : Schedule)
  (enable_cache : bool) (w1 w2 : W) (e : exn) :
  kfp (get_experiment pipeline_name) w1 = (Raised e, w2) ->
  is_ValueError_or_ApiException e = true ->
  exists rest,
    events (recurring_run pipeline_name pipeline_file_path
              runtime_configuration schedule enable_cache w1)
    = Client (get_experiment pipeline_name)
      :: Client (create_experiment pipeline_name) :: rest.
Proof.
  intros Hlookup Hclass. unfold recurring_run.
  match goal with
  | |- context [bind (try_except ?b ?c ?h) ?k w1] =>
      set (body := b); set (handler := h);
      destruct (events_bind_begin (try_except body c handler) k w1)
        as (after_lookup & ->)
  end.
  assert (Hbody : body w1
                  = mkRun (Raised e) w2 [Client (get_experiment pipeline_name)]).
  { unfold body, bind, client, invoke. rewrite Hlookup. reflexivity. }
  rewrite (try_except_caught body _ handler w1 e)
    by (rewrite ?Hbody; first [reflexivity | exact Hclass]).
  rewrite Hbody. cbn [result final events]. unfold handler.
  match goal with
  | |- context [events (bind ?m ?k w2)] =>
      destruct (events_bind_begin m k w2) as (after_creation & ->)
  end.
  cbn [client invoke events app].
  eexists. reflexivity.
Qed.

(** C9 (as the code has it).  The [try] block of
    [_upload_and_run_pipeline] raises only what a call on the KFP client
    raised, and never a [ValueError] or [ApiException] of
    [get_experiment]: in the recurring branch the inner handler absorbs
    those and [create_experiment] is called next.  When the block raises
    an [urllib3] [HTTPError], a warning is logged and the routine returns
    normally; every other exception the block raises -- an
    [ApiException] from the run creation, say -- propagates to the caller
    unchanged, with nothing logged beyond what the block itself logged.
    When the block returns, so does the routine.  So the routine never
    raises an [HTTPError]. *)
Theorem upload_catches_http_errors_only
  (pipeline_name pipeline_file_path : string)
  (runtime_configuration : RuntimeConfiguration) (enable_cache : bool)
  (w : W) :
  let block := upload_and_run_try self pipeline_name pipeline_file_path
                 runtime_configuration enable_cache w in
  let run := _upload_and_run_pipeline self pipeline_name pipeline_file_path
               runtime_configuration enable_cache w in
  (forall e, result run = Raised e -> is_HTTPError e = false)
  /\ (forall e, result block = Raised e -> is_HTTPError e = true ->
       run = mkRun (Returned tt) (final block)
               (events block ++ [Logged WARNING (upload_failed_warning e)]))
  /\ (forall e, result block = Raised e -> is_HTTPError e = false ->
       run = block)
  /\ (forall a, result block = Returned a -> run = block)
  /\ (forall e,
        result block = Raised e ->
        exists c w',
          In (Client c) (events block)
          /\ fst (kfp c w') = Raised e
          /\ leaves_the_block c e)
  /\ (forall schedule client_id w1 e w2,
        Kubeflow.schedule runtime_configuration = Some schedule ->
        kfp (kfp_Client (kubernetes_context self)) w = (Returned client_id, w1) ->
        kfp (get_experiment pipeline_name) w1 = (Raised e, w2) ->
        is_ValueError_or_ApiException e = true ->
        exists rest,
          events run
          = ([ Logged INFO ("Running in kubernetes context '"
                            ++ str_of_opt (kubernetes_context self) ++ "'.");
               Client (kfp_Client (kubernetes_context self));
               Client (get_experiment pipeline_name);
               Client (create_experiment pipeline_name) ] ++ rest)%list).
Proof.
  intros block run. unfold run, _upload_and_run_pipeline. fold block.
  split; [|split; [|split; [|split; [|split]]]].
  - intros e. unfold try_except. fold block.
    destruct (result block) as [a|e'] eqn:Hblock.
    + rewrite Hblock. discriminate.
    + destruct (is_HTTPError e') eqn:Hhttp.
      * cbn [result]. discriminate.
      * rewrite Hblock. intros [= <-]. exact Hhttp.
  - intros e Hraised Hhttp.
    unfold block in *. rewrite (try_except_caught _ _ _ w e Hraised Hhttp).
    reflexivity.
  - intros e Hraised Hhttp.
    unfold block in *. apply (try_except_uncaught _ _ _ w e Hraised Hhttp).
  - intros a Hreturned.
    unfold block in *. apply (try_except_returned _ _ _ w a Hreturned).
  - intros e Hraised. exact (blames_upload_and_run_try _ _ _ _ w e Hraised).
  - intros schedule client_id w1 e w2 Hschedule Hclient Hlookup Hclass.
    destruct (events_try_except_begin
                (upload_and_run_try self pipeline_name pipeline_file_path
                   runtime_configuration enable_cache)
                is_HTTPError
                (fun error => log WARNING (upload_failed_warning error)) w)
      as (after_block & ->).
    unfold upload_and_run_try.
    rewrite (bind_run _ _ w w tt
               [Logged INFO ("Running in kubernetes context '"
                             ++ str_of_opt (kubernetes_context self) ++ "'.")])
      by reflexivity.
    rewrite (bind_run _ _ w w1 client_id
               [Client (kfp_Client (kubernetes_context self))])
      by (unfold client, invoke; rewrite Hclient; reflexivity).
    rewrite Hschedule. cbn [events].
    destruct (recurring_run_absorbs pipeline_name pipeline_file_path
                runtime_configuration schedule enable_cache w1 w2 e
                Hlookup Hclass) as (rest & ->).
    cbn [app]. eexists. reflexivity.
Qed.

End Lifecycle.

(** *** The properties at work on the simulated machine *)

Import Sim.

Lemma validate_local_requirements_rule_witness :
  container_registry local_stack = Some local_registry
  /\ _validate_local_requirements remote_orchestrator local_stack
     = Returned (false, local_component_reason local_metadata_store)
  /\ _validate_local_requirements local_orchestrator local_stack
     = Returned (true, "").
Proof.
  pose proof (validate_local_requirements_rule remote_orchestrator local_stack
                local_registry eq_refl) as [Hremote _].
  pose proof (validate_local_requirements_rule local_orchestrator local_stack
                local_registry eq_refl) as [_ Hlocal].
  split; [reflexivity|]. split.
  - apply (Hremote eq_refl) with (before := [orchestrator_component])
      (after := [local_artifact_store; registry_component local_registry]).
    + reflexivity.
    + repeat constructor.
    + reflexivity.
  - exact (Hlocal eq_refl).
Defined.

Lemma remote_never_suspended_witness :
  is_local remote_orchestrator = false
  /\ result (is_suspended remote_orchestrator (fresh_world remote_stack))
     = Returned false
  /\ result (is_suspended remote_orchestrator running_world) = Returned false.
Proof.
  split; [reflexivity|]. split.
  - apply (remote_never_suspended remote_orchestrator
             (fresh_world remote_stack) eq_refl).
  - apply (remote_never_suspended remote_orchestrator running_world eq_refl).
Defined.

Lemma provision_when_running_witness :
  result (is_running local_orchestrator running_world) = Returned true
  /\ final (provision local_orchestrator running_world) = running_world
  /\ result (provision local_orchestrator running_world) = Returned tt.
Proof.
  split; [vm_compute; reflexivity|].
  destruct (provision_when_running local_orchestrator running_world)
    as (Hrunning & _).
  destruct Hrunning as (Hrun & _).
  - vm_compute. reflexivity.
  - rewrite Hrun. split; reflexivity.
Defined.

Definition cluster_create_error : exn :=
  mkExn (OtherException "subprocess.CalledProcessError")
    "Command 'k3d cluster create' returned non-zero exit status 1.".

Definition local_cluster : string := _get_k3d_cluster_name an_uuid.

(** C2, counterexample.  On a running deployment [provision] does ask
    for the prerequisites.  And [provision] alone does not make a
    deployment running: after a first [provision] on a fresh machine the
    cluster is there but the UI daemon is not, [is_running] is false, and
    a second [provision] creates the cluster again. *)
Lemma provision_twice_recreates_cluster :
  let once := final (provision local_orchestrator (fresh_world local_stack)) in
  result (is_running local_orchestrator running_world) = Returned true
  /\ In (Probed check_prerequisites true)
       (events (provision local_orchestrator running_world))
  /\ result (provision local_orchestrator (fresh_world local_stack))
     = Returned tt
  /\ answer (k3d_cluster_running local_cluster) once = true
  /\ result (is_running local_orchestrator once) = Returned false
  /\ In (Called (create_k3d_cluster local_cluster
                   (_get_k3d_registry_name 5000)
                   (_k3d_registry_config_path local_orchestrator)))
       (events (provision local_orchestrator once)).
Proof. vm_compute. intuition. Qed.

(** C3, counterexample.  [k3d cluster create] fails while the local
    orchestrator is being provisioned: [provision] rolls back and then
    returns [None] like a successful call does; nothing is raised to the
    caller. *)
Lemma provision_swallows_failure :
  faults failing_world
    (create_k3d_cluster local_cluster
       (_get_k3d_registry_name 5000)
       (_k3d_registry_config_path local_orchestrator))
  = Some cluster_create_error
  /\ In (Called (create_k3d_cluster local_cluster
                   (_get_k3d_registry_name 5000)
                   (_k3d_registry_config_path local_orchestrator)))
       (events (provision local_orchestrator failing_world))
  /\ result (provision local_orchestrator failing_world) = Returned tt
  /\ result (provision local_orchestrator (fresh_world local_stack))
     = Returned tt.
Proof. vm_compute. intuition. Qed.

Lemma provision_failure_rolls_back_witness :
  result (provision local_orchestrator failing_world) = Returned tt
  /\ In (Logged ERROR (exc_message cluster_create_error))
       (events (provision local_orchestrator failing_world))
  /\ In (Called (delete_k3d_cluster local_cluster))
       (events (provision local_orchestrator failing_world)).
Proof.
  pose (w1 := sim_effect (fileio_makedirs (root_directory local_orchestrator))
                failing_world).
  pose (w2 := sim_effect
                (write_local_registry_yaml
                   (_k3d_registry_config_path local_orchestrator)
                   (_get_k3d_registry_name 5000) (uri local_registry)) w1).
  destruct (provision_failure_rolls_back local_orchestrator failing_world
              w1 w2 local_registry 5000 cluster_create_error)
    as (Hresult & _ & Hevents).
  - vm_compute. reflexivity.
  - reflexivity.
  - reflexivity.
  - reflexivity.
  - reflexivity.
  - vm_compute. reflexivity.
  - reflexivity.
  - vm_compute. reflexivity.
  - reflexivity.
  - rewrite Hresult, Hevents. vm_compute. intuition.
Defined.

(** C4, counterexample.  Nothing is provisioned for the local
    orchestrator -- on a machine with the tools and on one without --
    and [deprovision] still calls [delete_k3d_cluster]. *)
Lemma deprovision_deletes_unprovisioned :
  result (is_provisioned local_orchestrator (fresh_world local_stack))
  = Returned false
  /\ events (deprovision local_orchestrator (fresh_world local_stack))
     = [ Probed (check_if_daemon_is_running
                   (_pid_file_path local_orchestrator)) false;
         Called (delete_k3d_cluster local_cluster);
         Logged INFO "Local kubeflow pipelines deployment deprovisioned.";
         Probed (fileio_exists (log_file local_orchestrator)) false ]
  /\ result (is_provisioned local_orchestrator bare_world) = Returned false
  /\ In (Called (delete_k3d_cluster local_cluster))
       (events (deprovision local_orchestrator bare_world)).
Proof. vm_compute. intuition. Qed.

(** C8, counterexample.  The orchestrator is configured with port 9090
    and 9090 is taken: no other port is looked for, and [resume] starts
    the daemon on 9090. *)
Lemma occupied_configured_port_is_kept :
  kubeflow_pipelines_ui_port port_9090_orchestrator = 9090%Z
  /\ answer (port_available 9090) (provisioned_world [9090%Z]) = false
  /\ _get_kfp_ui_daemon_port port_9090_orchestrator
       (provisioned_world [9090%Z])
     = mkRun (Returned 9090%Z) (provisioned_world [9090%Z]) []
  /\ In (Called (start_kfp_ui_daemon (_pid_file_path port_9090_orchestrator)
                   (log_file port_9090_orchestrator) 9090
                   (_get_k3d_kubernetes_context an_uuid)))
       (events (resume port_9090_orchestrator (provisioned_world [9090%Z])))
  /\ forall port, ~ In (FoundPort port)
       (events (resume port_9090_orchestrator (provisioned_world [9090%Z]))).
Proof.
  repeat split; try reflexivity.
  - vm_compute. auto 10.
  - intros port. vm_compute. intuition discriminate.
Qed.

Lemma resume_daemon_port_witness :
  answer (port_available 8080) (provisioned_world [8080%Z]) = false
  /\ chosen_port local_orchestrator (provisioned_world [8080%Z]) = 8081%Z
  /\ In (Called (start_kfp_ui_daemon (_pid_file_path local_orchestrator)
                   (log_file local_orchestrator) 8081
                   (_get_k3d_kubernetes_context an_uuid)))
       (events (resume local_orchestrator (provisioned_world [8080%Z]))).
Proof.
  split; [reflexivity|]. split; [reflexivity|].
  destruct (resume_daemon_port local_orchestrator (provisioned_world [8080%Z])
              (_get_k3d_kubernetes_context an_uuid))
    as (Hup & _).
  - reflexivity.
  - vm_compute. reflexivity.
  - destruct Hup as (_ & _ & (asked & Hevents & _)).
    + vm_compute. reflexivity.
    + vm_compute. reflexivity.
    + rewrite Hevents. apply in_or_app. right. left. reflexivity.
Defined.

(** C9, counterexample.  The KFP API answers the creation of a one-off
    run with an error status: the [ApiException] leaves
    [_upload_and_run_pipeline], and no warning is logged. *)
Lemma api_exception_escapes :
  result (_upload_and_run_pipeline remote_orchestrator "p" "/tmp/p.yaml"
            one_off true api_error_world)
  = Raised (mkExn ApiException "(500) Reason: Internal Server Error")
  /\ forall message,
       ~ In (Logged WARNING message)
           (events (_upload_and_run_pipeline remote_orchestrator "p"
                      "/tmp/p.yaml" one_off true api_error_world)).
Proof.
  split; [reflexivity|].
  intros message. vm_compute. intuition discriminate.
Qed.

(** An unreachable API server, by contrast, only produces a warning. *)
Example connection_error_is_absorbed :
  result (_upload_and_run_pipeline remote_orchestrator "p" "/tmp/p.yaml"
            one_off true unreachable_world)
  = Returned tt
  /\ In (Logged WARNING
           (upload_failed_warning (mkExn MaxRetryError "Max retries exceeded")))
       (events (_upload_and_run_pipeline remote_orchestrator "p"
                  "/tmp/p.yaml" one_off true unreachable_world)).
Proof. vm_compute. intuition. Qed.

End KubeflowSpec.

(* ===================================================================== *)
(** ** Properties of the pipeline CLI                                    *)
(* ===================================================================== *)

Module CliSpec.
Import Py PyFacts Cli.
Local Open Scope py_scope.

Section Resolution.
Context {W Obj : Type} {rt : Runtime W Obj}.

Definition is_str (v : Value) : bool :=
  match v with VStr _ => true | _ => false end.

Definition is_dict (v : Value) : bool :=
  match v with VDict _ => true | _ => false end.

Lemma str_entry_message_instructs (s : string) :
  mentions (str_entry_message s) "you will now need to pass a dictionary"
  /\ mentions (str_entry_message s) ("contain a `" ++ NAME_ ++ "`")
  /\ mentions (str_entry_message s) ("additionally supply a " ++ FILE_)
  /\ mentions (str_entry_message s) ("You tried to pass in `" ++ s ++ "`")
  /\ mentions (str_entry_message s) (correct_input s).
Proof.
  unfold str_entry_message. repeat split.
  - eexists "As of ZenML version 0.8.0 `str` entries are no longer supported to define steps or materializers. Instead ", _.
    reflexivity.
  - eexists "As of ZenML version 0.8.0 `str` entries are no longer supported to define steps or materializers. Instead you will now need to pass a dictionary. This dictionary **has to** ", _.
    reflexivity.
  - eexists "As of ZenML version 0.8.0 `str` entries are no longer supported to define steps or materializers. Instead you will now need to pass a dictionary. This dictionary **has to** contain a `name` which refers to the function/class name. If this entity is defined outside the main module,you will need to ", _.
    reflexivity.
  - do 6 apply mentions_skip.
    exists "", (" - however you should have specified the name (and file) like this: " ++ correct_input s).
    cbn [append]. rewrite !append_assoc. reflexivity.
  - do 9 apply mentions_skip. apply mentions_end.
Qed.

Lemma wrong_type_message_names (attribute : string) (v : Value) :
  mentions (wrong_type_message attribute v) (py_str v)
  /\ mentions (wrong_type_message attribute v) (type_name_of v).
Proof.
  unfold wrong_type_message. split.
  - do 3 apply mentions_skip. apply mentions_here.
  - do 5 apply mentions_skip. apply mentions_here.
Qed.

Lemma resolve_step_str_source (module : Obj) (d : Dict Value) (s : string)
  (w : W) :
  dict_get SOURCE_ d = Some (VStr s) ->
  exists e, result (resolve_step module (VDict d) w) = Raised e.
Proof.
  intros Hsource. unfold resolve_step.
  rewrite (bind_run _ _ w w tt [KeyChecked StepConfigurationKeys (VDict d)])
    by reflexivity.
  cbn [result]. unfold bind at 1, lift at 1. cbn [result final events].
  destruct (key_check StepConfigurationKeys (VDict d)) as [[]|e];
    [|eexists; reflexivity].
  rewrite (bind_run _ _ w w (VStr s) [])
    by (unfold subscript; rewrite Hsource; reflexivity).
  cbn [result]. unfold bind at 1. cbn [_get_module configuration_error raise result].
  eexists; reflexivity.
Qed.

Lemma resolve_steps_str_source (module : Obj) (items : Dict Value)
  (step_name : string) (d : Dict Value) (s : string) :
  In (step_name, VDict d) items ->
  dict_get SOURCE_ d = Some (VStr s) ->
  forall steps w, exists e,
    result (resolve_steps module items steps w) = Raised e.
Proof.
  intros Hin Hsource.
  induction items as [|[n c] rest IH]; [contradiction|].
  intros steps w. cbn [resolve_steps]. unfold bind.
  destruct Hin as [[= -> ->]|Hin].
  - destruct (resolve_step_str_source module d s w Hsource) as [e ->].
    eexists; reflexivity.
  - destruct (result (resolve_step module c w)) as [i|e];
      [|eexists; reflexivity].
    cbn [result]. apply (IH Hin).
Qed.

(** C5.  [_get_module] never resolves a bare string: whatever the module
    and the world, it raises the configuration error whose message tells
    the caller to pass a dictionary with a [name] and, for entities
    outside the main module, a [file], and shows the offending string in
    that form; nothing is imported or looked up.  A source reference
    that is neither a string nor a dictionary raises the configuration
    error that names the value and its type.  Accordingly the loop of
    [run_pipeline] over the steps never completes when the [source] of
    one of them is a bare string. *)
Theorem get_module_rejects_bare_strings (module : Obj) (w : W) :
  (forall s,
     _get_module module (VStr s) w
     = mkRun (Raised (mkExn PipelineConfigurationError (str_entry_message s)))
         w []
     /\ mentions (str_entry_message s) "you will now need to pass a dictionary"
     /\ mentions (str_entry_message s) ("contain a `" ++ NAME_ ++ "`")
     /\ mentions (str_entry_message s) ("additionally supply a " ++ FILE_)
     /\ mentions (str_entry_message s) ("You tried to pass in `" ++ s ++ "`")
     /\ mentions (str_entry_message s) (correct_input s))
  /\ (forall v,
        is_str v = false -> is_dict v = false ->
        _get_module module v w
        = mkRun (Raised (mkExn PipelineConfigurationError
                           (wrong_type_message "step_source" v))) w []
        /\ mentions (wrong_type_message "step_source" v) (py_str v)
        /\ mentions (wrong_type_message "step_source" v) (type_name_of v))
  /\ (forall items steps step_name d s,
        In (step_name, VDict d) items ->
        dict_get SOURCE_ d = Some (VStr s) ->
        exists e, result (resolve_steps module items steps w) = Raised e).
Proof.
  split; [|split].
  - intros s. split; [reflexivity | apply str_entry_message_instructs].
  - intros v Hstr Hdict. split; [| apply wrong_type_message_names].
    destruct v; try discriminate; reflexivity.
  - intros items steps step_name d s Hin Hsource.
    exact (resolve_steps_str_source module items step_name d s Hin Hsource
             steps w).
Qed.

(** *** C6: when the keys are checked *)




(** *** C7: the [materializers] entry of a step *)




End Resolution.

(** *** The properties at work on the simulated interpreter *)

Import CliSim.

(** A bare string as the [source] of a step stops the command. *)
Example bare_string_source_stops_the_run :
  result (run_pipeline "run.py" "config.yaml"
            (project (document [("s1", VDict [(SOURCE_, VStr "Step1")])])))
  = Raised (mkExn PipelineConfigurationError
              (str_entry_message (rt := sim_runtime) "Step1")).
Proof. vm_compute. reflexivity. Qed.




(** A mapping from output names to structured references is attached. *)
Example materializers_by_output_are_attached :
  attach_materializers "run.py" "Step1()"
    (VDict [("output", by_name "MyMaterializer")]) (project (document []))
  = mkRun
      (Returned "Step1().with_return_materializers({'output': MyMaterializer})")
      (project (document []))
      [ GotAttribute "run.py" (VStr "MyMaterializer");
        Attached "Step1()" (PerOutput [("output", "MyMaterializer")]) ].
Proof. vm_compute. reflexivity. Qed.

End CliSpec.

(* ===================================================================== *)
(** ** Further properties of the Kubeflow orchestrator                   *)
(* ===================================================================== *)

Module KubeflowMore.
Import Py PyFacts Kubeflow KubeflowSpec.
Local Open Scope py_scope.

(** *** Names derived from the uuid *)

Lemma length_append (a b : string) :
  String.length (a ++ b) = (String.length a + String.length b)%nat.
Proof. induction a as [|c a IH]; simpl; [reflexivity | now rewrite IH]. Qed.

Lemma length_substring_le (n m : nat) (s : string) :
  (String.length (substring n m s) <= m)%nat.
Proof.
  revert n m. induction s as [|c s IH]; intros n m; destruct n, m; simpl;
    try lia; try apply IH.
  specialize (IH 0%nat m). lia.
Qed.

(** X1.  Whatever the uuid, the k3d cluster name has at most 23
    characters -- within the 32 that k3d allows -- and the kubernetes
    context derived from it is that name behind the prefix [k3d-]. *)
Theorem k3d_cluster_name_fits (uuid : string) :
  (String.length (_get_k3d_cluster_name uuid) <= 23)%nat
  /\ (String.length (_get_k3d_cluster_name uuid) <= 32)%nat
  /\ _get_k3d_kubernetes_context uuid = "k3d-" ++ _get_k3d_cluster_name uuid
  /\ (String.length (_get_k3d_kubernetes_context uuid) <= 27)%nat.
Proof.
  assert (H : (String.length (_get_k3d_cluster_name uuid) <= 23)%nat).
  { unfold _get_k3d_cluster_name. rewrite length_append.
    pose proof (length_substring_le 0 8 uuid). simpl. lia. }
  repeat split; try lia; try reflexivity.
  unfold _get_k3d_kubernetes_context. rewrite length_append.
  change (String.length "k3d-") with 4%nat. lia.
Qed.

(** X2.  The root validator leaves an orchestrator with a non-empty
    [kubernetes_context]: an unset or empty one becomes the context of
    the locally managed cluster, which makes the orchestrator local; one
    that is set is kept.  Nothing else changes, and validating twice is
    validating once. *)
Theorem default_context_makes_local (values : KubeflowOrchestrator) :
  let validated := set_default_kubernetes_context values in
  truthy_opt_str (kubernetes_context validated) = true
  /\ (truthy_opt_str (kubernetes_context values) = false ->
      is_local validated = true)
  /\ (truthy_opt_str (kubernetes_context values) = true ->
      validated = values)
  /\ uuid validated = uuid values
  /\ kubeflow_pipelines_ui_port validated = kubeflow_pipelines_ui_port values
  /\ custom_docker_base_image_name validated
     = custom_docker_base_image_name values
  /\ synchronous validated = synchronous values
  /\ set_default_kubernetes_context validated = validated.
Proof.
  cbv zeta. unfold set_default_kubernetes_context.
  destruct (truthy_opt_str (kubernetes_context values)) eqn:Hset.
  - rewrite Hset. repeat split; try reflexivity; try assumption. discriminate.
  - cbn [kubernetes_context uuid kubeflow_pipelines_ui_port
           custom_docker_base_image_name synchronous truthy_opt_str].
    unfold is_local. cbn [kubernetes_context uuid].
    rewrite String.eqb_refl.
    repeat split; try reflexivity; try discriminate.
Qed.

(** *** Status and lifecycle *)

Section Lifecycle.
Context {W : Type} {drv : Driver W}.
Variable self : KubeflowOrchestrator.

Ltac open_run :=
  unfold provision, deprovision, resume, resume_daemon, suspend,
    _get_kfp_ui_daemon_port, is_running, is_suspended, is_provisioned,
    is_cluster_provisioned, is_cluster_running, is_daemon_running,
    and_then, not_, bind, try_except, call, client, invoke, probe, ask, log,
    emit, gets, raise, ret;
  cbv zeta; cbn [result final events app fst snd negb].

Ltac split_run :=
  repeat (cbn [result final events app fst snd negb];
          match goal with
          | |- context [perform ?a ?w] =>
              destruct (perform a w) as [[[]|?] ?] eqn:?
          | |- context [kfp ?c ?w] =>
              destruct (kfp c w) as [[?|?] ?] eqn:?
          | |- context [answer ?p ?w] => destruct (answer p w) eqn:?
          | |- context [is_ValueError_or_ApiException ?e] =>
              destruct (is_ValueError_or_ApiException e) eqn:?
          | |- context [is_HTTPError ?e] => destruct (is_HTTPError e) eqn:?
          end);
  cbn [result final events app fst snd negb].

Ltac pick_event :=
  cbn [In]; intuition (try discriminate);
  repeat match goal with
    | H : Called _ = Called _ |- _ => injection H as <-
    | H : Client _ = Client _ |- _ => injection H; clear H; intros; subst
    | H : Probed _ _ = Probed _ _ |- _ => injection H; clear H; intros; subst
    end;
  try reflexivity.

(** X3.  In one and the same world a deployment is never both running
    and suspended, either of the two implies that it is provisioned, and
    a deployment that is not provisioned is neither. *)
Theorem running_excludes_suspended (w : W) :
  (result (is_running self w) = Returned true ->
   result (is_suspended self w) = Returned false
   /\ result (is_provisioned self w) = Returned true)
  /\ (result (is_suspended self w) = Returned true ->
      result (is_running self w) = Returned false
      /\ result (is_provisioned self w) = Returned true)
  /\ (result (is_provisioned self w) = Returned false ->
      result (is_running self w) = Returned false
      /\ result (is_suspended self w) = Returned false).
Proof.
  open_run.
  destruct (is_local self); destruct (negb (sys_platform =? "win32"));
    split_run; intuition congruence.
Qed.

(** X4.  When [k3d] or [kubectl] is missing, the orchestrator is
    reported as not provisioned, not running and not suspended, and the
    cluster and the daemon are not even asked about. *)
Theorem nothing_without_prerequisites (w : W)
  (Hmissing : answer check_prerequisites w = false) :
  is_provisioned self w
  = mkRun (Returned false) w [Probed check_prerequisites false]
  /\ is_running self w
     = mkRun (Returned false) w [Probed check_prerequisites false]
  /\ is_suspended self w
     = mkRun (Returned false) w [Probed check_prerequisites false].
Proof. open_run. rewrite Hmissing. repeat split. Qed.

(** X5.  On Windows the UI daemon counts as running without being
    looked for.  So the orchestrator is never suspended there, [resume]
    never starts the daemon, and [deprovision] begins by stopping
    it. *)
Theorem windows_daemon_always_running (w : W)
  (Hwindows : sys_platform = "win32") :
  is_daemon_running self w = mkRun (Returned true) w []
  /\ result (is_suspended self w) = Returned false
  /\ (forall pid log_path port ctx,
        ~ In (Called (start_kfp_ui_daemon pid log_path port ctx))
            (events (resume self w)))
  /\ exists rest,
       events (deprovision self w)
       = Called (stop_kfp_ui_daemon (_pid_file_path self)) :: rest.
Proof.
  open_run. rewrite Hwindows. cbn [String.eqb Ascii.eqb Bool.eqb negb].
  repeat split.
  - destruct (is_local self); split_run; reflexivity.
  - intros pid log_path port ctx.
    destruct (kubernetes_context self); destruct (is_local self);
      split_run; pick_event.
  - destruct (is_local self); split_run; eexists; reflexivity.
Qed.

Definition prerequisites_message : string :=
  "Unable to provision local Kubeflow Pipelines deployment: Please install 'k3d' and 'kubectl' and try again.".

(** X6.  Without [k3d] and [kubectl], [provision] fails with a
    [ProvisioningError] before it touches anything: the world is left as
    it was, and the only events are the two prerequisite checks (the one
    of the [is_running] guard and its own). *)
Theorem provision_needs_prerequisites (w : W)
  (Hmissing : answer check_prerequisites w = false) :
  provision self w
  = mkRun (Raised (mkExn ProvisioningError prerequisites_message)) w
      [Probed check_prerequisites false; Probed check_prerequisites false].
Proof.
  open_run. rewrite Hmissing. cbn [negb result final events app].
  rewrite Hmissing. reflexivity.
Qed.

(** The calls that create, change or destroy what runs on the
    machine: everything but the file operations and the daemon. *)
Definition is_cluster_action (a : Action) : bool :=
  match a with
  | fileio_makedirs _ | fileio_remove _
  | start_kfp_ui_daemon _ _ _ _ | stop_kfp_ui_daemon _ => false
  | _ => true
  end.

(** X7.  A remote orchestrator never acts on a cluster: whatever the
    world, [provision] calls nothing but [fileio.makedirs] on its root
    directory, and [resume] and [suspend] make no call that acts on a
    cluster -- nothing beyond file operations and the start and the stop
    of the UI daemon. *)
Theorem remote_cluster_is_left_alone (w : W)
  (Hremote : is_local self = false) :
  (forall a, In (Called a) (events (provision self w)) ->
             a = fileio_makedirs (root_directory self))
  /\ (forall a, In (Called a) (events (resume self w)) ->
                is_cluster_action a = false)
  /\ (forall a, In (Called a) (events (suspend self w)) ->
                is_cluster_action a = false).
Proof.
  repeat split; intros a; open_run; rewrite Hremote;
    cbn [result final events app fst snd negb].
  - destruct (negb (sys_platform =? "win32")); split_run;
      try solve [pick_event];
      destruct (container_registry (active_stack w)); split_run; pick_event.
  - destruct (negb (sys_platform =? "win32"));
      destruct (kubernetes_context self);
      destruct (kubeflow_pipelines_ui_port self =? DEFAULT_KFP_UI_PORT)%Z;
      split_run; pick_event.
  - destruct (negb (sys_platform =? "win32")); split_run; pick_event.
Qed.


Definition not_provisioned_message : string :=
  "Unable to resume local kubeflow pipelines deployment: No resources provisioned for local deployment.".

(** X9.  [resume] of a deployment that is not provisioned raises a
    [ProvisioningError]; it has asked its questions and called nothing,
    and the world is as it was. *)
Theorem resume_needs_provisioning (w : W)
  (Hnot_provisioned : result (is_provisioned self w) = Returned false) :
  resume self w
  = mkRun (Raised (mkExn ProvisioningError not_provisioned_message)) w
      (events (is_running self w) ++ events (is_provisioned self w))
  /\ forall ev, In ev (events (resume self w)) -> is_call ev = false.
Proof.
  assert (Hnot_running : result (is_running self w) = Returned false).
  { unfold is_running, and_then.
    rewrite (bind_observes _ _ w false (observes_is_provisioned self)
               Hnot_provisioned).
    reflexivity. }
  assert (Hrun : resume self w
    = mkRun (Raised (mkExn ProvisioningError not_provisioned_message)) w
        (events (is_running self w) ++ events (is_provisioned self w))).
  { unfold resume.
    rewrite (bind_observes _ _ w false (observes_is_running self)
               Hnot_running).
    cbv iota.
    rewrite (bind_observes _ _ w false (observes_is_provisioned self)
               Hnot_provisioned).
    cbn [negb]. cbv iota. cbn [raise result final events].
    rewrite app_nil_r. reflexivity. }
  split; [exact Hrun|].
  rewrite Hrun. cbn [events]. intros ev Hin.
  apply in_app_or in Hin. destruct Hin as [Hin|Hin];
    eauto using no_call_in, observes_is_running, observes_is_provisioned.
Qed.

(** X10.  [resume] of a deployment that is running only says so: one
    informational line after the questions of the guard, no call, the
    world untouched. *)
Theorem resume_when_running (w : W)
  (Hrunning : result (is_running self w) = Returned true) :
  resume self w
  = mkRun (Returned tt) w
      (events (is_running self w)
       ++ [Logged INFO "Local kubeflow pipelines deployment already running."])
  /\ forall ev, In ev (events (resume self w)) -> is_call ev = false.
Proof.
  assert (Hrun : resume self w
    = mkRun (Returned tt) w
        (events (is_running self w)
         ++ [Logged INFO "Local kubeflow pipelines deployment already running."])).
  { unfold resume.
    rewrite (bind_observes _ _ w true (observes_is_running self) Hrunning).
    reflexivity. }
  split; [exact Hrun|].
  rewrite Hrun. cbn [events]. intros ev Hin.
  apply in_app_or in Hin. destruct Hin as [Hin | [<- | []]];
    [exact (no_call_in _ _ _ (observes_is_running self) Hin) | reflexivity].
Qed.

(** X11.  [suspend] stops only what runs.  On a deployment that is not
    provisioned it logs one line and calls nothing.  It stops the UI
    daemon only when the deployment is provisioned and the daemon is
    running, and it stops the cluster only for a local orchestrator whose
    deployment is provisioned and whose cluster was just found running.
    It calls nothing else. *)
Theorem suspend_stops_only_what_runs (w : W) :
  (result (is_provisioned self w) = Returned false ->
   suspend self w
   = mkRun (Returned tt) w
       (events (is_provisioned self w)
        ++ [Logged INFO "Local kubeflow pipelines deployment not provisioned."]))
  /\ (forall pid,
        In (Called (stop_kfp_ui_daemon pid)) (events (suspend self w)) ->
        pid = _pid_file_path self
        /\ result (is_provisioned self w) = Returned true
        /\ result (is_daemon_running self w) = Returned true)
  /\ (forall n,
        In (Called (stop_k3d_cluster n)) (events (suspend self w)) ->
        n = _k3d_cluster_name self
        /\ is_local self = true
        /\ result (is_provisioned self w) = Returned true
        /\ In (Probed (k3d_cluster_running n) true) (events (suspend self w)))
  /\ (forall a,
        In (Called a) (events (suspend self w)) ->
        a = stop_kfp_ui_daemon (_pid_file_path self)
        \/ a = stop_k3d_cluster (_k3d_cluster_name self)).
Proof.
  split; [|split; [|split]].
  - open_run. destruct (is_local self); split_run;
      intros; try discriminate; reflexivity.
  - intros pid. open_run.
    destruct (is_local self); destruct (negb (sys_platform =? "win32"));
      split_run; pick_event.
  - intros n. open_run.
    destruct (is_local self); destruct (negb (sys_platform =? "win32"));
      split_run; pick_event; auto 10.
  - intros a. open_run.
    destruct (is_local self); destruct (negb (sys_platform =? "win32"));
      split_run; pick_event; auto.
Qed.

(** *** Run submission *)

Section Submission.
Variables (pipeline_name pipeline_file_path : string).
Variable runtime_configuration : RuntimeConfiguration.
Variable enable_cache : bool.

Ltac origin :=
  repeat match goal with
    | H : In _ (events (bind _ _ _)) |- _ =>
        apply in_bind in H as [H | (? & ? & H)]; cbv beta in H
    | H : In _ (events (try_except _ _ _ _)) |- _ =>
        apply in_try_except in H as [H | (? & ? & ? & H)]; cbv beta in H
    | H : In _ (events (log _ _ _)) |- _ =>
        unfold log, emit in H; cbn [events In] in H; destruct H as [H|[]]
    | H : In _ (events (client _ _)) |- _ =>
        unfold client, invoke in H; cbn [events In] in H; destruct H as [H|[]]
    | H : In _ (events (ret _ _)) |- _ => destruct H
    | H : result (bind _ _ _) = Raised _ |- _ =>
        apply raised_bind in H as [H | (? & ? & H)]; cbv beta in H
    | H : result (bind _ _ _) = Returned _ |- _ =>
        apply bind_returned_inv in H as (? & ? & H); cbv beta in H
    | H : result (try_except _ _ _ _) = Returned _ |- _ =>
        apply returned_try_except in H as [H | (? & ? & ? & H)];
        cbv beta in H
    | H : result (log _ _ _) = Raised _ |- _ => discriminate H
    | H : result (ret _ _) = Raised _ |- _ => discriminate H
    | H : result (ret _ _) = Returned _ |- _ =>
        unfold ret in H; cbn [result] in H; injection H as H;
        try subst
    | H : result (client _ _) = _ |- _ =>
        unfold client, invoke in H; cbn [result] in H
    | H : Logged _ _ = Client _ |- _ => discriminate H
    | H : Client _ = Client _ |- _ =>
        first [discriminate H | injection H; clear H; intros; subst]
    end.

(** X12.  A recurring run reuses the experiment named after the
    pipeline and creates it only when looking it up raised a
    [ValueError] or an [ApiException].  The recurring run is created in
    the experiment that lookup or creation returned, under the run name
    of the runtime configuration, with the start, end and interval of the
    schedule and with [no_catchup] the negation of its [catchup]; no
    one-off run is created and nothing is waited for. *)
Theorem recurring_run_reuses_experiment (schedule : Schedule) (w : W) :
  let run := recurring_run pipeline_name pipeline_file_path
               runtime_configuration schedule enable_cache w in
  (forall name,
     In (Client (create_experiment name)) (events run) ->
     name = pipeline_name
     /\ exists e, fst (kfp (get_experiment pipeline_name) w) = Raised e
                  /\ is_ValueError_or_ApiException e = true)
  /\ (forall experiment_id job path caching start_time end_time interval
             no_catchup,
        In (Client (create_recurring_run experiment_id job path caching
                      start_time end_time interval no_catchup))
          (events run) ->
        (fst (kfp (get_experiment pipeline_name) w) = Returned experiment_id
         \/ exists w', fst (kfp (create_experiment pipeline_name) w')
                       = Returned experiment_id)
        /\ job = run_name runtime_configuration
        /\ path = pipeline_file_path
        /\ caching = enable_cache
        /\ start_time = utc_start_time schedule
        /\ end_time = utc_end_time schedule
        /\ interval = interval_second schedule
        /\ no_catchup = negb (catchup schedule))
  /\ (forall c,
        In (Client c) (events run) ->
        match c with
        | create_run_from_pipeline_package _ _ _
        | wait_for_run_completion _ _ | kfp_Client _ => False
        | _ => True
        end).
Proof.
  cbv zeta. split; [|split].
  - intros name Hin. unfold recurring_run in Hin.
    origin; (split; [reflexivity | solve [eauto]]).
  - intros experiment_id job path caching start_time end_time interval
      no_catchup Hin.
    unfold recurring_run in Hin. origin; repeat split; eauto.
  - intros c Hin. unfold recurring_run in Hin. origin; exact I.
Qed.

(** X13.  A one-off run is waited for only by a synchronous
    orchestrator, and then it is the run that was just created that is
    waited for, for 1200 seconds.  No experiment is looked up or created
    and no recurring run is started. *)
Theorem one_off_run_waits_when_synchronous (w : W) :
  let run := one_off_run self pipeline_file_path runtime_configuration
               enable_cache w in
  (forall run_id timeout,
     In (Client (wait_for_run_completion run_id timeout)) (events run) ->
     synchronous self = true
     /\ timeout = 1200%Z
     /\ exists w', fst (kfp (create_run_from_pipeline_package
                              pipeline_file_path
                              (run_name runtime_configuration) enable_cache) w')
                   = Returned run_id)
  /\ (forall c,
        In (Client c) (events run) ->
        match c with
        | create_run_from_pipeline_package _ _ _
        | wait_for_run_completion _ _ => True
        | _ => False
        end).
Proof.
  cbv zeta. split.
  - intros run_id timeout Hin. unfold one_off_run in Hin.
    destruct (synchronous self); origin; repeat split; eauto.
  - intros c Hin. unfold one_off_run in Hin.
    destruct (synchronous self); origin; exact I.
Qed.

End Submission.

End Lifecycle.

(** *** On the simulated machine *)

Import Sim SimMore.

Lemma nothing_without_prerequisites_witness :
  answer check_prerequisites bare_world = false
  /\ result (is_running local_orchestrator bare_world) = Returned false
  /\ events (is_suspended local_orchestrator bare_world)
     = [Probed check_prerequisites false].
Proof.
  split; [reflexivity|].
  destruct (nothing_without_prerequisites local_orchestrator bare_world)
    as (_ & Hrunning & Hsuspended).
  - reflexivity.
  - rewrite Hrunning, Hsuspended. split; reflexivity.
Defined.

Lemma windows_daemon_always_running_witness :
  sys_platform (Driver := win32_driver) = "win32"
  /\ is_daemon_running (drv := win32_driver) local_orchestrator
       (fresh_world local_stack)
     = mkRun (Returned true) (fresh_world local_stack) []
  /\ exists rest,
       events (deprovision (drv := win32_driver) local_orchestrator
                 (fresh_world local_stack))
       = Called (stop_kfp_ui_daemon
                   "C:\Users\user\AppData\Roaming\zenml\kubeflow\0f2a6c1e-5b7d-4e8f-9a3b-1c2d3e4f5a6b\kubeflow_daemon.pid")
         :: rest.
Proof.
  split; [reflexivity|].
  destruct (windows_daemon_always_running (drv := win32_driver)
              local_orchestrator (fresh_world local_stack))
    as (Hdaemon & _ & _ & Hstop).
  - reflexivity.
  - split; [exact Hdaemon | exact Hstop].
Defined.

Lemma provision_needs_prerequisites_witness :
  answer check_prerequisites bare_world = false
  /\ result (provision local_orchestrator bare_world)
     = Raised (mkExn ProvisioningError prerequisites_message)
  /\ final (provision local_orchestrator bare_world) = bare_world.
Proof.
  split; [reflexivity|].
  rewrite (provision_needs_prerequisites local_orchestrator bare_world);
    [split; reflexivity | reflexivity].
Defined.

Lemma remote_cluster_is_left_alone_witness :
  is_local remote_orchestrator = false
  /\ forall a,
       In (Called a)
         (events (provision remote_orchestrator (fresh_world remote_stack))) ->
       a = fileio_makedirs (root_directory remote_orchestrator).
Proof.
  split; [reflexivity|].
  apply (remote_cluster_is_left_alone remote_orchestrator
           (fresh_world remote_stack)).
  reflexivity.
Defined.


Lemma resume_needs_provisioning_witness :
  result (is_provisioned local_orchestrator (fresh_world local_stack))
  = Returned false
  /\ result (resume local_orchestrator (fresh_world local_stack))
     = Raised (mkExn ProvisioningError not_provisioned_message)
  /\ final (resume local_orchestrator (fresh_world local_stack))
     = fresh_world local_stack.
Proof.
  split; [vm_compute; reflexivity|].
  destruct (resume_needs_provisioning local_orchestrator
              (fresh_world local_stack)) as (Hrun & _).
  - vm_compute. reflexivity.
  - rewrite Hrun. split; reflexivity.
Defined.

Lemma resume_when_running_witness :
  result (is_running local_orchestrator running_world) = Returned true
  /\ result (resume local_orchestrator running_world) = Returned tt
  /\ final (resume local_orchestrator running_world) = running_world.
Proof.
  split; [vm_compute; reflexivity|].
  destruct (resume_when_running local_orchestrator running_world)
    as (Hrun & _).
  - vm_compute. reflexivity.
  - rewrite Hrun. split; reflexivity.
Defined.

(** The first recurring run of a pipeline creates its experiment. *)
Example first_recurring_run_creates_experiment :
  events (_upload_and_run_pipeline remote_orchestrator "p" "/tmp/p.yaml"
            daily true first_run_world)
  = [ Logged INFO "Running in kubernetes context 'gke_prod'.";
      Client (kfp_Client (Some "gke_prod"));
      Client (get_experiment "p");
      Client (create_experiment "p");
      Logged INFO "Creating a new recurring run for pipeline 'p'.. ";
      Logged INFO "You can see all recurring runs under the 'p' experiment.'";
      Client (create_recurring_run "experiment-1" "run-2022" "/tmp/p.yaml"
                true "2022-05-01 00:00:00" "2022-06-01 00:00:00" 86400 true);
      Logged INFO "Started recurring run with ID 'job-1'." ].
Proof. vm_compute. reflexivity. Qed.

(** A synchronous orchestrator waits for the run it created. *)
Example synchronous_one_off_run_waits :
  events (_upload_and_run_pipeline synchronous_orchestrator "p" "/tmp/p.yaml"
            one_off true (fresh_world remote_stack))
  = [ Logged INFO "Running in kubernetes context 'gke_prod'.";
      Client (kfp_Client (Some "gke_prod"));
      Logged INFO "No schedule detected. Creating a one-off pipeline run..";
      Client (create_run_from_pipeline_package "/tmp/p.yaml" "run-2022" true);
      Logged INFO "Started one-off pipeline run with ID 'run-1'.";
      Client (wait_for_run_completion "run-1" 1200) ].
Proof. vm_compute. reflexivity. Qed.

End KubeflowMore.

(* ===================================================================== *)
(** ** Further properties of the pipeline CLI                            *)
(* ===================================================================== *)

Module CliMore.
Import Py PyFacts Cli CliSpec.
Local Open Scope py_scope.

Section Resolution.
Context {W Obj : Type} {rt : Runtime W Obj}.

Definition unable_to_load_message (module : Obj) (attribute_name : Value)
  : string :=
  "Unable to load '" ++ py_str attribute_name ++ "' from file '"
  ++ module_file module ++ "'".

(** X14.  [_get_module_attribute] hands back what [getattr] finds.  An
    [AttributeError] becomes the configuration error that names the
    attribute and the file of the module; any other exception of the
    lookup reaches the caller as it is. *)
Theorem get_module_attribute_outcomes (module : Obj) (attribute_name : Value)
  (w : W) :
  let lookup := getattr module attribute_name w in
  (forall found,
     fst lookup = Returned found ->
     _get_module_attribute module attribute_name w
     = mkRun (Returned found) (snd lookup)
         [GotAttribute module attribute_name])
  /\ (forall e,
        fst lookup = Raised e -> is_AttributeError e = true ->
        _get_module_attribute module attribute_name w
        = mkRun (Raised (mkExn PipelineConfigurationError
                           (unable_to_load_message module attribute_name)))
            (snd lookup) [GotAttribute module attribute_name]
        /\ mentions (unable_to_load_message module attribute_name)
             (py_str attribute_name)
        /\ mentions (unable_to_load_message module attribute_name)
             (module_file module))
  /\ (forall e,
        fst lookup = Raised e -> is_AttributeError e = false ->
        _get_module_attribute module attribute_name w
        = mkRun (Raised e) (snd lookup) [GotAttribute module attribute_name]).
Proof.
  cbv zeta. unfold _get_module_attribute, try_except, invoke.
  cbn [result final events]. split; [|split].
  - intros found ->. reflexivity.
  - intros e -> ->. split; [reflexivity|].
    unfold unable_to_load_message. split.
    + apply mentions_skip, mentions_here.
    + do 3 apply mentions_skip. apply mentions_here.
  - intros e -> ->. reflexivity.
Qed.

(** X15.  How [_get_module] reads a dictionary.  Without a [file] the
    name is looked up in the base module and nothing is imported.  With
    a [file], that file is imported first and the name is looked up in
    the imported module, the base module being left aside; a failing
    import ends the resolution before any lookup.  A dictionary without
    [name] raises a [KeyError] -- after the import, when it has a
    [file]. *)
Theorem get_module_reads_dictionaries (module : Obj) (items : Dict Value)
  (w : W) :
  (forall name,
     dict_get FILE_ items = None -> dict_get NAME_ items = Some name ->
     _get_module module (VDict items) w = _get_module_attribute module name w)
  /\ (forall file name imported w1,
        dict_get FILE_ items = Some file ->
        dict_get NAME_ items = Some name ->
        import_python_file file w = (Returned imported, w1) ->
        _get_module module (VDict items) w
        = mkRun (result (_get_module_attribute imported name w1))
            (final (_get_module_attribute imported name w1))
            (Imported file :: events (_get_module_attribute imported name w1)))
  /\ (forall file e w1,
        dict_get FILE_ items = Some file ->
        import_python_file file w = (Raised e, w1) ->
        _get_module module (VDict items) w
        = mkRun (Raised e) w1 [Imported file])
  /\ (dict_get FILE_ items = None -> dict_get NAME_ items = None ->
      _get_module module (VDict items) w
      = mkRun (Raised (mkExn KeyError ("'" ++ NAME_ ++ "'"))) w [])
  /\ (forall file imported w1,
        dict_get FILE_ items = Some file ->
        dict_get NAME_ items = None ->
        import_python_file file w = (Returned imported, w1) ->
        _get_module module (VDict items) w
        = mkRun (Raised (mkExn KeyError ("'" ++ NAME_ ++ "'"))) w1
            [Imported file]).
Proof.
  unfold _get_module, dict_has, subscript.
  split; [|split; [|split; [|split]]].
  - intros name -> ->. unfold bind, ret. cbn [result final events app].
    destruct (_get_module_attribute module name w); reflexivity.
  - intros file name imported w1 -> -> Himport.
    unfold bind, ret, invoke. cbn [result final events app].
    rewrite Himport. reflexivity.
  - intros file e w1 -> Himport.
    unfold bind, ret, invoke. cbn [result final events app].
    rewrite Himport. reflexivity.
  - intros -> ->. reflexivity.
  - intros file imported w1 -> -> Himport.
    unfold bind, ret, invoke, raise. cbn [result final events app].
    rewrite Himport. reflexivity.
Qed.

(** *** The loop over the steps *)

Lemma dict_set_keys {A} (key : string) (value : A) (d : Dict A) :
  ~ In key (map fst d) ->
  map fst (dict_set key value d) = (map fst d ++ [key])%list.
Proof.
  induction d as [|[k v] d IH]; cbn [dict_set map fst app In]; intros Hnew.
  - reflexivity.
  - destruct (String.eqb_spec k key) as [->|Hne].
    + exfalso. apply Hnew. now left.
    + cbn [map fst]. rewrite IH; [reflexivity | tauto].
Qed.

Lemma in_dict_set {A} (key : string) (value : A) (d : Dict A)
  (x : string * A) :
  In x (dict_set key value d) -> In x d \/ x = (key, value).
Proof.
  induction d as [|[k v] d IH]; cbn [dict_set In].
  - intros [<-|[]]. now right.
  - destruct (String.eqb_spec k key) as [->|Hne]; cbn [In].
    + intros [<-|Hin]; [now right | left; now right].
    + intros [<-|Hin]; [left; now left|].
      destruct (IH Hin) as [Hd|Hx]; [left; now right | now right].
Qed.

Lemma resolve_steps_slots (module : Obj) (items : Dict Value) :
  forall (steps bound : Dict Obj) (w : W),
    result (resolve_steps module items steps w) = Returned bound ->
    NoDup (map fst steps ++ map fst items) ->
    map fst bound = (map fst steps ++ map fst items)%list
    /\ forall step_name step_instance,
         In (step_name, step_instance) bound ->
         In (step_name, step_instance) steps
         \/ exists step_config w',
              In (step_name, step_config) items
              /\ result (resolve_step module step_config w')
                 = Returned step_instance.
Proof.
  induction items as [|[n c] rest IH]; intros steps bound w Hrun Hnodup.
  - cbn in Hrun. injection Hrun as <-. cbn [map app]. rewrite app_nil_r.
    split; [reflexivity | auto].
  - cbn [resolve_steps] in Hrun.
    apply bind_returned_inv in Hrun as (i & Hstep & Hrest).
    cbn [map fst] in Hnodup.
    assert (Hnew : ~ In n (map fst steps)).
    { intros Hin. apply NoDup_remove_2 in Hnodup. apply Hnodup.
      apply in_or_app. now left. }
    assert (Hnodup' : NoDup (map fst (dict_set n i steps) ++ map fst rest)).
    { rewrite (dict_set_keys n i steps Hnew), <- app_assoc. exact Hnodup. }
    destruct (IH _ _ _ Hrest Hnodup') as (Hkeys & Hslots).
    split.
    + rewrite Hkeys, (dict_set_keys n i steps Hnew), <- app_assoc.
      reflexivity.
    + intros step_name step_instance Hin.
      destruct (Hslots _ _ Hin) as [Hset | (config & w' & Hc & Hr)].
      * apply in_dict_set in Hset. destruct Hset as [Hold | [= -> ->]].
        -- now left.
        -- right. exists c, w. split; [now left | exact Hstep].
      * right. exists config, w'. split; [now right | exact Hr].
Qed.

(** X16.  When the loop over the steps completes on a document whose
    step names are distinct, the pipeline class receives exactly one
    instance per step of the document, under the names and in the order
    of the document, and each instance is the one its own step
    configuration resolved to. *)
Theorem every_step_slot_is_filled (module : Obj) (items : Dict Value)
  (bound : Dict Obj) (w : W)
  (Hcompleted : result (resolve_steps module items [] w) = Returned bound)
  (Hdistinct : NoDup (map fst items)) :
  map fst bound = map fst items
  /\ List.length bound = List.length items
  /\ forall step_name step_instance,
       In (step_name, step_instance) bound ->
       exists step_config w',
         In (step_name, step_config) items
         /\ result (resolve_step module step_config w') = Returned step_instance.
Proof.
  destruct (resolve_steps_slots module items [] bound w Hcompleted Hdistinct)
    as (Hkeys & Hslots).
  cbn [map app] in Hkeys. split; [exact Hkeys|]. split.
  - rewrite <- (length_map fst bound), Hkeys. apply length_map.
  - intros step_name step_instance Hin.
    destruct (Hslots _ _ Hin) as [[]|Hfound]. exact Hfound.
Qed.






(** X18.  When the module does not define the pipeline named by the
    document, the command fails with the configuration error that names
    the pipeline and the Python file, and it has not looked at a single
    step: the events are the import, the reading of the document, the
    top-level key check and the failed lookup. *)
Theorem unknown_pipeline_stops_the_run
  (python_file config_path : string) (w w1 w2 w3 : W) (module : Obj)
  (items : Dict Value) (pipeline_name : Value) (e : exn)
  (Himport : import_python_file (VStr python_file) w = (Returned module, w1))
  (Hyaml : read_yaml config_path w1 = (Returned (VDict items), w2))
  (Hkeys : key_check PipelineConfigurationKeys (VDict items) = Returned tt)
  (Hname : dict_get NAME items = Some pipeline_name)
  (Hlookup : getattr module pipeline_name w2 = (Raised e, w3))
  (Hmissing : is_AttributeError e = true) :
  run_pipeline python_file config_path w
  = mkRun (Raised (mkExn PipelineConfigurationError
                     (unable_to_load_message module pipeline_name)))
      w3
      [ Imported (VStr python_file); ReadYaml config_path;
        KeyChecked PipelineConfigurationKeys (VDict items);
        GotAttribute module pipeline_name ].
Proof.
  unfold run_pipeline.
  rewrite (bind_run _ _ w w1 module [Imported (VStr python_file)])
    by (unfold invoke; rewrite Himport; reflexivity).
  rewrite (bind_run _ _ w1 w2 (VDict items) [ReadYaml config_path])
    by (unfold invoke; rewrite Hyaml; reflexivity).
  rewrite (bind_run _ _ w2 w2 tt
             [KeyChecked PipelineConfigurationKeys (VDict items)])
    by reflexivity.
  rewrite (bind_run _ _ w2 w2 tt []) by (unfold lift; now rewrite Hkeys).
  rewrite (bind_run _ _ w2 w2 pipeline_name [])
    by (unfold subscript; rewrite Hname; reflexivity).
  rewrite (bind_raise _ _ w2 w3
             (mkExn PipelineConfigurationError
                (unable_to_load_message module pipeline_name))
             [GotAttribute module pipeline_name]).
  - reflexivity.
  - unfold _get_module_attribute, try_except, invoke.
    cbn [result final events]. rewrite Hlookup. cbn [fst snd].
    rewrite Hmissing. reflexivity.
Qed.

End Resolution.

(** *** On the simulated interpreter *)

Import CliSim.

Lemma every_step_slot_is_filled_witness :
  NoDup (map fst [("s1", step1); ("s2", step2)])
  /\ result (resolve_steps "run.py" [("s1", step1); ("s2", step2)] []
               (project (document [])))
     = Returned [("s1", "Step1()"); ("s2", "Step2()")]
  /\ map fst [("s1", "Step1()"); ("s2", "Step2()")]
     = map fst [("s1", step1); ("s2", step2)].
Proof.
  assert (Hdistinct : NoDup (map fst [("s1", step1); ("s2", step2)])).
  { cbn. repeat constructor; cbn; intuition discriminate. }
  assert (Hrun : result (resolve_steps "run.py" [("s1", step1); ("s2", step2)]
                           [] (project (document [])))
                 = Returned [("s1", "Step1()"); ("s2", "Step2()")]).
  { vm_compute. reflexivity. }
  split; [exact Hdistinct|]. split; [exact Hrun|].
  apply (every_step_slot_is_filled "run.py" [("s1", step1); ("s2", step2)]
           [("s1", "Step1()"); ("s2", "Step2()")] (project (document []))
           Hrun Hdistinct).
Defined.


Lemma unknown_pipeline_stops_the_run_witness :
  result (run_pipeline "run.py" "config.yaml"
            (project (VDict [(NAME, VStr "Q"); (STEPS, VDict [("s1", step1)])])))
  = Raised (mkExn PipelineConfigurationError
              "Unable to load 'Q' from file 'run.py'").
Proof.
  rewrite (unknown_pipeline_stops_the_run "run.py" "config.yaml"
             (project (VDict [(NAME, VStr "Q"); (STEPS, VDict [("s1", step1)])]))
             (project (VDict [(NAME, VStr "Q"); (STEPS, VDict [("s1", step1)])]))
             (project (VDict [(NAME, VStr "Q"); (STEPS, VDict [("s1", step1)])]))
             (project (VDict [(NAME, VStr "Q"); (STEPS, VDict [("s1", step1)])]))
             "run.py" [(NAME, VStr "Q"); (STEPS, VDict [("s1", step1)])]
             (VStr "Q")
             (mkExn AttributeError "module has no attribute 'Q'")).
  - reflexivity.
  - reflexivity.
  - reflexivity.
  - reflexivity.
  - reflexivity.
  - reflexivity.
  - reflexivity.
Defined.

End CliMore.

(* ===================================================================== *)
(** ** Properties of building and submitting a pipeline                  *)
(* ===================================================================== *)

Module DeploymentMore.
Import Py PyFacts Kubeflow Deployment KubeflowMore.
Local Open Scope py_scope.

(** *** Strings and dictionaries *)

(** [c * n] *)
Fixpoint copies (n : nat) (c : ascii) : string :=
  match n with
  | O => EmptyString
  | S n => String c (copies n c)
  end.

Lemma rstrip_copies (c : ascii) (n : nat) : rstrip c (copies n c) = "".
Proof.
  induction n as [|n IH]; cbn [copies rstrip]; [reflexivity|].
  rewrite IH, Ascii.eqb_refl. reflexivity.
Qed.

Lemma rstrip_append_copies (c : ascii) (s : string) (n : nat) :
  rstrip c (s ++ copies n c) = rstrip c s.
Proof.
  induction s as [|a s IH]; cbn [append rstrip].
  - apply rstrip_copies.
  - rewrite IH. reflexivity.
Qed.

Lemma rstrip_removes_copies (c : ascii) (s : string) :
  exists n, s = rstrip c s ++ copies n c.
Proof.
  induction s as [|a s (n & IH)]; cbn [rstrip].
  - exists 0%nat. reflexivity.
  - destruct (rstrip c s) as [|b kept] eqn:Hkept.
    + destruct (Ascii.eqb_spec a c) as [->|Hne].
      * exists (S n). cbn [append copies]. now rewrite IH at 1.
      * exists n. cbn [append]. now rewrite IH at 1.
    + exists n. cbn [append]. cbn [append] in IH. now rewrite IH at 1.
Qed.

Lemma append_one_not_empty (t : string) (c : ascii) : t ++ String c "" <> "".
Proof. destruct t; discriminate. Qed.

Lemma rstrip_no_trailing (c : ascii) (s t : string) :
  rstrip c s <> t ++ String c "".
Proof.
  revert t. induction s as [|a s IH]; intros t; cbn [rstrip].
  - intros H. symmetry in H. exact (append_one_not_empty t c H).
  - destruct (rstrip c s) as [|b kept] eqn:Hkept.
    + destruct (Ascii.eqb_spec a c) as [->|Hne].
      * intros H. symmetry in H. exact (append_one_not_empty t c H).
      * destruct t as [|x t]; cbn [append].
        -- intros [= ->]. now apply Hne.
        -- intros [= _ H]. exact (append_one_not_empty t c (eq_sym H)).
    + destruct t as [|x t]; cbn [append].
      * discriminate.
      * intros [= _ H]. exact (IH t H).
Qed.

Lemma dict_get_set_same {A} (key : string) (value : A) (d : Cli.Dict A) :
  Cli.dict_get key (Cli.dict_set key value d) = Some value.
Proof.
  induction d as [|[k v] d IH]; cbn [Cli.dict_set Cli.dict_get].
  - now rewrite String.eqb_refl.
  - destruct (String.eqb k key) eqn:Hk; cbn [Cli.dict_get]; rewrite Hk;
      [reflexivity | exact IH].
Qed.

Lemma dict_get_set_other {A} (key other : string) (value : A)
  (d : Cli.Dict A) :
  key <> other ->
  Cli.dict_get other (Cli.dict_set key value d) = Cli.dict_get other d.
Proof.
  intros Hne. induction d as [|[k v] d IH]; cbn [Cli.dict_set Cli.dict_get].
  - destruct (String.eqb_spec key other); [contradiction | reflexivity].
  - destruct (String.eqb_spec k key) as [->|Hk]; cbn [Cli.dict_get].
    + destruct (String.eqb_spec key other); [contradiction | reflexivity].
    + rewrite IH. reflexivity.
Qed.

Lemma update_get_out {A} (other : Cli.Dict A) :
  forall (d : Cli.Dict A) (key : string),
    ~ In key (map fst other) ->
    Cli.dict_get key (update d other) = Cli.dict_get key d.
Proof.
  unfold update.
  induction other as [|[k v] other IH]; intros d key Hout; cbn [fold_left].
  - reflexivity.
  - cbn [map fst In] in Hout. rewrite IH by tauto. cbn [fst snd].
    apply dict_get_set_other. tauto.
Qed.

Lemma update_get_in {A} (other : Cli.Dict A) :
  forall (d : Cli.Dict A) (key : string),
    In key (map fst other) ->
    exists value,
      In (key, value) other
      /\ Cli.dict_get key (update d other) = Some value.
Proof.
  induction other as [|[k v] other IH]; intros d key Hin.
  - destruct Hin.
  - destruct (in_dec string_dec key (map fst other)) as [Hlater|Hlast].
    + destruct (IH (Cli.dict_set k v d) key Hlater) as (value & Hv & Hget).
      exists value. split; [now right | exact Hget].
    + destruct Hin as [Hk|Hin]; [|contradiction]. cbn [fst] in Hk. subst k.
      exists v. split; [now left|].
      change (update d ((key, v) :: other))
        with (update (Cli.dict_set key v d) other).
      rewrite (update_get_out other _ key Hlast).
      apply dict_get_set_same.
Qed.

Lemma update_get_from {A} (d other : Cli.Dict A) (key : string) (value : A) :
  Cli.dict_get key (update d other) = Some value ->
  Cli.dict_get key d = Some value \/ In (key, value) other.
Proof.
  intros Hget.
  destruct (in_dec string_dec key (map fst other)) as [Hin|Hout].
  - destruct (update_get_in other d key Hin) as (v & Hv & Hget').
    right. congruence.
  - left. now rewrite <- (update_get_out other d key Hout).
Qed.

Lemma mentions_joined (sep s : string) (l : list string) :
  In s l -> mentions (join sep l) s.
Proof.
  induction l as [|p rest IH]; [intros []|].
  intros [->|Hin].
  - destruct rest as [|q rest]; cbn [join].
    + apply mentions_end.
    + exists "", (sep ++ join sep (q :: rest)). reflexivity.
  - destruct rest as [|q rest]; [destruct Hin|].
    destruct (IH Hin) as (before & after & Heq).
    exists (p ++ sep ++ before), after.
    change (join sep (p :: q :: rest)) with (p ++ sep ++ join sep (q :: rest)).
    rewrite Heq, !append_assoc. reflexivity.
Qed.

Section Deploying.
Context {W SecretsManager : Type} {drv : Driver W}
  {dep : Deployer W SecretsManager}.
Variable self : KubeflowOrchestrator.

(** *** The image name *)

Lemma get_docker_image_name_reads (pipeline_name : string) (w : W) :
  get_docker_image_name pipeline_name w
  = mkRun (result (get_docker_image_name pipeline_name w)) w []
  /\ exists image_name,
       result (get_docker_image_name pipeline_name w) = Returned image_name.
Proof.
  unfold get_docker_image_name, bind, gets, ret. cbn [result final events app].
  destruct (container_registry (active_stack w)); cbn [result final events app];
    split; eauto.
Qed.

(** X19.  With a container registry in the active stack, the image
    name is the registry URI without its trailing slashes, one slash, and
    [zenml-kubeflow:] with the pipeline name: however many slashes the
    URI ends with, the name is the same, and the part before
    [/zenml-kubeflow:] never ends with a slash.  Nothing is called and
    the world is left as it is. *)
Theorem image_name_ignores_trailing_slashes (pipeline_name : string)
  (w w' : W) (registry registry' : ContainerRegistry) (n : nat)
  (Hregistry : container_registry (active_stack w) = Some registry)
  (Hregistry' : container_registry (active_stack w') = Some registry')
  (Huri : uri registry' = uri registry ++ copies n "/") :
  result (get_docker_image_name pipeline_name w')
  = result (get_docker_image_name pipeline_name w)
  /\ exists registry_uri m,
       get_docker_image_name pipeline_name w
       = mkRun (Returned (registry_uri ++ "/zenml-kubeflow:" ++ pipeline_name))
           w []
       /\ uri registry = registry_uri ++ copies m "/"
       /\ forall t, registry_uri <> t ++ "/".
Proof.
  unfold get_docker_image_name, bind, gets, ret. cbn [result final events app].
  rewrite Hregistry, Hregistry', Huri. cbn [result final events app].
  rewrite rstrip_append_copies. split; [reflexivity|].
  destruct (rstrip_removes_copies "/" (uri registry)) as (m & Hm).
  exists (rstrip "/" (uri registry)), m.
  split; [reflexivity|]. split; [exact Hm|].
  intros t. apply rstrip_no_trailing.
Qed.

(** *** The warnings of [prepare_pipeline_deployment] *)

Definition has_local_path (stack_comp : StackComponent) : bool :=
  truthy_opt_str (local_path stack_comp).

Definition warned (stack_comp : StackComponent) : DeployEvent :=
  Lifecycle (Logged WARNING (local_component_warning stack_comp)).

Definition warnings (stack : Stack) : list DeployEvent :=
  if truthy_opt_str (kubernetes_context self)
  then map warned (filter has_local_path (components stack))
  else [].

Lemma warn_local_components_run (comps : list StackComponent) (w : W) :
  warn_local_components comps w
  = mkRun (Returned tt) w (map warned (filter has_local_path comps)).
Proof.
  induction comps as [|stack_comp rest IH]; cbn [warn_local_components filter].
  - reflexivity.
  - unfold has_local_path at 1.
    destruct (truthy_opt_str (local_path stack_comp)); cbn [negb].
    + rewrite (bind_run _ _ w w tt [warned stack_comp]) by reflexivity.
      rewrite IH. reflexivity.
    + rewrite (bind_run _ _ w w tt []) by reflexivity.
      rewrite IH. reflexivity.
Qed.

Lemma opening_run (stack : Stack) (w : W) :
  (if truthy_opt_str (kubernetes_context self)
   then warn_local_components (components stack)
   else ret tt) w
  = mkRun (Returned tt) w (warnings stack).
Proof.
  unfold warnings. destruct (truthy_opt_str (kubernetes_context self));
    [apply warn_local_components_run | reflexivity].
Qed.

Lemma warnings_are_warnings (stack : Stack) (ev : DeployEvent) :
  In ev (warnings stack) ->
  exists stack_comp,
    ev = warned stack_comp
    /\ In stack_comp (components stack)
       /\ has_local_path stack_comp = true.
Proof.
  unfold warnings. destruct (truthy_opt_str (kubernetes_context self));
    [|intros []].
  intros Hin. apply in_map_iff in Hin as (stack_comp & <- & Hin).
  apply filter_In in Hin. eauto.
Qed.

(** *** Secrets *)

Lemma fetch_secrets_run (secret_manager : SecretsManager)
  (secrets : list string) :
  forall (environment_vars : Cli.Dict string) (w : W),
    let run := fetch_secrets secret_manager secrets environment_vars w in
    (exists n, events run = map GotSecret (firstn n secrets))
    /\ (forall fetched,
          result run = Returned fetched ->
          events run = map GotSecret secrets
          /\ forall key value,
               Cli.dict_get key fetched = Some value ->
               Cli.dict_get key environment_vars = Some value
               \/ exists secret content w',
                    In secret secrets
                    /\ fst (get_secret secret_manager secret w')
                       = Returned content
                    /\ In (key, value) content)
    /\ (forall e,
          result run = Raised e ->
          exists secret w',
            In secret secrets
            /\ fst (get_secret secret_manager secret w') = Raised e).
Proof.
  induction secrets as [|secret rest IH]; intros environment_vars w;
    cbv zeta; cbn [fetch_secrets].
  - split; [exists 0%nat; reflexivity|]. split.
    + intros fetched [= <-]. split; [reflexivity | auto].
    + discriminate.
  - unfold bind, invoke.
    cbn [result final events].
    destruct (get_secret secret_manager secret w) as [[content|e0] w1] eqn:Hget;
      cbn [fst snd result final events app].
    + destruct (IH (update environment_vars content) w1) as ((n & Hn) & Hok & Hko).
      split; [exists (S n); cbn [firstn map]; now rewrite Hn|]. split.
      * intros fetched Hres. destruct (Hok fetched Hres) as (Hev & Hfrom).
        split; [cbn [map]; now rewrite Hev|].
        intros key value Hkey.
        destruct (Hfrom key value Hkey) as [Hacc|(s & c & w' & Hs & Hc & Hin)].
        -- apply update_get_from in Hacc. destruct Hacc as [Hold|Hnew];
             [now left|].
           right. exists secret, content, w. rewrite Hget.
           split; [now left|]. split; [reflexivity | exact Hnew].
        -- right. exists s, c, w'. split; [now right|]. now split.
      * intros e Hres. destruct (Hko e Hres) as (s & w' & Hs & Hc).
        exists s, w'. split; [now right | exact Hc].
    + split; [exists 1%nat; reflexivity|]. split; [discriminate|].
      intros e [= <-]. exists secret, w. rewrite Hget.
      split; [now left | reflexivity].
Qed.

Lemma fetch_secrets_last (secret_manager : SecretsManager) (last : string)
  (earlier : list string) :
  forall (environment_vars fetched : Cli.Dict string) (w : W),
    result (fetch_secrets secret_manager (earlier ++ [last]) environment_vars w)
    = Returned fetched ->
    exists before content w',
      fst (get_secret secret_manager last w') = Returned content
      /\ fetched = update before content.
Proof.
  induction earlier as [|secret earlier IH]; intros environment_vars fetched w;
    cbn [app fetch_secrets]; intros Hres;
    apply bind_returned_inv in Hres as (content & Hget & Hrest).
  - cbn in Hrest. injection Hrest as <-.
    exists environment_vars, content, w. split; [exact Hget | reflexivity].
  - exact (IH _ _ _ Hrest).
Qed.

Lemma environment_vars_events (secrets : list string) (w : W)
  (ev : DeployEvent) :
  In ev (events (_get_environment_vars_from_secrets secrets w)) ->
  exists secret, ev = GotSecret secret /\ In secret secrets.
Proof.
  unfold _get_environment_vars_from_secrets, bind, gets.
  cbn [result final events app].
  destruct secrets as [|secret rest]; [intros []|].
  destruct (secrets_manager w) as [secret_manager|]; [|intros []].
  destruct (fetch_secrets_run secret_manager (secret :: rest) [] w)
    as ((n & Hn) & _).
  intros Hin.
  assert (Hfetched : In ev (map GotSecret (firstn n (secret :: rest))))
    by (rewrite <- Hn; exact Hin).
  apply in_map_iff in Hfetched as (s & <- & Hs).
  exists s. split; [reflexivity|].
  rewrite <- (firstn_skipn n (secret :: rest)). apply in_or_app. now left.
Qed.

(** X20.  Secrets without a secrets manager are an error, not a silent
    skip: the lookup raises a [ProvisioningError] that names every
    secret asked for, and [prepare_pipeline_deployment] fails with it
    before docker is touched -- it has written log lines and nothing
    else, and the world is as it was. *)
Theorem secrets_need_a_secrets_manager (pipeline : BasePipeline.t)
  (stack : Stack) (runtime_configuration : RuntimeConfiguration) (w : W)
  (Hsecrets : BasePipeline.secrets pipeline <> [])
  (Hmanager : secrets_manager w = None) :
  let error :=
    mkExn ProvisioningError
      (no_secrets_manager_message (BasePipeline.secrets pipeline)) in
  let run :=
    prepare_pipeline_deployment self pipeline stack runtime_configuration w in
  _get_environment_vars_from_secrets (BasePipeline.secrets pipeline) w
  = mkRun (Raised error) w []
  /\ (forall secret,
        In secret (BasePipeline.secrets pipeline) ->
        mentions (exc_message error) secret)
  /\ result run = Raised error
  /\ final run = w
  /\ forall ev, In ev (events run) ->
                exists level message, ev = Lifecycle (Logged level message).
Proof.
  cbv zeta.
  assert (Hlookup :
    _get_environment_vars_from_secrets (BasePipeline.secrets pipeline) w
    = mkRun (Raised (mkExn ProvisioningError
                       (no_secrets_manager_message
                          (BasePipeline.secrets pipeline)))) w []).
  { unfold _get_environment_vars_from_secrets, bind, gets.
    cbn [result final events app]. rewrite Hmanager.
    destruct (BasePipeline.secrets pipeline); [contradiction | reflexivity]. }
  split; [exact Hlookup|]. split.
  { intros secret Hin. cbn [exc_message]. unfold no_secrets_manager_message.
    apply mentions_skip.
    destruct (mentions_joined ", " secret _ Hin) as (before & after & Heq).
    exists before, (after ++ ", however, no secrets manager is registered for the current stack.").
    rewrite Heq, !append_assoc. reflexivity. }
  destruct (get_docker_image_name_reads (BasePipeline.name pipeline) w)
    as (Hreads & image_name & Himage).
  rewrite Himage in Hreads.
  unfold prepare_pipeline_deployment.
  rewrite (bind_run _ _ w w tt (warnings stack)) by apply opening_run.
  rewrite (bind_run _ _ w w image_name []) by exact Hreads.
  rewrite (bind_run _ _ w w tt
             [Lifecycle (Logged DEBUG
                ("Kubeflow docker container requirements: "
                 ++ str_of_set (set_union (stack_requirements stack)
                                  (BasePipeline.requirements pipeline))))])
    by reflexivity.
  erewrite bind_raise by exact Hlookup.
  cbn [result final events app]. split; [reflexivity|].
  split; [reflexivity|].
  intros ev Hin. apply in_app_or in Hin.
  destruct Hin as [Hin | [<- | []]]; [|eauto].
  apply warnings_are_warnings in Hin as (stack_comp & -> & _).
  unfold warned. eauto.
Qed.

(** X21.  With a secrets manager, the secrets are fetched one by one
    in the order given, and the loop stops at the first that fails: the
    events are the fetches of a prefix of the list -- of the whole list
    when the lookup returns -- and an error is the one [get_secret]
    raised, unchanged.  Every variable of the environment returned comes
    from the content of one of the secrets asked for. *)
Theorem secrets_are_fetched_in_order (secrets : list string) (w : W)
  (secret_manager : SecretsManager)
  (Hmanager : secrets_manager w = Some secret_manager) :
  let run := _get_environment_vars_from_secrets secrets w in
  (exists n, events run = map GotSecret (firstn n secrets))
  /\ (forall environment_vars,
        result run = Returned environment_vars ->
        events run = map GotSecret secrets
        /\ forall key value,
             Cli.dict_get key environment_vars = Some value ->
             exists secret content w',
               In secret secrets
               /\ fst (get_secret secret_manager secret w') = Returned content
               /\ In (key, value) content)
  /\ (forall e,
        result run = Raised e ->
        exists secret w',
          In secret secrets
          /\ fst (get_secret secret_manager secret w') = Raised e).
Proof.
  cbv zeta. unfold _get_environment_vars_from_secrets, bind, gets.
  cbn [result final events app]. rewrite Hmanager.
  destruct secrets as [|secret rest].
  - cbn [ret result events]. split; [exists 0%nat; reflexivity|]. split.
    + intros environment_vars [= <-]. split; [reflexivity|]. discriminate.
    + discriminate.
  - destruct (fetch_secrets_run secret_manager (secret :: rest) [] w)
      as (Hprefix & Hok & Hko).
    split; [exact Hprefix|]. split; [|exact Hko].
    intros environment_vars Hres.
    destruct (Hok environment_vars Hres) as (Hev & Hfrom).
    split; [exact Hev|].
    intros key value Hkey.
    destruct (Hfrom key value Hkey) as [Hnone|Hsome];
      [discriminate | exact Hsome].
Qed.

(** X22.  When two secrets define the same variable, the later one
    wins: every key of the content of the last secret is in the
    environment returned, with a value of that content. *)
Theorem later_secrets_override_earlier (earlier : list string)
  (last : string) (w : W) (secret_manager : SecretsManager)
  (environment_vars : Cli.Dict string)
  (Hmanager : secrets_manager w = Some secret_manager)
  (Hreturned :
     result (_get_environment_vars_from_secrets (earlier ++ [last]) w)
     = Returned environment_vars) :
  exists content w',
    fst (get_secret secret_manager last w') = Returned content
    /\ forall key,
         In key (map fst content) ->
         exists value,
           In (key, value) content
           /\ Cli.dict_get key environment_vars = Some value.
Proof.
  unfold _get_environment_vars_from_secrets in Hreturned.
  apply bind_returned_inv in Hreturned as (manager & Hgets & Hreturned).
  cbn in Hgets. rewrite Hmanager in Hgets. injection Hgets as <-.
  cbn [gets final] in Hreturned.
  assert (Hloop : result (fetch_secrets secret_manager (earlier ++ [last]) [] w)
                  = Returned environment_vars).
  { destruct earlier; exact Hreturned. }
  apply fetch_secrets_last in Hloop as (before & content & w' & Hget & ->).
  exists content, w'. split; [exact Hget|].
  intros key Hin. exact (update_get_in content before key Hin).
Qed.

(** *** Building and pushing the image *)

(** The statements of [prepare_pipeline_deployment] that follow its
    debug line. *)
Definition build_and_push (pipeline : BasePipeline.t) (stack : Stack)
  (image_name : string) : M W DeployEvent unit :=
  let requirements :=
    set_union (stack_requirements stack) (BasePipeline.requirements pipeline) in
  environment_vars <-
    _get_environment_vars_from_secrets (BasePipeline.secrets pipeline) ;;
  invoke (Built get_source_root_path image_name
            (BasePipeline.dockerignore_file pipeline) requirements
            (custom_docker_base_image_name self) environment_vars)
    (build_docker_image get_source_root_path image_name
       (BasePipeline.dockerignore_file pipeline) requirements
       (custom_docker_base_image_name self) environment_vars) ;;
  match container_registry stack with
  | Some _ => invoke (Pushed image_name) (push_docker_image image_name)
  | None => ret tt
  end.

Definition requirements_line (pipeline : BasePipeline.t) (stack : Stack)
  : DeployEvent :=
  Lifecycle
    (Logged DEBUG
       ("Kubeflow docker container requirements: "
        ++ str_of_set (set_union (stack_requirements stack)
                         (BasePipeline.requirements pipeline)))).

Lemma prepare_pipeline_deployment_run (pipeline : BasePipeline.t)
  (stack : Stack) (runtime_configuration : RuntimeConfiguration) (w : W)
  (image_name : string) :
  result (get_docker_image_name (BasePipeline.name pipeline) w)
  = Returned image_name ->
  prepare_pipeline_deployment self pipeline stack runtime_configuration w
  = mkRun (result (build_and_push pipeline stack image_name w))
      (final (build_and_push pipeline stack image_name w))
      (warnings stack
       ++ requirements_line pipeline stack
          :: events (build_and_push pipeline stack image_name w)).
Proof.
  intros Himage.
  destruct (get_docker_image_name_reads (BasePipeline.name pipeline) w)
    as (Hreads & _).
  rewrite Himage in Hreads.
  unfold prepare_pipeline_deployment.
  rewrite (bind_run _ _ w w tt (warnings stack)) by apply opening_run.
  rewrite (bind_run _ _ w w image_name []) by exact Hreads.
  rewrite (bind_run _ _ w w tt [requirements_line pipeline stack])
    by reflexivity.
  reflexivity.
Qed.

Lemma in_prepare_pipeline_deployment (pipeline : BasePipeline.t)
  (stack : Stack) (runtime_configuration : RuntimeConfiguration) (w : W)
  (image_name : string) (ev : DeployEvent) :
  result (get_docker_image_name (BasePipeline.name pipeline) w)
  = Returned image_name ->
  (forall ev0, ev <> Lifecycle ev0) ->
  In ev (events (prepare_pipeline_deployment self pipeline stack
                   runtime_configuration w))
  <-> In ev (events (build_and_push pipeline stack image_name w)).
Proof.
  intros Himage Hown.
  rewrite (prepare_pipeline_deployment_run _ _ _ _ _ Himage).
  cbn [events]. split.
  - intros Hin. apply in_app_or in Hin. destruct Hin as [Hin | [Hin | Hin]].
    + apply warnings_are_warnings in Hin as (stack_comp & -> & _).
      now destruct (Hown (Logged WARNING (local_component_warning stack_comp))).
    + symmetry in Hin. now destruct (Hown _ Hin).
    + exact Hin.
  - intros Hin. apply in_or_app. right. now right.
Qed.

(** X23.  What is pushed is what was built.  Every image built is
    named as [get_docker_image_name] says, from the source root, with
    the requirements of the stack and of the pipeline together, the base
    image of the orchestrator and the environment the secrets gave.  An
    image is pushed only when the stack has a container registry, and it
    is the image that was built; and a preparation that returns has built
    an image, and pushed it if the stack has a registry. *)
Theorem pushed_image_is_the_built_image (pipeline : BasePipeline.t)
  (stack : Stack) (runtime_configuration : RuntimeConfiguration) (w : W) :
  let run :=
    prepare_pipeline_deployment self pipeline stack runtime_configuration w in
  (forall build_context_path image dockerignore_path requirements base_image
          environment_vars,
     In (Built build_context_path image dockerignore_path requirements
           base_image environment_vars) (events run) ->
     result (get_docker_image_name (BasePipeline.name pipeline) w)
     = Returned image
     /\ build_context_path = get_source_root_path
     /\ dockerignore_path = BasePipeline.dockerignore_file pipeline
     /\ base_image = custom_docker_base_image_name self
     /\ NoDup requirements
     /\ (forall requirement,
           In requirement requirements
           <-> In requirement (stack_requirements stack)
               \/ In requirement (BasePipeline.requirements pipeline))
     /\ result (_get_environment_vars_from_secrets
                  (BasePipeline.secrets pipeline) w)
        = Returned environment_vars)
  /\ (forall image,
        In (Pushed image) (events run) ->
        container_registry stack <> None
        /\ exists build_context_path dockerignore_path requirements base_image
                  environment_vars,
             In (Built build_context_path image dockerignore_path requirements
                   base_image environment_vars) (events run))
  /\ (result run = Returned tt ->
      exists build_context_path image dockerignore_path requirements
             base_image environment_vars,
        In (Built build_context_path image dockerignore_path requirements
              base_image environment_vars) (events run)
        /\ (container_registry stack <> None -> In (Pushed image) (events run))).
Proof.
  cbv zeta.
  destruct (get_docker_image_name_reads (BasePipeline.name pipeline) w)
    as (_ & image_name & Himage).
  split; [|split].
  - intros build_context_path image dockerignore_path requirements base_image
      environment_vars Hin.
    apply (in_prepare_pipeline_deployment _ _ _ _ image_name) in Hin;
      [|exact Himage | discriminate].
    unfold build_and_push in Hin.
    apply in_bind in Hin as [Hin | (env & Henv & Hin)].
    { apply environment_vars_events in Hin as (secret & Hev & _).
      discriminate Hev. }
    apply in_bind in Hin as [Hin | ([] & _ & Hin)].
    + unfold invoke in Hin. cbn [events In] in Hin.
      destruct Hin as [Hin|[]].
      injection Hin as <- <- <- <- <- <-.
      split; [exact Himage|]. do 3 (split; [reflexivity|]).
      split; [apply NoDup_nodup|]. split; [|exact Henv].
      intros requirement. unfold set_union.
      rewrite nodup_In, in_app_iff. reflexivity.
    + destruct (container_registry stack); unfold invoke, ret in Hin;
        cbn [events In] in Hin; [destruct Hin as [Hin|[]]; discriminate Hin|].
      destruct Hin.
  - intros image Hin.
    pose proof Hin as Hpushed.
    apply (in_prepare_pipeline_deployment _ _ _ _ image_name) in Hin;
      [|exact Himage | discriminate].
    unfold build_and_push in Hin.
    apply in_bind in Hin as [Hin | (env & Henv & Hin)].
    { apply environment_vars_events in Hin as (secret & Hev & _).
      discriminate Hev. }
    apply in_bind in Hin as [Hin | ([] & Hbuilt & Hin)].
    { unfold invoke in Hin. cbn [events In] in Hin.
      destruct Hin as [Hin|[]]. discriminate Hin. }
    destruct (container_registry stack) as [registry|] eqn:Hregistry;
      unfold invoke, ret in Hin; cbn [events In] in Hin; [|destruct Hin].
    destruct Hin as [Hin|[]]. injection Hin as <-.
    split; [discriminate|].
    eexists _, _, _, _, env.
    apply (in_prepare_pipeline_deployment _ _ _ _ image_name);
      [exact Himage | discriminate|].
    unfold build_and_push.
    apply in_bind_later with (a := env); [exact Henv|].
    apply in_bind_first. unfold invoke. cbn [events In]. left. reflexivity.
  - intros Hreturned.
    rewrite (prepare_pipeline_deployment_run _ _ _ _ _ Himage) in Hreturned.
    cbn [result] in Hreturned. unfold build_and_push in Hreturned.
    apply bind_returned_inv in Hreturned as (env & Henv & Hreturned).
    apply bind_returned_inv in Hreturned as ([] & Hbuilt & Hreturned).
    eexists _, image_name, _, _, _, env. split.
    + apply (in_prepare_pipeline_deployment _ _ _ _ image_name);
        [exact Himage | discriminate|].
      unfold build_and_push.
      apply in_bind_later with (a := env); [exact Henv|].
      apply in_bind_first. unfold invoke. cbn [events In]. left. reflexivity.
    + intros Hregistry.
      apply (in_prepare_pipeline_deployment _ _ _ _ image_name);
        [exact Himage | discriminate|].
      unfold build_and_push.
      apply in_bind_later with (a := env); [exact Henv|].
      apply in_bind_later with (a := tt); [exact Hbuilt|].
      destruct (container_registry stack); [|contradiction].
      unfold invoke. cbn [events In]. left. reflexivity.
Qed.

(** *** Running the pipeline *)

Lemma in_lifted {A} (m : M W Event A) (w : W) (ev : DeployEvent) :
  In ev (events (lifted m w)) ->
  exists ev0, ev = Lifecycle ev0 /\ In ev0 (events (m w)).
Proof.
  unfold lifted. cbn [events]. intros Hin.
  apply in_map_iff in Hin as (ev0 & <- & Hin). eauto.
Qed.

(** What a call of the KFP client that starts a run must look like. *)
Definition submits (pipeline_file_path : string)
  (runtime_configuration : RuntimeConfiguration) (enable_cache : bool)
  (c : ClientCall) : Prop :=
  match c with
  | create_run_from_pipeline_package path job caching =>
      path = pipeline_file_path
      /\ job = run_name runtime_configuration
      /\ caching = enable_cache
  | create_recurring_run _ job path caching _ _ _ _ =>
      path = pipeline_file_path
      /\ job = run_name runtime_configuration
      /\ caching = enable_cache
  | _ => True
  end.

Ltac origin :=
  repeat match goal with
    | H : In _ (events (bind _ _ _)) |- _ =>
        apply in_bind in H as [H | (? & ? & H)]; cbv beta in H
    | H : In _ (events (try_except _ _ _ _)) |- _ =>
        apply in_try_except in H as [H | (? & ? & ? & H)]; cbv beta in H
    | H : In _ (events (log _ _ _)) |- _ =>
        unfold log, emit in H; cbn [events In] in H; destruct H as [H|[]]
    | H : In _ (events (client _ _)) |- _ =>
        unfold client, invoke in H; cbn [events In] in H; destruct H as [H|[]]
    | H : In _ (events (ret _ _)) |- _ => destruct H
    | H : Logged _ _ = Client _ |- _ => discriminate H
    | H : Client _ = Client _ |- _ =>
        first [discriminate H | injection H; clear H; intros; subst]
    end.

Lemma upload_submits_the_package (pipeline_name pipeline_file_path : string)
  (runtime_configuration : RuntimeConfiguration) (enable_cache : bool)
  (w : W) (c : ClientCall) :
  In (Client c)
    (events (_upload_and_run_pipeline self pipeline_name pipeline_file_path
               runtime_configuration enable_cache w)) ->
  submits pipeline_file_path runtime_configuration enable_cache c.
Proof.
  intros Hin. unfold _upload_and_run_pipeline, upload_and_run_try in Hin.
  destruct (schedule runtime_configuration) as [schedule|].
  - unfold recurring_run in Hin. origin; cbn [submits]; auto.
  - unfold one_off_run in Hin.
    destruct (synchronous self); origin; cbn [submits]; auto.
Qed.

(** X24.  [run_pipeline] refuses to run in a notebook before it has
    done anything.  Elsewhere, the Kubeflow runner is run once at most,
    on the pipeline, stack and runtime configuration given, after the
    pipeline directory has been made; it writes to
    [<pipeline_directory>/<name>.yaml] and uses the digest of the image
    when docker knows one and the image name otherwise.  Every run the
    KFP client is asked to start is started from that very file, under
    the run name of the runtime configuration and with the caching of the
    pipeline, and only after the runner has run. *)
Theorem run_pipeline_submits_what_the_runner_wrote (pipeline : BasePipeline.t)
  (stack : Stack) (runtime_configuration : RuntimeConfiguration) (w : W) :
  let run := run_pipeline self pipeline stack runtime_configuration w in
  let pipeline_file_path :=
    os_path_join (pipeline_directory self)
      [BasePipeline.name pipeline ++ ".yaml"] in
  (in_notebook w = true ->
   run = mkRun (Raised (mkExn RuntimeError notebook_message)) w
           [AskedNotebook true])
  /\ (forall image output_path p s r,
        In (RunnerRan image output_path p s r) (events run) ->
        in_notebook w = false
        /\ output_path = pipeline_file_path
        /\ p = pipeline /\ s = stack /\ r = runtime_configuration
        /\ (exists image_name digest,
              result (get_docker_image_name (BasePipeline.name pipeline) w)
              = Returned image_name
              /\ fst (get_image_digest image_name w) = Returned digest
              /\ image = or_else digest image_name)
        /\ In (Lifecycle (Called (fileio_makedirs (pipeline_directory self))))
             (events run))
  /\ (forall c,
        In (Lifecycle (Client c)) (events run) ->
        submits pipeline_file_path runtime_configuration
          (BasePipeline.enable_cache pipeline) c
        /\ exists image before after,
             events run
             = (before
                ++ RunnerRan image pipeline_file_path pipeline stack
                     runtime_configuration :: after)%list
             /\ In (Lifecycle (Client c)) after).
Proof.
  cbv zeta.
  destruct (get_docker_image_name_reads (BasePipeline.name pipeline) w)
    as (Hreads & image_name & Himage).
  rewrite Himage in Hreads.
  unfold run_pipeline.
  rewrite (bind_run _ _ w w (in_notebook w) [AskedNotebook (in_notebook w)])
    by reflexivity.
  destruct (in_notebook w) eqn:Hnotebook.
  { cbn [raise result final events app In].
    split; [reflexivity|]. split.
    - intros image output_path p s r [Hin|[]]. discriminate Hin.
    - intros c [Hin|[]]. discriminate Hin. }
  rewrite (bind_run _ _ w w image_name []) by exact Hreads.
  destruct (get_image_digest image_name w) as [[digest|e] w1] eqn:Hdigest.
  2:{ rewrite (bind_raise _ _ w w1 e [GotDigest image_name])
        by (unfold invoke; rewrite Hdigest; reflexivity).
      cbn [result final events app In].
      split; [discriminate|]. split.
      - intros image output_path p s r [Hin|[Hin|[]]]; discriminate Hin.
      - intros c [Hin|[Hin|[]]]; discriminate Hin. }
  rewrite (bind_run _ _ w w1 digest [GotDigest image_name])
    by (unfold invoke; rewrite Hdigest; reflexivity).
  destruct (perform (fileio_makedirs (pipeline_directory self)) w1)
    as [[[]|e] w2] eqn:Hmakedirs.
  2:{ rewrite (bind_raise _ _ w1 w2 e
                 [Lifecycle (Called (fileio_makedirs (pipeline_directory self)))])
        by (unfold lifted, call, invoke; rewrite Hmakedirs; reflexivity).
      cbn [result final events app In].
      split; [discriminate|]. split.
      - intros image output_path p s r [Hin|[Hin|[Hin|[]]]]; discriminate Hin.
      - intros c [Hin|[Hin|[Hin|[]]]]; discriminate Hin. }
  rewrite (bind_run _ _ w1 w2 tt
             [Lifecycle (Called (fileio_makedirs (pipeline_directory self)))])
    by (unfold lifted, call, invoke; rewrite Hmakedirs; reflexivity).
  match goal with
  | |- context [invoke ?ev ?f] =>
      destruct (f w2) as [[[]|e] w3] eqn:Hrunner;
      [ rewrite (bind_run (invoke ev f) _ w2 w3 tt [ev])
          by (unfold invoke; rewrite Hrunner; reflexivity)
      | rewrite (bind_raise (invoke ev f) _ w2 w3 e [ev])
          by (unfold invoke; rewrite Hrunner; reflexivity) ]
  end; cbn [result final events app In].
  - split; [discriminate|]. split.
    + intros image output_path p s r [Hin|[Hin|[Hin|[Hin|Hin]]]];
        try discriminate Hin.
      * injection Hin as <- <- <- <- <-.
        split; [reflexivity|]. do 4 (split; [reflexivity|]).
        split; [|auto].
        exists image_name, digest. rewrite Hdigest. auto.
      * apply in_lifted in Hin as (ev0 & Hev & _). discriminate Hev.
    + intros c [Hin|[Hin|[Hin|[Hin|Hin]]]]; try discriminate Hin.
      pose proof Hin as Hafter.
      apply in_lifted in Hin as (ev0 & [= <-] & Hin).
      split; [exact (upload_submits_the_package _ _ _ _ _ _ Hin)|].
      exists (or_else digest image_name),
        [ AskedNotebook false; GotDigest image_name;
          Lifecycle (Called (fileio_makedirs (pipeline_directory self))) ].
      eexists. split; [reflexivity | exact Hafter].
  - split; [discriminate|]. split.
    + intros image output_path p s r [Hin|[Hin|[Hin|[Hin|[]]]]];
        try discriminate Hin.
      injection Hin as <- <- <- <- <-.
      split; [reflexivity|]. do 4 (split; [reflexivity|]).
      split; [|auto].
      exists image_name, digest. rewrite Hdigest. auto.
    + intros c [Hin|[Hin|[Hin|[Hin|[]]]]]; discriminate Hin.
Qed.

End Deploying.

(** *** After the root validator *)

Section Validated.
Context {W SecretsManager : Type} {drv : Driver W}
  {dep : Deployer W SecretsManager}.

(** X25.  For an orchestrator that went through the root validator,
    local or not, [prepare_pipeline_deployment] begins with one warning
    per stack component that has a local path, in the order of the
    stack, and warns of nothing else: the only log line that follows is
    the debug line with the requirements. *)
Theorem validated_orchestrator_warns_of_local_components
  (values : KubeflowOrchestrator) (pipeline : BasePipeline.t) (stack : Stack)
  (runtime_configuration : RuntimeConfiguration) (w : W) :
  let self := set_default_kubernetes_context values in
  exists rest,
    events (prepare_pipeline_deployment self pipeline stack
              runtime_configuration w)
    = (map warned (filter has_local_path (components stack)) ++ rest)%list
    /\ forall level message,
         In (Lifecycle (Logged level message)) rest -> level = DEBUG.
Proof.
  cbv zeta.
  destruct (get_docker_image_name_reads (BasePipeline.name pipeline) w)
    as (_ & image_name & Himage).
  rewrite (prepare_pipeline_deployment_run _ _ _ _ _ _ Himage).
  cbn [events]. eexists. split.
  - unfold warnings.
    replace (truthy_opt_str
               (kubernetes_context (set_default_kubernetes_context values)))
      with true; [reflexivity|].
    unfold set_default_kubernetes_context.
    destruct (truthy_opt_str (kubernetes_context values)) eqn:Hset;
      [now rewrite Hset | reflexivity].
  - intros level message [Hin|Hin].
    + now injection Hin as <- _.
    + unfold build_and_push in Hin.
      apply in_bind in Hin as [Hin | (env & _ & Hin)].
      { apply environment_vars_events in Hin as (secret & Hev & _).
        discriminate Hev. }
      apply in_bind in Hin as [Hin | ([] & _ & Hin)].
      { unfold invoke in Hin. cbn [events In] in Hin.
        destruct Hin as [Hin|[]]. discriminate Hin. }
      destruct (container_registry stack); unfold invoke, ret in Hin;
        cbn [events In] in Hin; [destruct Hin as [Hin|[]]; discriminate Hin|].
      destruct Hin.
Qed.

End Validated.

(** *** On the simulated build site *)

Import Sim SimDeploy.

Lemma image_name_ignores_trailing_slashes_witness :
  uri slashed_registry = uri remote_registry ++ copies 2 "/"
  /\ result (get_docker_image_name "training" (site slashed_stack None))
     = Returned "gcr.io/my-project/zenml-kubeflow:training".
Proof.
  split; [reflexivity|].
  destruct (image_name_ignores_trailing_slashes "training"
              (site remote_stack None) (site slashed_stack None)
              remote_registry slashed_registry 2) as (Hsame & _).
  - reflexivity.
  - reflexivity.
  - reflexivity.
  - rewrite Hsame. reflexivity.
Defined.

Lemma secrets_need_a_secrets_manager_witness :
  BasePipeline.secrets training <> []
  /\ secrets_manager (site local_stack None) = None
  /\ result (prepare_pipeline_deployment local_orchestrator training
               local_stack one_off (site local_stack None))
     = Raised (mkExn ProvisioningError
                 "Unable to provision local Kubeflow Pipelines deployment: You passed in the following secrets: aws, db, however, no secrets manager is registered for the current stack.").
Proof.
  split; [discriminate|]. split; [reflexivity|].
  destruct (secrets_need_a_secrets_manager local_orchestrator training
              local_stack one_off (site local_stack None))
    as (_ & _ & Hraised & _).
  - discriminate.
  - reflexivity.
  - rewrite Hraised. reflexivity.
Defined.

Lemma secrets_are_fetched_in_order_witness :
  secrets_manager (site local_stack (Some two_secrets)) = Some two_secrets
  /\ exists n,
       events (_get_environment_vars_from_secrets ["aws"; "db"]
                 (site local_stack (Some two_secrets)))
       = map GotSecret (firstn n ["aws"; "db"]).
Proof.
  split; [reflexivity|].
  apply (secrets_are_fetched_in_order ["aws"; "db"]
           (site local_stack (Some two_secrets)) two_secrets).
  reflexivity.
Defined.

Lemma later_secrets_override_earlier_witness :
  result (_get_environment_vars_from_secrets (["aws"] ++ ["db"])
            (site local_stack (Some two_secrets)))
  = Returned [("KEY_ID", "AKIA"); ("PASSWORD", "db-password"); ("USER", "admin")]
  /\ exists content w',
       fst (get_secret two_secrets "db" w') = Returned content
       /\ forall key,
            In key (map fst content) ->
            exists value,
              In (key, value) content
              /\ Cli.dict_get key
                   [("KEY_ID", "AKIA"); ("PASSWORD", "db-password");
                    ("USER", "admin")]
                 = Some value.
Proof.
  assert (Hreturned :
    result (_get_environment_vars_from_secrets (["aws"] ++ ["db"])
              (site local_stack (Some two_secrets)))
    = Returned [("KEY_ID", "AKIA"); ("PASSWORD", "db-password");
                ("USER", "admin")]).
  { vm_compute. reflexivity. }
  assert (Hmanager :
    secrets_manager (site local_stack (Some two_secrets)) = Some two_secrets).
  { reflexivity. }
  split; [exact Hreturned|].
  apply (later_secrets_override_earlier ["aws"] "db"
           (site local_stack (Some two_secrets)) two_secrets _
           Hmanager Hreturned).
Defined.

(** The local orchestrator on the default local stack: the image is
    built with the password of the later secret and pushed to the local
    registry; the two local stores are warned about although the
    orchestrator runs in its own k3d cluster. *)
Example preparing_on_the_local_stack :
  is_local local_orchestrator = true
  /\ events (prepare_pipeline_deployment local_orchestrator training
               local_stack one_off (site local_stack (Some two_secrets)))
     = [ warned local_metadata_store;
         warned local_artifact_store;
         Lifecycle (Logged DEBUG "Kubeflow docker container requirements: {'kfp==1.8.9', 'scikit-learn'}");
         GotSecret "aws";
         GotSecret "db";
         Built "/home/user/project" "localhost:5000/zenml-kubeflow:training"
           None ["kfp==1.8.9"; "scikit-learn"] None
           [("KEY_ID", "AKIA"); ("PASSWORD", "db-password"); ("USER", "admin")];
         Pushed "localhost:5000/zenml-kubeflow:training" ].
Proof. split; vm_compute; reflexivity. Qed.

(** Running the pipeline after it has been pushed: the runner gets the
    digest, and the file it wrote is the one submitted. *)
Example running_after_the_push :
  events (run_pipeline remote_orchestrator plain_training remote_stack one_off
            (final (prepare_pipeline_deployment remote_orchestrator
                      plain_training remote_stack one_off
                      (site remote_stack None))))
  = [ AskedNotebook false;
      GotDigest "gcr.io/my-project/zenml-kubeflow:training";
      Lifecycle (Called (fileio_makedirs "/home/user/.config/zenml/kubeflow/0f2a6c1e-5b7d-4e8f-9a3b-1c2d3e4f5a6b/pipelines"));
      RunnerRan "sha256:gcr.io/my-project/zenml-kubeflow:training"
        "/home/user/.config/zenml/kubeflow/0f2a6c1e-5b7d-4e8f-9a3b-1c2d3e4f5a6b/pipelines/training.yaml"
        plain_training remote_stack one_off;
      Lifecycle (Logged INFO "Running in kubernetes context 'gke_prod'.");
      Lifecycle (Client (kfp_Client (Some "gke_prod")));
      Lifecycle (Logged INFO "No schedule detected. Creating a one-off pipeline run..");
      Lifecycle (Client (create_run_from_pipeline_package
                           "/home/user/.config/zenml/kubeflow/0f2a6c1e-5b7d-4e8f-9a3b-1c2d3e4f5a6b/pipelines/training.yaml"
                           "run-2022" true));
      Lifecycle (Logged INFO "Started one-off pipeline run with ID 'run-1'.") ].
Proof. vm_compute. reflexivity. Qed.

(** In a notebook nothing is run. *)
Example no_run_from_a_notebook :
  run_pipeline remote_orchestrator plain_training remote_stack one_off
    notebook_site
  = mkRun (Raised (mkExn RuntimeError notebook_message)) notebook_site
      [AskedNotebook true].
Proof. vm_compute. reflexivity. Qed.

End DeploymentMore.
